(** * Novellica control panel: the server supervisor of [control_panel.py]

    A shallow embedding of the process supervisor ([ServerManager]) and of
    the control loop ([ControlPanel._tick]) of [control_panel.py], and the
    properties of its start / stop / restart / detection / health-check
    paths.

    Modelling conventions.
    - The program's own store (the manager's fields, the widgets the
      callbacks write, the PID file, and the ordered list of the calls it
      made to the outside) is the record [World]; every method is a
      computation in the state-and-exception monad [M] over it.
    - What the operating system answers is not under the program's control:
      it enters as an [OS] snapshot (process table, sockets, children exit
      codes, health endpoint) and, for the blocking workers, as a record of
      the answers received at each blocking point.  Theorems quantify over
      all of them.
    - A method called on the control thread runs against one snapshot.  A
      background worker is the state transformer of its own statements.
    - A process id is a natural number: the manager only ever stores the
      pid of a child it spawned, or one [psutil.Process] accepted.  What
      the PID file holds is any JSON value, checked where it enters.
    - Deleting the PID file can fail: [remove_pid] takes what [os.remove]
      answers.  The methods of the control thread are modelled on a file
      system that lets the file go; the stop worker, whose cleanup has to
      survive every outcome, is answered by its environment.
    - While a worker sleeps the control loop keeps ticking: the restart
      worker takes what the loop does during each of its sleeps.
    - Durations are integers, in milliseconds. *)

From Stdlib Require Import ZArith List String Ascii Bool Lia.
From Stdlib Require Import DecimalString.
Import ListNotations.
Open Scope string_scope.
Open Scope Z_scope.

Set Implicit Arguments.

(* ------------------------------------------------------------------ *)
(** ** Strings *)

Module Str.

(** [c.lower()] on the ASCII range. *)
Definition lower_ascii (c : ascii) : ascii :=
  let n := nat_of_ascii c in
  if (Nat.leb 65 n && Nat.leb n 90)%bool then ascii_of_nat (n + 32) else c.

Fixpoint lower (s : string) : string :=
  match s with
  | EmptyString => EmptyString
  | String c r => String (lower_ascii c) (lower r)
  end.

(** [needle in s]. *)
Fixpoint contains (needle s : string) : bool :=
  if String.prefix needle s then true
  else match s with
       | EmptyString => false
       | String _ r => contains needle r
       end.

(** [str(n)] for an integer. *)
Definition of_Z (z : Z) : string := NilZero.string_of_int (Z.to_int z).

Definition of_nat (n : nat) : string := of_Z (Z.of_nat n).

Definition of_N (n : N) : string := of_Z (Z.of_N n).

End Str.

(* ------------------------------------------------------------------ *)
(** ** Constants of the module *)

Definition SERVER_PORT : Z := 5000.
Definition SERVER_URL : string := "http://localhost:" ++ Str.of_Z SERVER_PORT.
Definition STARTUP_TIMEOUT : Z := 30.          (* seconds *)
Definition HEALTH_INTERVAL : Z := 2000.        (* ms *)
Definition VENV_PYTHON : string := ".venv_tts/Scripts/python.exe".

(** The control sentinels multiplexed through the log queue. *)
Definition READY : string := "__READY__".
Definition TIMEOUT : string := "__TIMEOUT__".
Definition STOPPED : string := "__STOPPED__".
Definition DO_START : string := "__DO_START__".
Definition PORT_BLOCKED : string := "__PORT_BLOCKED__".
Definition PORT_FREE : string := "__PORT_FREE__".

(* ------------------------------------------------------------------ *)
(** ** Python values and exceptions *)

(** What [json.load] can hand back.  Numbers are the integers; a JSON
    number with a fraction or an exponent is read as a float and is outside
    the model.  [PyNone] is both JSON [null] and Python [None]. *)
#[local] Unset Elimination Schemes.
Inductive pyval : Type :=
| PyNone
| PyBool (b : bool)
| PyInt (z : Z)
| PyStr (s : string)
| PyList (l : list pyval)
| PyDict (kvs : list (string * pyval)).
#[local] Set Elimination Schemes.

(** Truth value of an object in a condition. *)
Definition truthy (v : pyval) : bool :=
  match v with
  | PyNone => false
  | PyBool b => b
  | PyInt z => negb (z =? 0)
  | PyStr s => negb (s =? "")%string
  | PyList l => match l with [] => false | _ => true end
  | PyDict kvs => match kvs with [] => false | _ => true end
  end.

(** [isinstance(v, int)]: [bool] is a subclass of [int]. *)
Definition py_int (v : pyval) : option Z :=
  match v with
  | PyInt z => Some z
  | PyBool b => Some (Z.b2z b)
  | _ => None
  end.

(** [str(v)], as the f-strings of the module print a pid.  Exact for
    [None], booleans, integers, strings and empty containers.  The elements
    of a non-empty container are elided: the module never prints one, a
    non-empty container being truthy and refused by [psutil.Process] before
    any message is built. *)
Definition py_str (v : pyval) : string :=
  match v with
  | PyNone => "None"
  | PyBool true => "True"
  | PyBool false => "False"
  | PyInt z => Str.of_Z z
  | PyStr s => s
  | PyList [] => "[]"
  | PyList _ => "[...]"
  | PyDict [] => "{}"
  | PyDict _ => "{...}"
  end.

(** [d.get(key)] on a dict built from a JSON object: the last binding of a
    repeated key wins, a missing key gives [None]. *)
Fixpoint dict_find (key : string) (kvs : list (string * pyval)) : option pyval :=
  match kvs with
  | [] => None
  | (k, v) :: rest =>
      match dict_find key rest with
      | Some later => Some later
      | None => if (k =? key)%string then Some v else None
      end
  end.

Definition dict_get (key : string) (kvs : list (string * pyval)) : pyval :=
  match dict_find key kvs with
  | Some v => v
  | None => PyNone
  end.

Inductive exn_class : Type :=
| FileNotFoundError
| PermissionError
| JSONDecodeError
| KeyError
| AttributeError
| TypeError
| ValueError
| NoSuchProcess
| ZombieProcess                 (* a subclass of NoSuchProcess *)
| AccessDenied
| PsutilTimeoutExpired          (* psutil.TimeoutExpired *)
| SubprocessTimeoutExpired      (* subprocess.TimeoutExpired *)
| OtherException.

Record exn : Type := Exn { exn_cls : exn_class; exn_msg : string }.

Inductive result (A : Type) : Type :=
| Ok (a : A)
| Raise (e : exn).
Arguments Ok {A} a.
Arguments Raise {A} e.

Definition exn_class_eqb (a b : exn_class) : bool :=
  match a, b with
  | FileNotFoundError, FileNotFoundError
  | PermissionError, PermissionError
  | JSONDecodeError, JSONDecodeError
  | KeyError, KeyError
  | AttributeError, AttributeError
  | TypeError, TypeError
  | ValueError, ValueError
  | NoSuchProcess, NoSuchProcess
  | ZombieProcess, ZombieProcess
  | AccessDenied, AccessDenied
  | PsutilTimeoutExpired, PsutilTimeoutExpired
  | SubprocessTimeoutExpired, SubprocessTimeoutExpired
  | OtherException, OtherException => true
  | _, _ => false
  end.

(** [isinstance(e, c)] for the classes above: the only proper subclass
    relation among them is [ZombieProcess <= NoSuchProcess]. *)
Definition is_instance (e : exn) (c : exn_class) : bool :=
  exn_class_eqb (exn_cls e) c
  || match exn_cls e, c with ZombieProcess, NoSuchProcess => true | _, _ => false end.

(** An [except (c1, c2, ...)] clause. *)
Definition caught_by (cs : list exn_class) (e : exn) : bool :=
  existsb (is_instance e) cs.

(* ------------------------------------------------------------------ *)
(** ** What the operating system answers *)

(** The errors of a [psutil] call on a process. *)
Inductive ps_error : Type := PsNoSuchProcess | PsZombieProcess | PsAccessDenied.

Definition ps_exn (e : ps_error) : exn :=
  match e with
  | PsNoSuchProcess => Exn NoSuchProcess "process no longer exists"
  | PsZombieProcess => Exn ZombieProcess "process still exists but it's a zombie"
  | PsAccessDenied => Exn AccessDenied "access denied"
  end.

(** A [psutil.Process] as the probes read it. *)
Record psproc : Type := PsProc {
  ps_is_running : bool;                       (* proc.is_running() *)
  ps_name : string + ps_error                 (* proc.name() *)
}.

Inductive conn_state : Type := CONN_LISTEN | CONN_ESTABLISHED | CONN_OTHER.

(** An entry of [psutil.net_connections(kind="tcp")]. *)
Record sconn : Type := SConn {
  laddr_port : Z;
  conn_status : conn_state;
  conn_pid : option N
}.

Record OS : Type := MkOS {
  os_process : N -> psproc + ps_error;        (* psutil.Process(pid), pid >= 0 *)
  os_connect : Z -> bool;                     (* connect_ex(("127.0.0.1", port)) == 0 *)
  os_net_connections : list sconn;
  os_returncode : N -> option Z;              (* Popen.poll() of the child with that pid *)
  os_http_200 : string -> bool                (* GET url answers 200 within the timeout *)
}.

(** The handle [subprocess.Popen] returns. *)
Record Popen : Type := MkPopen { popen_pid : N }.

(** [proc.poll()]. *)
Definition poll (os : OS) (proc : Popen) : option Z := os_returncode os (popen_pid proc).

(* ------------------------------------------------------------------ *)
(** ** The program's store *)

(** Content of [.novellica.pid] as [open] and [json.load] see it. *)
Inductive pidfile : Type :=
| NoFile                                      (* open raises FileNotFoundError *)
| Garbage                                     (* json.load raises JSONDecodeError *)
| Json (v : pyval).                           (* json.load returns v *)

(** The targets handed to [threading.Thread]. *)
Inductive thread : Type :=
| T_read_stdout
| T_wait_for_ready
| T_do_stop (pid : option N) (proc : option Popen)
| T_do_restart.

(** The calls the program makes to the outside, in the order made. *)
Inductive event : Type :=
| EvConnect (port : Z)                        (* a TCP connect to loopback *)
| EvHttpGet (url : string)                    (* urllib.request.urlopen *)
| EvPopen                                     (* subprocess.Popen(...) *)
| EvThread (t : thread)                       (* Thread(target=t).start() *)
| EvTerminate (pid : N)
| EvKill (pid : N)
| EvWait (pid : N) (ms : Z)                   (* wait(timeout) on one process *)
| EvWaitProcs (pids : list N) (ms : Z)        (* psutil.wait_procs *)
| EvSleep (ms : Z)
| EvWritePid (pid : N)
| EvRemovePid
| EvStatus (s : string)                       (* the status callback *)
| EvAfter (ms : Z) (what : string).           (* Tk's after(ms, ...) *)

Record ServerManager : Type := MkManager {
  process : option Popen;
  _pid : option N;
  _starting : bool;
  _log_queue : list string                    (* head = oldest *)
}.

Record ControlPanel : Type := MkPanel {
  status_dot_fg : string;
  status_label_text : string;
  status_label_fg : string;
  btn_start : bool;                           (* state == NORMAL *)
  btn_stop : bool;
  btn_restart : bool;
  btn_kill_text : string;
  btn_kill_state : bool;
  btn_kill_packed : bool;
  log_area : list string
}.

Record World : Type := MkWorld {
  mgr : ServerManager;
  ui : ControlPanel;
  pid_file : pidfile;
  trace : list event
}.

Definition set_mgr (m : ServerManager) (w : World) : World :=
  MkWorld m (ui w) (pid_file w) (trace w).
Definition set_ui (u : ControlPanel) (w : World) : World :=
  MkWorld (mgr w) u (pid_file w) (trace w).
Definition set_pid_file (f : pidfile) (w : World) : World :=
  MkWorld (mgr w) (ui w) f (trace w).
Definition add_event (e : event) (w : World) : World :=
  MkWorld (mgr w) (ui w) (pid_file w) (trace w ++ [e]).

(* ------------------------------------------------------------------ *)
(** ** The monad of the methods: state and exceptions *)

Definition M (A : Type) : Type := World -> result A * World.

Definition ret {A} (a : A) : M A := fun w => (Ok a, w).

Definition raise {A} (e : exn) : M A := fun w => (Raise e, w).

Definition bind {A B} (c : M A) (k : A -> M B) : M B :=
  fun w => match c w with
           | (Ok a, w') => k a w'
           | (Raise e, w') => (Raise e, w')
           end.

Declare Scope monad_scope.
Delimit Scope monad_scope with monad.
Notation "x <- c ;; k" := (bind c (fun x => k))
  (at level 61, c at next level, right associativity) : monad_scope.
Notation "c ;; k" := (bind c (fun _ => k))
  (at level 61, right associativity) : monad_scope.
Open Scope monad_scope.

Definition gets {A} (f : World -> A) : M A := fun w => (Ok (f w), w).
Definition modify (f : World -> World) : M unit := fun w => (Ok tt, f w).
Definition emit (e : event) : M unit := modify (add_event e).

(** [if c: body]. *)
Definition when (c : bool) (body : M unit) : M unit := if c then body else ret tt.

(** [for x in xs: body]. *)
Fixpoint for_each {A} (xs : list A) (body : A -> M unit) : M unit :=
  match xs with
  | [] => ret tt
  | x :: rest => body x ;; for_each rest body
  end.

(** [try: c  except <classes handler accepts>: handler].  An exception the
    handler refuses, or one raised by the handler, goes on to the enclosing
    statement. *)
Definition try_except {A} (c : M A) (handler : exn -> option (M A)) : M A :=
  fun w => match c w with
           | (Ok a, w') => (Ok a, w')
           | (Raise e, w') =>
               match handler e with
               | Some h => h w'
               | None => (Raise e, w')
               end
           end.

(** [try: c  finally: f]. *)
Definition try_finally {A} (c : M A) (f : M unit) : M A :=
  fun w => match c w with
           | (r, w') =>
               match f w' with
               | (Ok _, w'') => (r, w'')
               | (Raise e, w'') => (Raise e, w'')
               end
           end.

(** Lift an answer of the outside. *)
Definition answer {A} (r : result A) : M A := fun w => (r, w).

Definition of_ps {A} (r : A + ps_error) : result A :=
  match r with
  | inl a => Ok a
  | inr e => Raise (ps_exn e)
  end.

(** Field assignments of the manager. *)
Definition set_process (p : option Popen) : M unit :=
  modify (fun w => set_mgr (MkManager p (_pid (mgr w)) (_starting (mgr w)) (_log_queue (mgr w))) w).
Definition set_pid (p : option N) : M unit :=
  modify (fun w => set_mgr (MkManager (process (mgr w)) p (_starting (mgr w)) (_log_queue (mgr w))) w).
Definition set_starting (b : bool) : M unit :=
  modify (fun w => set_mgr (MkManager (process (mgr w)) (_pid (mgr w)) b (_log_queue (mgr w))) w).
Definition set_queue (q : list string) : M unit :=
  modify (fun w => set_mgr (MkManager (process (mgr w)) (_pid (mgr w)) (_starting (mgr w)) q) w).

(** [self._log_queue.put(line)]. *)
Definition put (line : string) : M unit :=
  modify (fun w => set_mgr (MkManager (process (mgr w)) (_pid (mgr w)) (_starting (mgr w))
                                      (_log_queue (mgr w) ++ [line])) w).

(** [time.sleep]. *)
Definition sleep (ms : Z) : M unit := emit (EvSleep ms).

(* ------------------------------------------------------------------ *)
(** ** Utility helpers *)

(** [is_pid_alive(pid)]: the process exists, is running and is a Python
    process.  Every error [psutil] raises here is in the [except] clause. *)
Definition is_pid_alive (os : OS) (pid : N) : bool :=
  match os_process os pid with
  | inl proc =>
      if ps_is_running proc then
        match ps_name proc with
        | inl name => Str.contains "python" (Str.lower name)
        | inr (PsNoSuchProcess | PsAccessDenied | PsZombieProcess) => false
        end
      else false
  | inr (PsNoSuchProcess | PsAccessDenied | PsZombieProcess) => false
  end.

(** The pid [psutil.Process(v)] accepts: [v] must be an integer, and not
    a negative one.  Neither error is in the [except] clause of
    [is_pid_alive]. *)
Definition as_pid (v : pyval) : result N :=
  match py_int v with
  | Some z => if z <? 0
              then Raise (Exn ValueError "pid must be a positive integer")
              else Ok (Z.to_N z)
  | None => Raise (Exn TypeError "pid must be an integer")
  end.

(** [is_pid_alive] on whatever [read_pid] returned. *)
Definition is_pid_alive_py (os : OS) (pid : pyval) : M bool :=
  p <- answer (as_pid pid) ;;
  ret (is_pid_alive os p).

(** [is_port_in_use(port)]. *)
Definition is_port_in_use (os : OS) (port : Z) : M bool :=
  emit (EvConnect port) ;; ret (os_connect os port).

(** [http_health_check(url)]. *)
Definition http_health_check (os : OS) (url : string) : M bool :=
  emit (EvHttpGet url) ;; ret (os_http_200 os url).

(** [write_pid(pid)]. *)
Definition write_pid (pid : N) : M unit :=
  emit (EvWritePid pid) ;;
  modify (set_pid_file (Json (PyDict [("pid", PyInt (Z.of_N pid))]))).

(** [with open(PID_FILE) as f: json.load(f)]. *)
Definition load_pid_file : M pyval :=
  fun w => match pid_file w with
           | NoFile => (Raise (Exn FileNotFoundError "No such file or directory"), w)
           | Garbage => (Raise (Exn JSONDecodeError "Expecting value"), w)
           | Json v => (Ok v, w)
           end.

(** [data.get(key)]: only a dict has the method. *)
Definition py_get (data : pyval) (key : string) : M pyval :=
  match data with
  | PyDict kvs => ret (dict_get key kvs)
  | _ => raise (Exn AttributeError "object has no attribute 'get'")
  end.

(** [read_pid()]. *)
Definition read_pid : M pyval :=
  try_except
    (data <- load_pid_file ;; py_get data "pid")
    (fun e => if caught_by [FileNotFoundError; JSONDecodeError; KeyError] e
              then Some (ret PyNone) else None).

(** [os.remove(PID_FILE)].  [removal] is what the file system answers when
    the file is there; a [FileNotFoundError] means that it is there no
    more. *)
Definition os_remove (removal : result unit) : M unit :=
  fun w => match pid_file w with
           | NoFile => (Raise (Exn FileNotFoundError "No such file or directory"), w)
           | Garbage | Json _ =>
               match removal with
               | Ok _ => (Ok tt, set_pid_file NoFile w)
               | Raise e =>
                   (Raise e,
                    if is_instance e FileNotFoundError then set_pid_file NoFile w else w)
               end
           end.

(** [remove_pid()]: only [FileNotFoundError] is passed over; any other
    error of [os.remove] goes on to the caller. *)
Definition remove_pid (removal : result unit) : M unit :=
  emit EvRemovePid ;;
  try_except (os_remove removal)
             (fun e => if caught_by [FileNotFoundError] e then Some (ret tt) else None).

(** [find_port_owner(port)]. *)
Fixpoint find_port_owner_in (conns : list sconn) (port : Z) : option N :=
  match conns with
  | [] => None
  | conn :: rest =>
      if (laddr_port conn =? port)
         && match conn_status conn with CONN_LISTEN => true | _ => false end
      then conn_pid conn
      else find_port_owner_in rest port
  end.

Definition find_port_owner (os : OS) (port : Z) : option N :=
  find_port_owner_in (os_net_connections os) port.

(** [f"{owner}"] for an optional pid. *)
Definition str_opt (o : option N) : string :=
  match o with
  | Some z => Str.of_N z
  | None => "None"
  end.

(** Truth value of an optional pid: [None] and [0] are false. *)
Definition truthy_pid (o : option N) : bool :=
  match o with
  | Some z => negb (z =? 0)%N
  | None => false
  end.

(* ------------------------------------------------------------------ *)
(** ** The callbacks: [ControlPanel._log], [_set_status] *)

Definition set_log_area (l : list string) (u : ControlPanel) : ControlPanel :=
  MkPanel (status_dot_fg u) (status_label_text u) (status_label_fg u)
          (btn_start u) (btn_stop u) (btn_restart u)
          (btn_kill_text u) (btn_kill_state u) (btn_kill_packed u) l.

Definition set_status_widgets (color label : string) (u : ControlPanel) : ControlPanel :=
  MkPanel color label color
          (btn_start u) (btn_stop u) (btn_restart u)
          (btn_kill_text u) (btn_kill_state u) (btn_kill_packed u) (log_area u).

Definition set_buttons (start stop restart : bool) (u : ControlPanel) : ControlPanel :=
  MkPanel (status_dot_fg u) (status_label_text u) (status_label_fg u)
          start stop restart
          (btn_kill_text u) (btn_kill_state u) (btn_kill_packed u) (log_area u).

Definition set_kill_button (text : string) (state packed : bool) (u : ControlPanel)
  : ControlPanel :=
  MkPanel (status_dot_fg u) (status_label_text u) (status_label_fg u)
          (btn_start u) (btn_stop u) (btn_restart u)
          text state packed (log_area u).

(** [ControlPanel._log(msg)]. *)
Definition _log (msg : string) : M unit :=
  modify (fun w => set_ui (set_log_area (log_area (ui w) ++ [msg]) (ui w)) w).

Definition STATUS_COLORS : list (string * (string * string)) :=
  [ ("running",  ("#4ade80", "Running"));
    ("stopped",  ("#5a6478", "Stopped"));
    ("starting", ("#fbbf24", "Starting..."));
    ("stopping", ("#fbbf24", "Stopping..."));
    ("error",    ("#f87171", "Error")) ].

(** [STATUS_COLORS.get(status, default)]. *)
Fixpoint colors_get (table : list (string * (string * string))) (status : string)
         (default : string * string) : string * string :=
  match table with
  | [] => default
  | (k, v) :: rest => if (k =? status)%string then v else colors_get rest status default
  end.

(** [ControlPanel._update_buttons(status)]. *)
Definition _update_buttons (status : string) : M unit :=
  if (status =? "running")%string then
    modify (fun w => set_ui (set_buttons false true true (ui w)) w)
  else if ((status =? "stopped") || (status =? "error"))%string then
    modify (fun w => set_ui (set_buttons true false false (ui w)) w)
  else
    modify (fun w => set_ui (set_buttons false false false (ui w)) w).

(** [ControlPanel._set_status(status)]. *)
Definition _set_status (status : string) : M unit :=
  emit (EvStatus status) ;;
  let '(color, label) := colors_get STATUS_COLORS status ("#5a6478", status) in
  modify (fun w => set_ui (set_status_widgets color label (ui w)) w) ;;
  _update_buttons status.

(** The manager's [self._status] is bound to [_set_status] by
    [ControlPanel.__init__]. *)
Definition _status : string -> M unit := _set_status.

(** [ControlPanel._show_kill_button()]. *)
Definition _show_kill_button (os : OS) : M unit :=
  let owner_pid := find_port_owner os SERVER_PORT in
  if truthy_pid owner_pid then
    let name :=
      match owner_pid with
      | Some z => match os_process os z with
                  | inl proc => match ps_name proc with
                                | inl n => n
                                | inr _ => "unknown"
                                end
                  | inr _ => "unknown"
                  end
      | None => "unknown"
      end in
    modify (fun w => set_ui (set_kill_button
                               ("☠ Kill " ++ name ++ " (PID " ++ str_opt owner_pid ++ ")")
                               true true (ui w)) w)
  else
    modify (fun w => set_ui (set_kill_button (btn_kill_text (ui w)) (btn_kill_state (ui w))
                                             false (ui w)) w).

(** [ControlPanel._hide_kill_button()]. *)
Definition _hide_kill_button : M unit :=
  modify (fun w => set_ui (set_kill_button (btn_kill_text (ui w)) (btn_kill_state (ui w))
                                           false (ui w)) w).

(** [threading.Thread(target=t, daemon=True).start()]. *)
Definition thread_start (t : thread) : M unit := emit (EvThread t).

(* ------------------------------------------------------------------ *)
(** ** [ServerManager] *)

(** [ServerManager._detect_existing()]. *)
Definition _detect_existing (os : OS) : M unit :=
  pid <- read_pid ;;
  alive <- (if truthy pid then is_pid_alive_py os pid else ret false) ;;
  adopted <-
    (if alive then
       (* PID is valid, confirm with port check *)
       listening <- is_port_in_use os SERVER_PORT ;;
       if listening then
         set_pid (option_map Z.to_N (py_int pid)) ;;
         _log ("Detected existing server (PID " ++ py_str pid ++ ") on port "
               ++ Str.of_Z SERVER_PORT ++ ".") ;;
         _status "running" ;;
         ret true
       else
         _log ("PID " ++ py_str pid ++ " alive but port " ++ Str.of_Z SERVER_PORT
               ++ " not open. Treating as stale.") ;;
         ret false
     else ret false) ;;
  if adopted then ret tt
  else
    (* Stale PID cleanup *)
    when (match pid with PyNone => false | _ => true end)
         (_log ("Cleaning up stale PID file (PID " ++ py_str pid ++ ").") ;;
          remove_pid (Ok tt)) ;;
    (* Also check if something else is on the port *)
    blocked <- is_port_in_use os SERVER_PORT ;;
    when blocked
         (let owner := find_port_owner os SERVER_PORT in
          _log ("⚠ Port " ++ Str.of_Z SERVER_PORT ++ " is in use by another process (PID "
                ++ str_opt owner ++ "). Start will fail until that process is stopped.") ;;
          put PORT_BLOCKED) ;;
    _status "stopped".

(** [ServerManager.__init__]. *)
Definition ServerManager_init (os : OS) : M unit :=
  modify (set_mgr (MkManager None None false [])) ;;
  _detect_existing os.

(** The property [ServerManager.is_running]. *)
Definition is_running_of (os : OS) (m : ServerManager) : bool :=
  if truthy_pid (_pid m)
     && match _pid m with Some z => is_pid_alive os z | None => false end
  then true
  else if match process m with
          | Some proc => match poll os proc with None => true | Some _ => false end
          | None => false
          end
  then true
  else false.

Definition is_running (os : OS) : M bool := gets (fun w => is_running_of os (mgr w)).

(** [subprocess.Popen([VENV_PYTHON, "-u", SERVER_SCRIPT], ...)]: the
    outcome is the operating system's. *)
Definition popen (spawn : result Popen) : M Popen := emit EvPopen ;; answer spawn.

(** [ServerManager.start()]. *)
Definition start (os : OS) (spawn : result Popen) : M unit :=
  running <- is_running os ;;
  if running then _log "Server is already running."
  else
    blocked <- is_port_in_use os SERVER_PORT ;;
    if blocked then
      let owner := find_port_owner os SERVER_PORT in
      _log ("✗ Port " ++ Str.of_Z SERVER_PORT ++ " is already in use (PID "
            ++ str_opt owner ++ "). Cannot start.") ;;
      put PORT_BLOCKED ;;
      _status "error"
    else
      set_starting true ;;
      _status "starting" ;;
      _log "Starting Novellica server..." ;;
      try_except
        (proc <- popen spawn ;;
         set_process (Some proc) ;;
         set_pid (Some (popen_pid proc)) ;;
         write_pid (popen_pid proc) ;;
         _log ("Process spawned (PID " ++ Str.of_N (popen_pid proc)
               ++ "). Waiting for HTTP 200...") ;;
         (* Threaded log reader *)
         thread_start T_read_stdout ;;
         (* Threaded startup confirmation *)
         thread_start T_wait_for_ready)
        (fun e =>
           if is_instance e FileNotFoundError then
             Some (_log ("✗ Python executable not found: " ++ VENV_PYTHON) ;;
                   _status "error" ;;
                   set_starting false)
           else if is_instance e PermissionError then
             Some (_log ("✗ Permission error: " ++ exn_msg e) ;;
                   _status "error" ;;
                   set_starting false)
           else
             Some (_log ("✗ Failed to start: " ++ exn_msg e) ;;
                   _status "error" ;;
                   set_starting false)).

(** One pass of the readiness poller sees the clock and the system. *)
Record ready_obs : Type := MkReadyObs {
  ro_clock : Z;                                (* time.time(), ms *)
  ro_os : OS
}.

(** The [while time.time() < deadline] loop of [_wait_for_ready], one
    observation per pass.  [None]: the observations ran out with the loop
    still polling. *)
Fixpoint _wait_for_ready_loop (deadline : Z) (obs : list ready_obs) : M (option unit) :=
  match obs with
  | [] => ret None
  | o :: later =>
      if ro_clock o <? deadline then
        proc <- gets (fun w => process (mgr w)) ;;
        (* If process died, abort *)
        if match proc with
           | Some p => match poll (ro_os o) p with Some _ => true | None => false end
           | None => false
           end
        then
          put "✗ Server process exited before becoming ready." ;;
          set_starting false ;;
          ret (Some tt)                        (* on_process_end will handle status *)
        else
          healthy <- http_health_check (ro_os o) SERVER_URL ;;
          if healthy then
            put ("✓ Server ready at " ++ SERVER_URL) ;;
            set_starting false ;;
            (* Signal main thread to update status + open browser *)
            put READY ;;
            ret (Some tt)
          else
            sleep 500 ;;
            _wait_for_ready_loop deadline later
      else
        (* Timeout *)
        put ("✗ Server did not respond within " ++ Str.of_Z STARTUP_TIMEOUT
             ++ "s. Check logs.") ;;
        set_starting false ;;
        put TIMEOUT ;;
        ret (Some tt)
  end.

(** [ServerManager._wait_for_ready()], started at clock [t0]. *)
Definition _wait_for_ready (t0 : Z) (obs : list ready_obs) : M (option unit) :=
  let deadline := t0 + STARTUP_TIMEOUT * 1000 in
  _wait_for_ready_loop deadline obs.

(** [ServerManager.stop()]: the part run by the caller. *)
Definition stop (os : OS) : M unit :=
  running <- is_running os ;;
  if negb running then _log "Server is not running."
  else
    _status "stopping" ;;
    _log "Stopping server..." ;;
    pid <- gets (fun w => _pid (mgr w)) ;;
    proc <- gets (fun w => process (mgr w)) ;;
    thread_start (T_do_stop pid proc).

(** What the stop worker is answered at its blocking points. *)
Record stop_env : Type := MkStopEnv {
  se_os : OS;                                  (* the system when the worker starts *)
  se_terminate : result unit;                  (* terminate() *)
  se_wait : result unit;                       (* wait(timeout=5) *)
  se_os_late : OS;                             (* the system once that wait has expired *)
  se_kill : result unit;                       (* kill() *)
  se_wait_kill : result unit;                  (* proc.wait(timeout=3) *)
  se_remove : result unit                      (* os.remove(PID_FILE), in the finally *)
}.

(** The branch of [_do_stop] for a process this manager spawned: [proc]
    is the [Popen] handle and has not exited. *)
Definition _do_stop_owned (env : stop_env) (pid : option N) (proc : Popen) : M unit :=
  emit (EvTerminate (popen_pid proc)) ;; answer (se_terminate env) ;;
  try_except
    (emit (EvWait (popen_pid proc) 5000) ;; answer (se_wait env) ;;
     put "Server stopped gracefully.")
    (fun e =>
       if is_instance e SubprocessTimeoutExpired then
         Some
           ((* Verify PID + name before force-killing *)
            if truthy_pid pid
               && match pid with
                  | Some z => is_pid_alive (se_os_late env) z
                  | None => false
                  end
            then
              put "Graceful stop timed out. Force killing..." ;;
              emit (EvKill (popen_pid proc)) ;; answer (se_kill env) ;;
              emit (EvWait (popen_pid proc) 3000) ;; answer (se_wait_kill env)
            else
              put "Process already exited.")
       else None).

(** The branch of [_do_stop] for an adopted process (detected from the PID
    file, no [Popen] handle): [elif pid and is_pid_alive(pid)]. *)
Definition _do_stop_adopted (env : stop_env) (pid : option N) : M unit :=
  match pid with
  | Some z =>
      when (negb (z =? 0)%N && is_pid_alive (se_os env) z)
           (put ("Terminating adopted process PID " ++ Str.of_N z ++ "...") ;;
            try_except
              (_ <- answer (of_ps (os_process (se_os env) z)) ;;       (* p = psutil.Process(pid) *)
               emit (EvTerminate z) ;; answer (se_terminate env) ;;
               emit (EvWait z 5000) ;; answer (se_wait env) ;;
               put "Adopted process stopped.")
              (fun e =>
                 if is_instance e PsutilTimeoutExpired then
                   Some (when (is_pid_alive (se_os_late env) z)
                              (_ <- answer (of_ps (os_process (se_os_late env) z)) ;;
                               emit (EvKill z) ;; answer (se_kill env) ;;
                               put "Adopted process force-killed."))
                 else
                   Some (put ("Error stopping adopted process: " ++ exn_msg e))))
  | None => ret tt
  end.

(** The worker [_do_stop] of [ServerManager.stop()], closed over the [pid]
    and [proc] read by [stop]. *)
Definition _do_stop (env : stop_env) (pid : option N) (proc : option Popen) : M unit :=
  try_finally
    (try_except
       (match proc with
        | Some p =>
            if match poll (se_os env) p with None => true | Some _ => false end
            then _do_stop_owned env pid p
            else _do_stop_adopted env pid
        | None => _do_stop_adopted env pid
        end)
       (fun e => Some (put ("Error during stop: " ++ exn_msg e))))
    (remove_pid (se_remove env) ;;
     set_pid None ;;
     set_process None ;;
     put STOPPED).

(** [ServerManager.restart()]: the part run by the caller. *)
Definition restart : M unit :=
  _log "Restarting server..." ;;
  thread_start T_do_restart.




(** [ServerManager.health_check()]. *)
Definition health_check (os : OS) : M string :=
  starting <- gets (fun w => _starting (mgr w)) ;;
  if starting then ret "starting"
  else
    pid <- gets (fun w => _pid (mgr w)) ;;
    if truthy_pid pid
       && match pid with Some z => is_pid_alive os z | None => false end
    then ret "running"
    else if truthy_pid pid then
      (* Process died externally *)
      remove_pid (Ok tt) ;;
      set_pid None ;;
      set_process None ;;
      ret "stopped"
    else
      proc <- gets (fun w => process (mgr w)) ;;
      if match proc with
         | Some p => match poll os p with Some _ => true | None => false end
         | None => false
         end
      then set_process None ;; ret "stopped"
      else ret "stopped".

(** What the tree killer is answered.  A [psutil.Process] is named here by
    its pid. *)
Record kill_env : Type := MkKillEnv {
  ke_name : N -> string + ps_error;            (* p.name() on entry *)
  ke_children : list N + ps_error;             (* proc.children(recursive=True) *)
  ke_terminate : N -> unit + ps_error;         (* p.terminate() *)
  ke_wait_procs : list N * list N;             (* (gone, alive) of the 5 s wait_procs *)
  ke_name_late : N -> string + ps_error;       (* p.name() after the wait *)
  ke_kill : N -> unit + ps_error               (* p.kill() *)
}.

(** [except (psutil.NoSuchProcess, psutil.AccessDenied): pass]. *)
Definition pass_gone_or_denied (e : exn) : option (M unit) :=
  if caught_by [NoSuchProcess; AccessDenied] e then Some (ret tt) else None.

(** [ServerManager._kill_process_tree(proc)]. *)
Definition _kill_process_tree (env : kill_env) (proc : N) : M unit :=
  proc_name <- answer (of_ps (ke_name env proc)) ;;
  let pid := proc in
  (* Collect the whole family first *)
  let children :=
    match ke_children env with
    | inl cs => cs
    | inr (PsNoSuchProcess | PsZombieProcess | PsAccessDenied) => []
    end in
  (* Terminate parent first *)
  _log ("Terminating " ++ proc_name ++ " (PID " ++ Str.of_N pid ++ ") + "
        ++ Str.of_nat (List.length children) ++ " child process(es)...") ;;
  try_except (emit (EvTerminate proc) ;; answer (of_ps (ke_terminate env proc)))
             pass_gone_or_denied ;;
  (* Terminate all children *)
  for_each children
           (fun child =>
              try_except (emit (EvTerminate child) ;; answer (of_ps (ke_terminate env child)))
                         pass_gone_or_denied) ;;
  (* Wait for graceful exit *)
  emit (EvWaitProcs (proc :: children) 5000) ;;
  let '(gone, alive) := ke_wait_procs env in
  when (match gone with [] => false | _ => true end)
       (_log ("✓ " ++ Str.of_nat (List.length gone) ++ " process(es) stopped gracefully.")) ;;
  (* Force-kill anything still alive *)
  for_each alive
           (fun p =>
              try_except
                (name <- answer (of_ps (ke_name_late env p)) ;;
                 _log ("Force-killing " ++ name ++ " (PID " ++ Str.of_N p ++ ")...") ;;
                 emit (EvKill p) ;; answer (of_ps (ke_kill env p)))
                pass_gone_or_denied) ;;
  when (match alive with [] => false | _ => true end)
       (emit (EvWaitProcs alive 3000)).

(* ------------------------------------------------------------------ *)
(** ** [ControlPanel]: the tick of the control loop *)

(** [ServerManager.drain_logs()]. *)
Definition drain_logs : M (list string) :=
  lines <- gets (fun w => _log_queue (mgr w)) ;;
  set_queue [] ;;
  ret lines.

(** The body of the [for line in self.mgr.drain_logs()] loop of [_tick]. *)
Definition _tick_line (os : OS) (spawn : result Popen) (line : string) : M unit :=
  if (line =? READY)%string then
    _set_status "running" ;;
    _hide_kill_button ;;
    emit (EvAfter 300 "webbrowser.open")
  else if (line =? TIMEOUT)%string then
    _set_status "error"
  else if (line =? STOPPED)%string then
    _set_status "stopped"
  else if (line =? DO_START)%string then
    start os spawn
  else if (line =? PORT_BLOCKED)%string then
    _show_kill_button os
  else if (line =? PORT_FREE)%string then
    _hide_kill_button ;;
    _log "✓ Port is now free. You can start the server." ;;
    _set_status "stopped"
  else
    _log line.

(** [ControlPanel._tick()]. *)
Definition _tick (os : OS) (spawn : result Popen) : M unit :=
  (* Drain log queue *)
  lines <- drain_logs ;;
  for_each lines (_tick_line os spawn) ;;
  (* Health check *)
  status <- health_check os ;;
  current_label <- gets (fun w => status_label_text (ui w)) ;;
  let expected_label := snd (colors_get STATUS_COLORS status ("", "")) in
  when (negb (current_label =? expected_label)%string
        && negb ((current_label =? "Starting...") || (current_label =? "Stopping..."))%string)
       (_set_status status) ;;
  emit (EvAfter HEALTH_INTERVAL "_tick").


(** The window as [_build_ui] leaves it, before the manager exists. *)
Definition initial_panel : ControlPanel :=
  MkPanel "#5a6478" "Detecting..." "#8b95a8" true false false
          "☠ Kill Blocking Process" true false [].

(** The store when [ControlPanel.__init__] reaches the manager, given the
    PID file found on disk. *)
Definition initial_world (f : pidfile) : World :=
  MkWorld (MkManager None None false []) initial_panel f [].


(* ------------------------------------------------------------------ *)
(** ** [ServerManager]: port-conflict resolution and refresh *)

(** What [psutil] answers while the tree is climbed.  A [psutil.Process]
    is named by its pid. *)
Record family_env : Type := MkFamilyEnv {
  fe_process : N -> unit + ps_error;           (* psutil.Process(pid) *)
  fe_parent : N -> option N + ps_error;        (* p.parent() *)
  fe_name : N -> string + ps_error             (* p.name() *)
}.

(** The [while parent is not None] loop of [_find_root_python_parent],
    entered with the current [root] and [parent].  [None]: the fuel ran out
    with the loop still climbing. *)
Fixpoint climb (fuel : nat) (env : family_env) (root : N) (parent : option N) : option N :=
  match parent with
  | None => Some root
  | Some q =>
      match fuel with
      | O => None
      | S fuel' =>
          match fe_name env q with
          | inl name =>
              if Str.contains "python" (Str.lower name) then
                (* root = parent; parent = parent.parent() *)
                match fe_parent env q with
                | inl grandparent => climb fuel' env q grandparent
                | inr (PsNoSuchProcess | PsZombieProcess | PsAccessDenied) => Some q
                end
              else Some root                   (* break *)
          | inr (PsNoSuchProcess | PsZombieProcess | PsAccessDenied) => Some root
          end
      end
  end.

(** [ServerManager._find_root_python_parent(pid)].  The outer [None] is
    the fuel running out, the inner one the [None] the method returns. *)
Definition _find_root_python_parent (fuel : nat) (env : family_env) (pid : N)
  : option (option N) :=
  match fe_process env pid with
  | inr (PsNoSuchProcess | PsZombieProcess | PsAccessDenied) => Some None
  | inl _ =>
      match fe_parent env pid with
      | inl parent =>
          match climb fuel env pid parent with
          | Some root => Some (Some root)
          | None => None
          end
      | inr (PsNoSuchProcess | PsZombieProcess | PsAccessDenied) => Some (Some pid)
      end
  end.

(** What the port-conflict worker is answered. *)
Record blocker_env : Type := MkBlockerEnv {
  be_os : OS;                                  (* the system when the worker starts *)
  be_family : family_env;
  be_taskkill : result unit;                   (* subprocess.run(["taskkill", ...]) *)
  be_kill : kill_env;
  be_port : nat -> OS                          (* the system at the i-th port check *)
}.

(** The [for attempt in range(n)] loop that ends [kill_port_blocker]:
    [true] when the loop returned after queuing [PORT_FREE]. *)
Fixpoint verify_port_free (n : nat) (i : nat) (port_at : nat -> OS) : M bool :=
  match n with
  | O => ret false
  | S n' =>
      sleep 500 ;;
      in_use <- is_port_in_use (port_at i) SERVER_PORT ;;
      if negb in_use then put PORT_FREE ;; ret true
      else verify_port_free n' (S i) port_at
  end.

(** The part of [kill_port_blocker] under its [try]. *)
Definition kill_blocker_tree (env : blocker_env) (owner_pid : N) (root : option N) : M unit :=
  match root with
  | None =>
      _log ("PID " ++ Str.of_N owner_pid
            ++ " not found. Attempting direct kill via taskkill...") ;;
      try_except
        (answer (be_taskkill env) ;;
         _log ("Sent taskkill for PID " ++ Str.of_N owner_pid ++ "."))
        (fun e => Some (_log ("taskkill failed: " ++ exn_msg e)))
  | Some r =>
      name <- answer (of_ps (fe_name (be_family env) r)) ;;
      _log ("Found process tree root: " ++ name ++ " (PID " ++ Str.of_N r ++ ")") ;;
      _kill_process_tree (be_kill env) r
  end.

(** [ServerManager.kill_port_blocker()].  [None]: the climb ran out of
    fuel. *)
Definition kill_port_blocker (fuel : nat) (env : blocker_env) : M (option unit) :=
  let owner_pid := find_port_owner (be_os env) SERVER_PORT in
  match owner_pid with
  | Some owner =>
      if (owner =? 0)%N then
        _log "Port is already free." ;; put PORT_FREE ;; ret (Some tt)
      else
        match _find_root_python_parent fuel (be_family env) owner with
        | None => ret None
        | Some root =>
            try_except
              (kill_blocker_tree env owner root)
              (fun e =>
                 if is_instance e AccessDenied then
                   Some (_log "✗ Access denied. Try running the Control Panel as Administrator.")
                 else
                   Some (_log ("✗ Error killing blocker: " ++ exn_msg e))) ;;
            (* Verify port is free (retry a few times) *)
            freed <- verify_port_free 6 0 (be_port env) ;;
            if freed then ret (Some tt)
            else
              (* Still blocked: signal so UI can reset the button *)
              _log "⚠ Port still in use. Try closing the terminal that started the server." ;;
              put PORT_BLOCKED ;;
              ret (Some tt)
        end
  | None =>
      _log "Port is already free." ;; put PORT_FREE ;; ret (Some tt)
  end.

(** [ServerManager.refresh_state()]. *)
Definition refresh_state (os : OS) : M unit :=
  _log "Refreshing state..." ;;
  (* Check if our managed process is still alive *)
  tracked <- gets (fun w => _pid (mgr w)) ;;
  when (truthy_pid tracked
        && negb match tracked with Some z => is_pid_alive os z | None => false end)
       (_log ("Managed PID " ++ str_opt tracked ++ " is gone. Cleaning up.") ;;
        remove_pid (Ok tt) ;;
        set_pid None ;;
        set_process None) ;;
  (* Re-run the full detection *)
  pid <- read_pid ;;
  alive <- (if truthy pid then is_pid_alive_py os pid else ret false) ;;
  adopted <-
    (if alive then
       listening <- is_port_in_use os SERVER_PORT ;;
       if listening then
         set_pid (option_map Z.to_N (py_int pid)) ;;
         _log ("✓ Server running (PID " ++ py_str pid ++ ") on port "
               ++ Str.of_Z SERVER_PORT ++ ".") ;;
         _status "running" ;;
         put PORT_FREE ;;                      (* hide kill button *)
         ret true
       else ret false
     else ret false) ;;
  if adopted then ret tt
  else
    blocked <- is_port_in_use os SERVER_PORT ;;
    if blocked then
      let owner := find_port_owner os SERVER_PORT in
      _log ("⚠ Port " ++ Str.of_Z SERVER_PORT ++ " blocked by foreign process (PID "
            ++ str_opt owner ++ ").") ;;
      put PORT_BLOCKED ;;
      _status "stopped"
    else
      _log "✓ Port is free. Server is stopped." ;;
      put PORT_FREE ;;
      _status "stopped".

(* ================================================================== *)
(** * Vocabulary of the properties *)

(** The deletion of the PID file goes through: [os.remove] returns, or
    raises the one error [remove_pid] passes over. *)
Definition removal_passes (removal : result unit) : Prop :=
  match removal with
  | Ok _ => True
  | Raise e => is_instance e FileNotFoundError = true
  end.

(** [evs] is what a computation added to the list of outside calls. *)
Definition new_events (w w' : World) (evs : list event) : Prop :=
  trace w' = (trace w ++ evs)%list.


(** The three status strings the passive re-check can return. *)
Definition passive_status (s : string) : Prop :=
  s = "starting" \/ s = "running" \/ s = "stopped".

(** The PID file holds a record whose [pid] entry is the pid [p]. *)
Definition record_names (w : World) (p : N) : Prop :=
  exists kvs, pid_file w = Json (PyDict kvs) /\ dict_get "pid" kvs = PyInt (Z.of_N p).


(** A manager that tracks pid [z], and a system in which [z] is dead. *)
Definition tracks_dead_pid (os : OS) (w : World) : Prop :=
  exists z, _pid (mgr w) = Some z /\ z <> 0%N /\ is_pid_alive os z = false.

(** A system with no process at all, nothing listening, every child
    exited with code 1. *)
Definition os_empty : OS :=
  MkOS (fun _ => inr PsNoSuchProcess) (fun _ => false) [] (fun _ => Some 1) (fun _ => false).

(** The window showing a given status, otherwise as built. *)
Definition panel_showing (label : string) : ControlPanel :=
  MkPanel "#fbbf24" label "#fbbf24" false false false
          "☠ Kill Blocking Process" true false [].

(** The store right after [start] spawned pid 4242. *)
Definition w_just_spawned : World :=
  MkWorld (MkManager (Some (MkPopen 4242)) (Some 4242%N) true [])
          (panel_showing "Starting...")
          (Json (PyDict [("pid", PyInt 4242)]))
          [].

(** The store of a manager that runs pid 4242 and shows "Running". *)
Definition w_running : World :=
  MkWorld (MkManager (Some (MkPopen 4242)) (Some 4242%N) false [])
          (MkPanel "#4ade80" "Running" "#4ade80" false true true
                   "☠ Kill Blocking Process" true false [])
          (Json (PyDict [("pid", PyInt 4242)]))
          [].

(** The well-known port is held by a process that is neither the tracked
    pid nor the child behind the handle. *)
Definition port_held_by_stranger (os : OS) (w : World) : Prop :=
  os_connect os SERVER_PORT = true
  /\ exists owner,
       find_port_owner os SERVER_PORT = Some owner
       /\ _pid (mgr w) <> Some owner
       /\ process (mgr w) <> Some (MkPopen owner).

(** [start] spawned nothing: no [Popen] call, no worker thread, no PID
    written, the handle, the pid and the PID file as they were. *)
Definition nothing_spawned (w w' : World) (evs : list event) : Prop :=
  ~ In EvPopen evs
  /\ (forall t, ~ In (EvThread t) evs)
  /\ (forall p, ~ In (EvWritePid p) evs)
  /\ process (mgr w') = process (mgr w)
  /\ _pid (mgr w') = _pid (mgr w)
  /\ pid_file w' = pid_file w.

(** [start] was refused for a blocked port: nothing spawned, status
    "error", the [PORT_BLOCKED] sentinel queued. *)
Definition refused_as_blocked (os : OS) (spawn : result Popen) (w : World) : Prop :=
  exists w' evs,
    start os spawn w = (Ok tt, w')
    /\ new_events w w' evs
    /\ nothing_spawned w w' evs
    /\ In (EvStatus "error") evs
    /\ status_label_text (ui w') = "Error"
    /\ _log_queue (mgr w') = (_log_queue (mgr w) ++ [PORT_BLOCKED])%list.

(** A system in which pid 4242 is a live Python process, and the port is
    open and held by pid 777, an unrelated listener. *)
Definition os_stranger_on_port : OS :=
  MkOS (fun pid => if (pid =? 4242)%N then inl (PsProc true (inl "python.exe"))
                   else if (pid =? 777)%N then inl (PsProc true (inl "node.exe"))
                   else inr PsNoSuchProcess)
       (fun port => port =? 5000)
       [SConn 5000 CONN_LISTEN (Some 777%N)]
       (fun _ => None)
       (fun _ => false).

(** A queued line that is none of the six sentinels: [_tick] only prints it. *)
Definition plain_line (line : string) : bool :=
  negb ((line =? READY) || (line =? TIMEOUT) || (line =? STOPPED)
        || (line =? DO_START) || (line =? PORT_BLOCKED) || (line =? PORT_FREE))%string.

(** A pass of the readiness poller, before the deadline, that finds the
    child still running and the health probe failing. *)
Definition pass_waits (deadline : Z) (p : Popen) (o : ready_obs) : Prop :=
  ro_clock o < deadline
  /\ poll (ro_os o) p = None
  /\ os_http_200 (ro_os o) SERVER_URL = false.

(** A pass, before the deadline, that finds the child exited. *)
Definition pass_sees_exit (deadline : Z) (p : Popen) (o : ready_obs) : Prop :=
  ro_clock o < deadline /\ poll (ro_os o) p <> None.

(** A run of the poller, started at [t0], that observes the exit of the
    child [p] before any health probe succeeded and before the deadline. *)
Definition early_exit_run (t0 : Z) (p : Popen) (obs : list ready_obs) : Prop :=
  exists pre o post,
    obs = (pre ++ o :: post)%list
    /\ Forall (pass_waits (t0 + STARTUP_TIMEOUT * 1000) p) pre
    /\ pass_sees_exit (t0 + STARTUP_TIMEOUT * 1000) p o.

(** A run that reaches the deadline with the child still running and no
    probe answered: the pure startup timeout. *)
Definition timeout_run (t0 : Z) (p : Popen) (obs : list ready_obs) : Prop :=
  exists pre o post,
    obs = (pre ++ o :: post)%list
    /\ Forall (pass_waits (t0 + STARTUP_TIMEOUT * 1000) p) pre
    /\ t0 + STARTUP_TIMEOUT * 1000 <= ro_clock o.

(** The events of the passes that only waited. *)
Definition waiting_events (n : nat) : list event :=
  flat_map (fun _ => [EvHttpGet SERVER_URL; EvSleep 500]) (repeat tt n).

(** Successive ticks of the control loop, each against the system of its
    time. *)
Definition run_ticks (envs : list (OS * result Popen)) : M unit :=
  for_each envs (fun env => _tick (fst env) (snd env)).

(** A system in which the child 4242 is running and not yet healthy. *)
Definition os_child_booting : OS :=
  MkOS (fun pid => if (pid =? 4242)%N then inl (PsProc true (inl "python.exe"))
                   else inr PsNoSuchProcess)
       (fun _ => false) [] (fun _ => None) (fun _ => false).

(** The poller's view of a child that exits two seconds after the spawn
    (clock in ms from the spawn). *)
Definition obs_exit_after_2s : list ready_obs :=
  [ MkReadyObs 0 os_child_booting; MkReadyObs 500 os_child_booting;
    MkReadyObs 1000 os_child_booting; MkReadyObs 1500 os_child_booting;
    MkReadyObs 2000 os_empty ].

(** A computation that, whatever its outcome, only appends lines to the
    log queue and leaves the widgets alone. *)
Definition appends {A} (c : M A) : Prop :=
  forall w, exists msgs,
    _log_queue (mgr (snd (c w))) = (_log_queue (mgr w) ++ msgs)%list
    /\ ui (snd (c w)) = ui w.

(** The descendants the tree killer snapshots on entry. *)
Definition snapshot (env : kill_env) : list N :=
  match ke_children env with
  | inl cs => cs
  | inr _ => []
  end.

(** The survivors of the grace window, as [wait_procs] reports them. *)
Definition survivors (env : kill_env) : list N := snd (ke_wait_procs env).

(** A survivor whose name can still be read when the force-kill loop
    reaches it. *)
Definition still_named (env : kill_env) (p : N) : bool :=
  match ke_name_late env p with
  | inl _ => true
  | inr _ => false
  end.

(** A tree: root 100 with children 101 and 102; 100 and 101 exit within
    the grace window, 102 survives it. *)
Definition env_one_survivor : kill_env :=
  MkKillEnv (fun _ => inl "python.exe")
            (inl [101; 102]%N)
            (fun p => if (p =? 101)%N then inr PsNoSuchProcess else inl tt)
            ([100; 101]%N, [102]%N)
            (fun _ => inl "python.exe")
            (fun _ => inl tt).




(** The child 4242 ignores terminate: the 5 s wait expires, the child is
    still a live Python process, kill works. *)
Definition env_child_hangs : stop_env :=
  MkStopEnv os_child_booting (Ok tt)
            (Raise (Exn SubprocessTimeoutExpired "timed out after 5 seconds"))
            os_child_booting (Ok tt) (Ok tt) (Ok tt).

(** The child 4242 exits on terminate within the grace window. *)
Definition env_child_obeys : stop_env :=
  MkStopEnv os_child_booting (Ok tt) (Ok tt) os_empty (Ok tt) (Ok tt) (Ok tt).

(** The child survives even the kill: the 3 s wait expires too. *)
Definition env_child_survives_kill : stop_env :=
  MkStopEnv os_child_booting (Ok tt)
            (Raise (Exn SubprocessTimeoutExpired "timed out after 5 seconds"))
            os_child_booting (Ok tt)
            (Raise (Exn SubprocessTimeoutExpired "timed out after 3 seconds"))
            (Ok tt).

(** The store of a manager that adopted pid 4242 from the PID file. *)
Definition w_adopted : World :=
  MkWorld (MkManager None (Some 4242%N) false [])
          (MkPanel "#4ade80" "Running" "#4ade80" false true true
                   "☠ Kill Blocking Process" true false [])
          (Json (PyDict [("pid", PyInt 4242)]))
          [].

(** The store after a stop completed and the restart worker queued its
    sentinel: nothing tracked, no PID file, [DO_START] waiting. *)
Definition w_restart_pending : World :=
  MkWorld (MkManager None None false [DO_START])
          (MkPanel "#5a6478" "Stopped" "#5a6478" true false false
                   "☠ Kill Blocking Process" true false [])
          NoFile
          [].

(* ------------------------------------------------------------------ *)
(** ** Vocabulary of the further properties *)

(** A connection entry that is a listener on [port]. *)
Definition listens_on (port : Z) (c : sconn) : Prop :=
  laddr_port c = port /\ conn_status c = CONN_LISTEN.

(** A system whose only process is 4242, running under the given name. *)
Definition os_named (name : string) : OS :=
  MkOS (fun pid => if (pid =? 4242)%N then inl (PsProc true (inl name))
                   else inr PsNoSuchProcess)
       (fun _ => false) [] (fun _ => None) (fun _ => false).

(** A system with an established connection and two listeners on the
    port, the first of which has no pid attached. *)
Definition os_two_listeners : OS :=
  MkOS (fun _ => inr PsNoSuchProcess) (fun port => port =? 5000)
       [SConn 5000 CONN_ESTABLISHED (Some 10%N);
        SConn 8080 CONN_LISTEN (Some 11%N);
        SConn 5000 CONN_LISTEN (Some 12%N);
        SConn 5000 CONN_LISTEN (Some 13%N)]
       (fun _ => None) (fun _ => false).

(** A pass, before the deadline, that finds the child running and the
    health probe answering 200. *)
Definition pass_sees_ready (deadline : Z) (p : Popen) (o : ready_obs) : Prop :=
  ro_clock o < deadline
  /\ poll (ro_os o) p = None
  /\ os_http_200 (ro_os o) SERVER_URL = true.

(** A run of the poller in which a probe succeeds before the deadline,
    the child not having exited before. *)
Definition ready_run (t0 : Z) (p : Popen) (obs : list ready_obs) : Prop :=
  exists pre o post,
    obs = (pre ++ o :: post)%list
    /\ Forall (pass_waits (t0 + STARTUP_TIMEOUT * 1000) p) pre
    /\ pass_sees_ready (t0 + STARTUP_TIMEOUT * 1000) p o.

(** The clock readings of the passes are at least half a second apart,
    the first one not before [base]: what [time.sleep(0.5)] at the end of
    every pass guarantees. *)
Fixpoint paced (base : Z) (obs : list ready_obs) : Prop :=
  match obs with
  | [] => True
  | o :: later => base <= ro_clock o /\ paced (ro_clock o + 500) later
  end.

(** The three lines one of which ends every run of the poller. *)
Definition poller_verdict (line : string) : Prop :=
  line = READY \/ line = TIMEOUT
  \/ line = "✗ Server process exited before becoming ready.".


(** The two labels the reconciliation step of [_tick] never overwrites. *)
Definition transitional_label (label : string) : Prop :=
  label = "Starting..." \/ label = "Stopping...".

(** The child 4242 answers the probe at the fourth pass, 1.5 s after the
    spawn. *)
Definition os_child_ready : OS :=
  MkOS (fun pid => if (pid =? 4242)%N then inl (PsProc true (inl "python.exe"))
                   else inr PsNoSuchProcess)
       (fun port => port =? 5000) [SConn 5000 CONN_LISTEN (Some 4242%N)]
       (fun _ => None) (fun _ => true).

Definition obs_ready_after_3_polls : list ready_obs :=
  [ MkReadyObs 0 os_child_booting; MkReadyObs 500 os_child_booting;
    MkReadyObs 1000 os_child_booting; MkReadyObs 1500 os_child_ready ].

(** Sixty-one passes of a child that never answers and never exits, one
    every 500 ms. *)
Definition obs_never_ready : list ready_obs :=
  map (fun i => MkReadyObs (500 * Z.of_nat i) os_child_booting) (seq 0 61).

(** A computation that, whatever its outcome, only appends lines that are
    no sentinels to the log queue and calls to the list of calls, and
    leaves the widgets, the PID file and the other fields of the manager
    alone. *)
Definition quiet {A} (c : M A) : Prop :=
  forall w, exists msgs evs,
    mgr (snd (c w))
    = MkManager (process (mgr w)) (_pid (mgr w)) (_starting (mgr w))
                (_log_queue (mgr w) ++ msgs)%list
    /\ forallb plain_line msgs = true
    /\ ui (snd (c w)) = ui w
    /\ pid_file (snd (c w)) = pid_file w
    /\ trace (snd (c w)) = (trace w ++ evs)%list.

(** The process [q] has a readable name containing "python". *)
Definition python_named (env : family_env) (q : N) : Prop :=
  exists name, fe_name env q = inl name /\ Str.contains "python" (Str.lower name) = true.

(** [r] is reached from [p] by parent links, every process passed on the
    way up, [r] included unless it is [p] itself, being Python-named. *)
Inductive climbs (env : family_env) : N -> N -> Prop :=
| climbs_here (p : N) : climbs env p p
| climbs_up (p q r : N) :
    fe_parent env p = inl (Some q) ->
    python_named env q ->
    climbs env q r ->
    climbs env p r.

(** Nothing to climb to from [r]: its parent is missing, cannot be read,
    or is not Python-named. *)
Definition topmost (env : family_env) (r : N) : Prop :=
  forall q, fe_parent env r = inl (Some q) -> ~ python_named env q.

(** The family of a reloading server: the listener 30 is a child of
    python 20, itself a child of python 10, started from the shell 1. *)
Definition env_reload_tree : family_env :=
  MkFamilyEnv
    (fun _ => inl tt)
    (fun p => if (p =? 30)%N then inl (Some 20%N)
              else if (p =? 20)%N then inl (Some 10%N)
              else if (p =? 10)%N then inl (Some 1%N)
              else inl None)
    (fun p => if (p =? 1)%N then inl "cmd.exe" else inl "python.exe").

(** A computation that, whatever its outcome, leaves the observation [f]
    of the store as it found it. *)
Definition preserves {X A} (f : World -> X) (c : M A) : Prop :=
  forall w, f (snd (c w)) = f w.

(** The calls of a polling loop: a sleep or a connection attempt. *)
Definition poll_event (e : event) : bool :=
  match e with
  | EvSleep _ | EvConnect _ => true
  | _ => false
  end.

(** What the tree killer may not touch: the manager, the PID file, and the
    polling done so far. *)
Definition kill_frame (w : World) : ServerManager * pidfile * list event :=
  (mgr w, pid_file w, filter poll_event (trace w)).

(** [k] rounds of the port check: half a second of sleep, then one
    connection attempt. *)
Definition port_checks (k : nat) : list event :=
  List.concat (repeat [EvSleep 500; EvConnect SERVER_PORT] k).

(** The manager with one more line in its queue. *)
Definition queued (line : string) (m : ServerManager) : ServerManager :=
  MkManager (process m) (_pid m) (_starting m) (_log_queue m ++ [line])%list.

(** Every one of the six port checks of the worker finds the port taken. *)
Definition port_stays_blocked (env : blocker_env) : Prop :=
  forall i, (i < 6)%nat -> os_connect (be_port env i) SERVER_PORT = true.

(** The climb from the owner of the port, if there is one, ends within
    the fuel. *)
Definition climb_ends (fuel : nat) (env : blocker_env) : Prop :=
  forall owner,
    find_port_owner (be_os env) SERVER_PORT = Some owner ->
    owner <> 0%N ->
    _find_root_python_parent fuel (be_family env) owner <> None.

(** A stranger, node 777 started from no Python process, holds the port
    and lets go of it between the second and the third check. *)
Definition env_stranger_yields : blocker_env :=
  MkBlockerEnv
    os_stranger_on_port
    (MkFamilyEnv (fun _ => inl tt) (fun _ => inl None) (fun _ => inl "node.exe"))
    (Ok tt)
    (MkKillEnv (fun _ => inl "node.exe") (inl []) (fun _ => inl tt)
               ([777%N], []) (fun _ => inl "node.exe") (fun _ => inl tt))
    (fun i => if (i <? 2)%nat then os_stranger_on_port else os_empty).

(** The same stranger, this time refusing to be touched and keeping the
    port. *)
Definition env_stranger_stays : blocker_env :=
  MkBlockerEnv
    os_stranger_on_port
    (MkFamilyEnv (fun _ => inl tt) (fun _ => inl None) (fun _ => inr PsAccessDenied))
    (Ok tt)
    (MkKillEnv (fun _ => inr PsAccessDenied) (inl []) (fun _ => inr PsAccessDenied)
               ([], [777%N]) (fun _ => inr PsAccessDenied) (fun _ => inr PsAccessDenied))
    (fun _ => os_stranger_on_port).

(** The refresh worker has to clean up: the manager tracks a pid that is
    no live Python process any more. *)
Definition tracked_is_dead (os : OS) (w : World) : bool :=
  truthy_pid (_pid (mgr w))
  && negb match _pid (mgr w) with Some z => is_pid_alive os z | None => false end.


(** The store of a manager whose PID file was lost while its server,
    pid 4242, keeps running. *)
Definition w_record_lost : World :=
  MkWorld (MkManager (Some (MkPopen 4242)) (Some 4242%N) false [])
          (MkPanel "#4ade80" "Running" "#4ade80" false true true
                   "☠ Kill Blocking Process" true false [])
          NoFile
          [].

(** A stale record on disk, naming a pid that is gone, under a manager
    that tracks nothing. *)
Definition w_stale_record : World :=
  MkWorld (MkManager None None false [])
          (MkPanel "#5a6478" "Stopped" "#5a6478" true false false
                   "☠ Kill Blocking Process" true false [])
          (Json (PyDict [("pid", PyInt 4242)]))
          [].




(** The child 4242 exits on terminate, but the PID file cannot be
    deleted: another program holds it open. *)
Definition env_pid_file_locked : stop_env :=
  MkStopEnv os_child_booting (Ok tt) (Ok tt) os_empty (Ok tt) (Ok tt)
            (Raise (Exn PermissionError
                        "The process cannot access the file because it is being used by another process")).




(* ================================================================== *)
(** * Properties *)

(** [remove_pid] when the deletion goes through: the file is gone. *)
Lemma remove_pid_passes (removal : result unit) (w : World) :
  removal_passes removal ->
  remove_pid removal w = (Ok tt, set_pid_file NoFile (add_event EvRemovePid w)).
Proof.
  intros Hpass.
  unfold remove_pid, emit, modify, bind, try_except, os_remove, caught_by, existsb.
  cbn [pid_file add_event].
  destruct (pid_file w) eqn:Hfile.
  - unfold set_pid_file, add_event. cbn. rewrite Hfile. reflexivity.
  - destruct removal as [[] | e]; [reflexivity|].
    cbn in Hpass. rewrite Hpass. reflexivity.
  - destruct removal as [[] | e]; [reflexivity|].
    cbn in Hpass. rewrite Hpass. reflexivity.
Qed.

Lemma remove_pid_deletes (w : World) :
  remove_pid (Ok tt) w = (Ok tt, set_pid_file NoFile (add_event EvRemovePid w)).
Proof. apply remove_pid_passes. exact I. Qed.

(** [remove_pid] when the file is there and [os.remove] raises anything
    but [FileNotFoundError]: the error goes on and the file stays. *)
Lemma remove_pid_fails (e : exn) (w : World) :
  pid_file w <> NoFile ->
  is_instance e FileNotFoundError = false ->
  remove_pid (Raise e) w = (Raise e, add_event EvRemovePid w).
Proof.
  intros Hfile He.
  unfold remove_pid, emit, modify, bind, try_except, os_remove, caught_by, existsb.
  cbn [pid_file add_event].
  destruct (pid_file w); [congruence | |]; rewrite He; reflexivity.
Qed.

Arguments remove_pid : simpl never.

(** Unfold the monad down to the store. *)
Ltac run :=
  repeat progress
    (unfold is_running, popen, is_port_in_use, http_health_check, write_pid,
            put, sleep, thread_start, set_pid, set_process, set_starting, set_queue,
            _log, emit, when, answer, bind, gets, modify, ret, raise in *;
     rewrite ?remove_pid_deletes in *;
     cbn [mgr ui pid_file trace set_mgr set_ui set_pid_file add_event
          process _pid _starting _log_queue fst snd] in *).

(* ------------------------------------------------------------------ *)
(** ** The passive health re-check *)

Section HealthCheck.

Variable os : OS.

Lemma passive_status_not_error s :
  passive_status s -> s <> "error" /\ s <> "stopping".
Proof.
  intros [-> | [-> | ->]]; split; discriminate.
Qed.


(** The re-check while no start is in flight and the tracked pid is dead. *)
Lemma health_check_dead_pid (w : World) (z : N) :
  _starting (mgr w) = false ->
  _pid (mgr w) = Some z ->
  z <> 0%N ->
  is_pid_alive os z = false ->
  health_check os w
  = (Ok "stopped",
     MkWorld (MkManager None None false (_log_queue (mgr w)))
             (ui w) NoFile (trace w ++ [EvRemovePid])).
Proof.
  intros Hs Hp Hz Ha.
  unfold health_check; run.
  rewrite Hs, Hp; cbn. rewrite Ha.
  apply N.eqb_neq in Hz. rewrite Hz; cbn. run.
  rewrite Hs. reflexivity.
Qed.


End HealthCheck.




(* ------------------------------------------------------------------ *)
(** ** The state store: [read_pid] *)

Section ReadPid.

Variable w : World.

Lemma read_pid_missing_file :
  pid_file w = NoFile -> read_pid w = (Ok PyNone, w).
Proof.
  intros H. unfold read_pid, try_except, bind, load_pid_file. rewrite H. reflexivity.
Qed.

Lemma read_pid_not_json :
  pid_file w = Garbage -> read_pid w = (Ok PyNone, w).
Proof.
  intros H. unfold read_pid, try_except, bind, load_pid_file. rewrite H. reflexivity.
Qed.

Lemma read_pid_object kvs :
  pid_file w = Json (PyDict kvs) -> read_pid w = (Ok (dict_get "pid" kvs), w).
Proof.
  intros H. unfold read_pid, try_except, bind, load_pid_file. rewrite H. reflexivity.
Qed.

Lemma read_pid_object_without_pid kvs :
  pid_file w = Json (PyDict kvs) ->
  dict_find "pid" kvs = None ->
  read_pid w = (Ok PyNone, w).
Proof.
  intros H Hk. rewrite (read_pid_object H). unfold dict_get. rewrite Hk. reflexivity.
Qed.

Lemma read_pid_record p :
  record_names w p -> read_pid w = (Ok (PyInt (Z.of_N p)), w).
Proof.
  intros (kvs & H & Hz). rewrite (read_pid_object H), Hz. reflexivity.
Qed.

(** Valid JSON that is not an object: [data.get] raises, and the
    [except] clause of [read_pid] does not list [AttributeError]. *)
Lemma read_pid_not_an_object v :
  pid_file w = Json v ->
  (forall kvs, v <> PyDict kvs) ->
  exists e, read_pid w = (Raise e, w) /\ exn_cls e = AttributeError.
Proof.
  intros H Hv. unfold read_pid, try_except, bind, load_pid_file. rewrite H.
  destruct v; try (eexists; split; reflexivity).
  exfalso. eapply Hv. reflexivity.
Qed.

End ReadPid.

(** C6 fails on the code.  A PID file holding the JSON text [[]] makes
    [read_pid] raise [AttributeError] instead of returning [None]; one
    holding [{"pid": "abc"}] makes it return the string. *)
Theorem read_pid_raises_on_json_array :
  (exists e, read_pid (initial_world (Json (PyList []))) = (Raise e, initial_world (Json (PyList [])))
             /\ exn_cls e = AttributeError)
  /\ read_pid (initial_world (Json (PyDict [("pid", PyStr "abc")])))
     = (Ok (PyStr "abc"), initial_world (Json (PyDict [("pid", PyStr "abc")]))).
Proof.
  split; [eexists; split; reflexivity | reflexivity].
Qed.

(** The crash reaches the constructor of the manager: nothing between
    [read_pid] and [ControlPanel.__init__] catches it. *)
Lemma init_crashes_on_json_array os :
  exists e w', ServerManager_init os (initial_world (Json (PyList []))) = (Raise e, w')
               /\ exn_cls e = AttributeError.
Proof.
  do 2 eexists. split; reflexivity.
Qed.

(* ------------------------------------------------------------------ *)
(** ** Adoption detection *)

Section Detection.

Variable os : OS.

(** [psutil.Process] accepts the integer of a pid. *)
Lemma as_pid_of_pid (p : N) : as_pid (PyInt (Z.of_N p)) = Ok p.
Proof.
  unfold as_pid, py_int.
  destruct (Z.of_N p <? 0) eqn:H; [apply Z.ltb_lt in H; lia|].
  rewrite N2Z.id. reflexivity.
Qed.

Lemma is_pid_alive_py_of_pid (p : N) :
  is_pid_alive_py os (PyInt (Z.of_N p)) = ret (is_pid_alive os p).
Proof.
  unfold is_pid_alive_py, bind, answer. rewrite as_pid_of_pid. reflexivity.
Qed.

(** A truthy value that [psutil.Process] refuses stops the detection at
    its second line, before anything is logged or removed. *)
Lemma detect_refuses_non_pid (w : World) (v : pyval) (e : exn) :
  read_pid w = (Ok v, w) ->
  truthy v = true ->
  as_pid v = Raise e ->
  _detect_existing os w = (Raise e, w).
Proof.
  intros Hread Htruthy Hpid.
  unfold _detect_existing, bind at 1. rewrite Hread, Htruthy.
  unfold bind at 1, is_pid_alive_py, bind at 1, answer. rewrite Hpid. reflexivity.
Qed.

(** At construction: when the persisted record names a pid that is not
    alive, [_detect_existing] deletes the record file and reports
    "stopped"; the status callback is never called with "running" and no
    pid is adopted. *)
Lemma detect_removes_dead_record (w : World) (p : N) :
  record_names w p ->
  is_pid_alive os p = false ->
  exists w' evs,
    _detect_existing os w = (Ok tt, w')
    /\ pid_file w' = NoFile
    /\ status_label_text (ui w') = "Stopped"
    /\ _pid (mgr w') = _pid (mgr w)
    /\ new_events w w' evs
    /\ evs = [EvRemovePid; EvConnect SERVER_PORT; EvStatus "stopped"]
    /\ ~ In (EvStatus "running") evs.
Proof.
  intros Hrec Hdead.
  unfold _detect_existing, new_events, bind at 1.
  rewrite (read_pid_record Hrec).
  rewrite (is_pid_alive_py_of_pid p). rewrite Hdead.
  unfold truthy.
  assert (Hnot : forall evs, evs = [EvRemovePid; EvConnect SERVER_PORT; EvStatus "stopped"] ->
                             ~ In (EvStatus "running") evs).
  { intros evs -> [H | [H | [H | []]]]; discriminate. }
  destruct (negb (Z.of_N p =? 0)); run; destruct (os_connect os SERVER_PORT); cbn;
    rewrite <- ?app_assoc; cbn;
    do 2 eexists; (split; [reflexivity|]); cbn; repeat split; auto;
    rewrite <- ?app_assoc; reflexivity.
Qed.


End Detection.

(** The same at construction on the scenario of the specification: the
    record [{"pid": 4242}] exists and no process 4242 does. *)
Lemma detect_removes_dead_record_witness :
  exists w' evs,
    _detect_existing os_empty (initial_world (Json (PyDict [("pid", PyInt 4242)]))) = (Ok tt, w')
    /\ pid_file w' = NoFile
    /\ status_label_text (ui w') = "Stopped"
    /\ _pid (mgr w') = None
    /\ new_events (initial_world (Json (PyDict [("pid", PyInt 4242)]))) w' evs
    /\ evs = [EvRemovePid; EvConnect SERVER_PORT; EvStatus "stopped"]
    /\ ~ In (EvStatus "running") evs.
Proof.
  apply (@detect_removes_dead_record os_empty
           (initial_world (Json (PyDict [("pid", PyInt 4242)]))) 4242%N).
  - exists [("pid", PyInt 4242)]. split; reflexivity.
  - reflexivity.
Defined.


(** Records that do not name a pid: a string, a negative number. *)
Example detect_crashes_on_string_pid (os : OS) :
  exists e w',
    _detect_existing os (initial_world (Json (PyDict [("pid", PyStr "abc")]))) = (Raise e, w')
    /\ exn_cls e = TypeError.
Proof. do 2 eexists. split; reflexivity. Qed.

Example detect_crashes_on_negative_pid (os : OS) :
  exists e w',
    _detect_existing os (initial_world (Json (PyDict [("pid", PyInt (-5))]))) = (Raise e, w')
    /\ exn_cls e = ValueError.
Proof. do 2 eexists. split; reflexivity. Qed.

(* ------------------------------------------------------------------ *)
(** ** Start against an occupied port *)

Section StartBlocked.

Variables (os : OS) (spawn : result Popen).

Lemma start_when_running (w : World) :
  is_running_of os (mgr w) = true ->
  start os spawn w
  = (Ok tt, set_ui (set_log_area (log_area (ui w) ++ ["Server is already running."]) (ui w)) w).
Proof.
  intros H. unfold start; run. rewrite H. reflexivity.
Qed.

Lemma start_when_blocked (w : World) :
  is_running_of os (mgr w) = false ->
  os_connect os SERVER_PORT = true ->
  refused_as_blocked os spawn w.
Proof.
  intros Hr Hp. unfold refused_as_blocked, new_events, nothing_spawned, start; run.
  rewrite Hr; cbn. rewrite Hp; cbn.
  eexists. exists [EvConnect SERVER_PORT; EvStatus "error"].
  split; [reflexivity|]. cbn.
  split; [rewrite <- app_assoc; reflexivity|].
  split.
  { repeat split; try reflexivity; intros; intros [H | [H | []]]; discriminate. }
  split; [right; left; reflexivity|].
  split; reflexivity.
Qed.

(** C2, amended: against an occupied port [start] never spawns; and
    unless the manager is already running a live process, the call ends
    with status "error" and the [PORT_BLOCKED] sentinel queued.  (When it
    is already running, the call only logs that.) *)
Theorem start_on_occupied_port (w : World) :
  os_connect os SERVER_PORT = true ->
  (exists w' evs,
      start os spawn w = (Ok tt, w')
      /\ new_events w w' evs
      /\ nothing_spawned w w' evs)
  /\ (is_running_of os (mgr w) = false -> refused_as_blocked os spawn w).
Proof.
  intros Hp. split; [|intros Hr; exact (start_when_blocked w Hr Hp)].
  destruct (is_running_of os (mgr w)) eqn:Hr.
  - rewrite (start_when_running w Hr).
    eexists. exists []. unfold new_events, nothing_spawned. cbn.
    split; [reflexivity|]. split; [now rewrite app_nil_r|].
    repeat split; auto.
  - destruct (start_when_blocked w Hr Hp) as (w' & evs & H & Hev & Hn & _).
    exists w', evs. auto.
Qed.

End StartBlocked.

(** In that system a manager that runs pid 4242 does not own the port. *)
Lemma w_running_port_held_by_stranger : port_held_by_stranger os_stranger_on_port w_running.
Proof.
  split; [reflexivity|]. exists 777%N. repeat split; discriminate.
Qed.

(** C2, as stated, fails: the port is held by a process the manager does
    not manage, yet [start] neither reports "error" nor queues
    [PORT_BLOCKED], because the manager is already running its own
    process and returns at the first guard. *)
Lemma start_running_ignores_stranger :
  port_held_by_stranger os_stranger_on_port w_running
  /\ ~ refused_as_blocked os_stranger_on_port (Ok (MkPopen 555)) w_running.
Proof.
  split; [exact w_running_port_held_by_stranger|].
  intros (w' & evs & H & _ & _ & _ & Hlabel & _).
  rewrite start_when_running in H by reflexivity.
  inversion H; subst w'. discriminate Hlabel.
Qed.

(** The amended C2 on a fresh manager facing the occupied port. *)
Lemma start_on_occupied_port_witness :
  (exists w' evs,
      start os_stranger_on_port (Ok (MkPopen 555)) (initial_world NoFile) = (Ok tt, w')
      /\ new_events (initial_world NoFile) w' evs
      /\ nothing_spawned (initial_world NoFile) w' evs)
  /\ refused_as_blocked os_stranger_on_port (Ok (MkPopen 555)) (initial_world NoFile).
Proof.
  destruct (start_on_occupied_port os_stranger_on_port (Ok (MkPopen 555))
                                   (initial_world NoFile) eq_refl) as [Hspawn Hblocked].
  split; [exact Hspawn | apply Hblocked; reflexivity].
Defined.

(* ------------------------------------------------------------------ *)
(** ** The readiness poller *)

Section Readiness.

Variables (deadline : Z) (p : Popen).

(** Passes that only wait leave the store alone but for the probes and
    the sleeps they record. *)
Lemma wait_loop_skips_waiting_passes (pre rest : list ready_obs) (w : World) :
  process (mgr w) = Some p ->
  Forall (pass_waits deadline p) pre ->
  _wait_for_ready_loop deadline (pre ++ rest) w
  = _wait_for_ready_loop deadline rest
      (MkWorld (mgr w) (ui w) (pid_file w) (trace w ++ waiting_events (List.length pre))).
Proof.
  intros Hp Hpre. revert w Hp.
  induction Hpre as [| o pre (Hclock & Hpoll & Hhttp) _ IH]; intros w Hp.
  - cbn. rewrite app_nil_r. destruct w; reflexivity.
  - cbn [app _wait_for_ready_loop].
    apply Z.ltb_lt in Hclock. rewrite Hclock.
    run. rewrite Hp, Hpoll, Hhttp.
    rewrite IH by exact Hp. cbn.
    rewrite <- !app_assoc. reflexivity.
Qed.

Lemma wait_loop_early_exit (pre post : list ready_obs) (o : ready_obs) (w : World) :
  process (mgr w) = Some p ->
  Forall (pass_waits deadline p) pre ->
  pass_sees_exit deadline p o ->
  _wait_for_ready_loop deadline (pre ++ o :: post) w
  = (Ok (Some tt),
     MkWorld (MkManager (process (mgr w)) (_pid (mgr w)) false
                        (_log_queue (mgr w)
                         ++ ["✗ Server process exited before becoming ready."]))
             (ui w) (pid_file w) (trace w ++ waiting_events (List.length pre))).
Proof.
  intros Hp Hpre (Hclock & Hexit).
  rewrite wait_loop_skips_waiting_passes by assumption.
  cbn [_wait_for_ready_loop].
  apply Z.ltb_lt in Hclock. rewrite Hclock.
  run. rewrite Hp.
  destruct (poll (ro_os o) p); [cbn; rewrite ?Hp; reflexivity | congruence].
Qed.

Lemma wait_loop_timeout (pre post : list ready_obs) (o : ready_obs) (w : World) :
  process (mgr w) = Some p ->
  Forall (pass_waits deadline p) pre ->
  deadline <= ro_clock o ->
  _wait_for_ready_loop deadline (pre ++ o :: post) w
  = (Ok (Some tt),
     MkWorld (MkManager (process (mgr w)) (_pid (mgr w)) false
                        (_log_queue (mgr w)
                         ++ ["✗ Server did not respond within 30s. Check logs."; TIMEOUT]))
             (ui w) (pid_file w) (trace w ++ waiting_events (List.length pre))).
Proof.
  intros Hp Hpre Hclock.
  rewrite wait_loop_skips_waiting_passes by assumption.
  cbn [_wait_for_ready_loop].
  apply Z.ltb_ge in Hclock. rewrite Hclock.
  run. rewrite <- app_assoc. reflexivity.
Qed.

End Readiness.

(* ------------------------------------------------------------------ *)
(** ** The control loop on lines that are not sentinels *)

Section Tick.

Variables (os : OS) (spawn : result Popen).

Lemma tick_line_plain (line : string) :
  plain_line line = true -> _tick_line os spawn line = _log line.
Proof.
  unfold plain_line, _tick_line. intros H.
  apply negb_true_iff in H.
  repeat (apply orb_false_iff in H; destruct H as [H ?]).
  repeat match goal with E : (_ =? _)%string = false |- _ => rewrite E; clear E end.
  reflexivity.
Qed.

Lemma for_each_plain_lines (lines : list string) (w : World) :
  forallb plain_line lines = true ->
  for_each lines (_tick_line os spawn) w
  = (Ok tt, set_ui (set_log_area (log_area (ui w) ++ lines) (ui w)) w).
Proof.
  revert w. induction lines as [| line lines IH]; intros w H.
  - cbn. rewrite app_nil_r. destruct w as [m u f t]; destruct u; reflexivity.
  - cbn in H. apply andb_true_iff in H as [Hl Hr].
    cbn [for_each]. unfold bind at 1. rewrite (tick_line_plain _ Hl).
    unfold _log at 1, modify at 1. rewrite (IH _ Hr).
    cbn. rewrite <- app_assoc. reflexivity.
Qed.

(** What the passive re-check can change: the pid, the handle, the PID
    file, and one [EvRemovePid] in the list of calls. *)
Lemma health_check_frame (w : World) :
  exists s w',
    health_check os w = (Ok s, w')
    /\ passive_status s
    /\ ui w' = ui w
    /\ _log_queue (mgr w') = _log_queue (mgr w)
    /\ _starting (mgr w') = _starting (mgr w)
    /\ (trace w' = trace w \/ trace w' = (trace w ++ [EvRemovePid])%list).
Proof.
  unfold health_check, passive_status; run.
  destruct (_starting (mgr w)) eqn:Hs.
  { do 2 eexists; repeat split; eauto. }
  destruct (truthy_pid (_pid (mgr w)) && _) eqn:Halive.
  { do 2 eexists; repeat split; eauto. }
  destruct (truthy_pid (_pid (mgr w))).
  { run. do 2 eexists; split; [reflexivity|]; cbn. repeat split; eauto. }
  destruct (match process (mgr w) with Some _ => _ | None => _ end);
    do 2 eexists; (split; [reflexivity|]); cbn; repeat split; eauto.
Qed.

(** A label "Starting..." survives a tick whose queue holds no sentinel:
    the reconciliation step never overwrites it. *)
Lemma tick_keeps_starting_label (w : World) :
  status_label_text (ui w) = "Starting..." ->
  forallb plain_line (_log_queue (mgr w)) = true ->
  exists w',
    _tick os spawn w = (Ok tt, w')
    /\ status_label_text (ui w') = "Starting..."
    /\ _log_queue (mgr w') = []
    /\ (forall s, In (EvStatus s) (trace w') -> In (EvStatus s) (trace w)).
Proof.
  intros Hlabel Hplain.
  unfold _tick, drain_logs. run.
  rewrite (for_each_plain_lines _ _ Hplain).
  match goal with
  | |- context [health_check os ?w0] =>
      destruct (health_check_frame w0) as (s & w1 & -> & _ & Hui & Hq & _ & Htr)
  end.
  cbn in Hui, Hq, Htr. rewrite Hui. cbn [status_label_text set_log_area].
  rewrite Hlabel. cbn [String.eqb Ascii.eqb Bool.eqb orb negb].
  rewrite andb_false_r.
  eexists. split; [reflexivity|]. cbn.
  rewrite Hui. cbn. split; [exact Hlabel|]. split; [exact Hq|].
  intros st Hin. apply in_app_or in Hin as [Hin | [Hin | []]]; [|discriminate].
  destruct Htr as [Htr | Htr]; rewrite Htr in Hin; [exact Hin|].
  apply in_app_or in Hin as [Hin | [Hin | []]]; [exact Hin | discriminate].
Qed.

(** The status callback, called with one of the three passive statuses. *)
Lemma set_passive_status (s : string) (w : World) :
  passive_status s ->
  exists u,
    _set_status s w = (Ok tt, MkWorld (mgr w) u (pid_file w) (trace w ++ [EvStatus s]))
    /\ status_label_text u = snd (colors_get STATUS_COLORS s ("", "")).
Proof.
  intros [-> | [-> | ->]]; eexists; split; reflexivity.
Qed.

(** On a tick that reads no sentinel, the only status the control loop can
    set is the one the passive re-check returned: never "error". *)
Lemma tick_sets_passive_status_only (w : World) :
  forallb plain_line (_log_queue (mgr w)) = true ->
  exists w',
    _tick os spawn w = (Ok tt, w')
    /\ (forall s, In (EvStatus s) (trace w') ->
                  In (EvStatus s) (trace w) \/ passive_status s).
Proof.
  intros Hplain.
  unfold _tick, drain_logs. run.
  rewrite (for_each_plain_lines _ _ Hplain).
  match goal with
  | |- context [health_check os ?w0] =>
      destruct (health_check_frame w0) as (s & w1 & -> & Hs & _ & _ & _ & Htr)
  end.
  cbn in Htr.
  assert (Hold : forall st, In (EvStatus st) (trace w1) -> In (EvStatus st) (trace w)).
  { intros st Hin. destruct Htr as [Htr | Htr]; rewrite Htr in Hin; [exact Hin|].
    apply in_app_or in Hin as [Hin | [Hin | []]]; [exact Hin | discriminate]. }
  match goal with |- context [if ?c then _ else _] => destruct c end.
  - destruct (set_passive_status w1 Hs) as (u & -> & _).
    eexists. split; [reflexivity|]. cbn.
    intros st Hin. apply in_app_or in Hin as [Hin | [Hin | []]]; [|discriminate].
    apply in_app_or in Hin as [Hin | [Hin | []]]; [left; auto|].
    right. injection Hin as <-. exact Hs.
  - eexists. split; [reflexivity|]. cbn.
    intros st Hin. apply in_app_or in Hin as [Hin | [Hin | []]]; [left; auto | discriminate].
Qed.

(** The transition Running -> Stopped: a tick on a manager that shows
    "Running", has nothing queued and no start in flight, and whose tracked
    pid has died, ends showing "Stopped" with the PID file removed. *)
Lemma tick_shows_death (w : World) :
  status_label_text (ui w) = "Running" ->
  _log_queue (mgr w) = [] ->
  _starting (mgr w) = false ->
  tracks_dead_pid os w ->
  exists w',
    _tick os spawn w = (Ok tt, w')
    /\ status_label_text (ui w') = "Stopped"
    /\ pid_file w' = NoFile
    /\ _pid (mgr w') = None.
Proof.
  intros Hlabel Hq Hs (z & Hp & Hz & Hdead).
  unfold _tick, drain_logs. run. rewrite Hq. cbn [for_each]. run.
  match goal with
  | |- context [health_check os ?w0] =>
      rewrite (@health_check_dead_pid os w0 z Hs Hp Hz Hdead)
  end.
      cbn [ui set_mgr status_label_text]. rewrite Hlabel.
  eexists. split; [reflexivity|]. cbn. repeat split.
Qed.

End Tick.

(** However many ticks follow, the label stays "Starting..." and the
    status callback is not called, as long as no sentinel is queued. *)
Lemma ticks_keep_starting_label (envs : list (OS * result Popen)) (w : World) :
  status_label_text (ui w) = "Starting..." ->
  forallb plain_line (_log_queue (mgr w)) = true ->
  exists w',
    run_ticks envs w = (Ok tt, w')
    /\ status_label_text (ui w') = "Starting..."
    /\ (forall s, In (EvStatus s) (trace w') -> In (EvStatus s) (trace w)).
Proof.
  revert w. induction envs as [| [os spawn] envs IH]; intros w Hlabel Hplain.
  - exists w. repeat split; auto.
  - destruct (tick_keeps_starting_label os spawn w Hlabel Hplain)
      as (w1 & Htick & Hlabel1 & Hq1 & Htr1).
    destruct (IH w1 Hlabel1) as (w2 & Hrun & Hlabel2 & Htr2).
    { rewrite Hq1. reflexivity. }
    exists w2. unfold run_ticks in *. cbn [for_each fst snd]. unfold bind at 1.
    rewrite Htick. cbn. rewrite Hrun. repeat split; auto.
Qed.

(** The sibling path: the pure timeout does queue the [TIMEOUT] sentinel. *)
Lemma wait_for_ready_timeout (t0 : Z) (p : Popen) (obs : list ready_obs) (w : World) :
  process (mgr w) = Some p ->
  timeout_run t0 p obs ->
  exists w',
    _wait_for_ready t0 obs w = (Ok (Some tt), w')
    /\ _log_queue (mgr w')
       = (_log_queue (mgr w) ++ ["✗ Server did not respond within 30s. Check logs."; TIMEOUT])%list.
Proof.
  intros Hp (pre & o & post & -> & Hpre & Hclock).
  unfold _wait_for_ready. rewrite (wait_loop_timeout post o w Hp Hpre Hclock).
  eexists. split; reflexivity.
Qed.

(** ... which the control loop turns into the status "error". *)
Lemma tick_line_timeout (os : OS) (spawn : result Popen) (w : World) :
  exists w',
    _tick_line os spawn TIMEOUT w = (Ok tt, w')
    /\ status_label_text (ui w') = "Error"
    /\ trace w' = (trace w ++ [EvStatus "error"])%list.
Proof.
  eexists. split; [reflexivity|]. split; reflexivity.
Qed.

(** C1 fails on the code.  When the poller sees the child exited before
    any probe succeeded, it queues one log line and returns: no [TIMEOUT]
    sentinel, no call of the status callback.  The ticks that follow leave
    the label at "Starting...": the status never becomes "error". *)
Theorem early_exit_leaves_status_starting
        (t0 : Z) (p : Popen) (obs : list ready_obs) (envs : list (OS * result Popen))
        (w : World) :
  process (mgr w) = Some p ->
  status_label_text (ui w) = "Starting..." ->
  forallb plain_line (_log_queue (mgr w)) = true ->
  early_exit_run t0 p obs ->
  exists w1 w2,
    _wait_for_ready t0 obs w = (Ok (Some tt), w1)
    /\ _log_queue (mgr w1)
       = (_log_queue (mgr w) ++ ["✗ Server process exited before becoming ready."])%list
    /\ ~ In TIMEOUT (_log_queue (mgr w1))
    /\ ui w1 = ui w
    /\ run_ticks envs w1 = (Ok tt, w2)
    /\ status_label_text (ui w2) = "Starting..."
    /\ status_label_text (ui w2) <> "Error"
    /\ (forall s, In (EvStatus s) (trace w2) -> In (EvStatus s) (trace w)).
Proof.
  intros Hp Hlabel Hplain (pre & o & post & -> & Hpre & Hexit).
  unfold _wait_for_ready. rewrite (wait_loop_early_exit post w Hp Hpre Hexit).
  set (w1 := MkWorld _ _ _ _).
  assert (Hplain1 : forallb plain_line (_log_queue (mgr w1)) = true).
  { subst w1; cbn. rewrite forallb_app, Hplain. reflexivity. }
  destruct (ticks_keep_starting_label envs w1 Hlabel Hplain1) as (w2 & Hrun & Hlabel2 & Htr).
  exists w1, w2. split; [reflexivity|]. split; [reflexivity|].
  split.
  { intros Hin. rewrite forallb_forall in Hplain1. apply Hplain1 in Hin. discriminate Hin. }
  split; [reflexivity|]. split; [exact Hrun|]. split; [exact Hlabel2|].
  split; [rewrite Hlabel2; discriminate|].
  intros s Hin. apply Htr in Hin. subst w1; cbn in Hin.
  apply in_app_or in Hin as [Hin | Hin]; [exact Hin|].
  exfalso. clear - Hin. induction (List.length pre) as [| n IH]; cbn in Hin.
  - exact Hin.
  - destruct Hin as [Hin | [Hin | Hin]]; [discriminate | discriminate | auto].
Qed.

(** The scenario of the specification: the child exits two seconds after
    the spawn without ever answering the probe; three ticks later the
    window still shows "Starting...". *)
Lemma early_exit_leaves_status_starting_witness :
  exists w1 w2,
    _wait_for_ready 0 obs_exit_after_2s w_just_spawned = (Ok (Some tt), w1)
    /\ _log_queue (mgr w1)
       = (_log_queue (mgr w_just_spawned)
          ++ ["✗ Server process exited before becoming ready."])%list
    /\ ~ In TIMEOUT (_log_queue (mgr w1))
    /\ ui w1 = ui w_just_spawned
    /\ run_ticks [(os_empty, Ok (MkPopen 1)); (os_empty, Ok (MkPopen 1));
                  (os_empty, Ok (MkPopen 1))] w1 = (Ok tt, w2)
    /\ status_label_text (ui w2) = "Starting..."
    /\ status_label_text (ui w2) <> "Error"
    /\ (forall s, In (EvStatus s) (trace w2) -> In (EvStatus s) (trace w_just_spawned)).
Proof.
  apply (@early_exit_leaves_status_starting 0 (MkPopen 4242%N)).
  - reflexivity.
  - reflexivity.
  - reflexivity.
  - exists [ MkReadyObs 0 os_child_booting; MkReadyObs 500 os_child_booting;
             MkReadyObs 1000 os_child_booting; MkReadyObs 1500 os_child_booting ],
           (MkReadyObs 2000 os_empty), [].
    split; [reflexivity|]. split.
    + repeat constructor.
    + split; [reflexivity | discriminate].
Defined.

(* ------------------------------------------------------------------ *)
(** ** The stop worker *)

Section Appends.

Lemma appends_ret {A} (a : A) : appends (ret a).
Proof. intros w. exists []. cbn. now rewrite app_nil_r. Qed.

Lemma appends_answer {A} (r : result A) : appends (answer r).
Proof. intros w. exists []. cbn. now rewrite app_nil_r. Qed.

Lemma appends_emit (e : event) : appends (emit e).
Proof. intros w. exists []. cbn. now rewrite app_nil_r. Qed.

Lemma appends_put (line : string) : appends (put line).
Proof. intros w. exists [line]. cbn. split; reflexivity. Qed.

Lemma appends_bind {A B} (c : M A) (k : A -> M B) :
  appends c -> (forall a, appends (k a)) -> appends (bind c k).
Proof.
  intros Hc Hk w. unfold bind.
  destruct (Hc w) as (m1 & Hq1 & Hu1).
  destruct (c w) as [[a | e] w1]; cbn in *.
  - destruct (Hk a w1) as (m2 & Hq2 & Hu2).
    exists (m1 ++ m2)%list. rewrite Hq2, Hq1, Hu2, Hu1, app_assoc. auto.
  - exists m1. auto.
Qed.

Lemma appends_try_except {A} (c : M A) (handler : exn -> option (M A)) :
  appends c ->
  (forall e h, handler e = Some h -> appends h) ->
  appends (try_except c handler).
Proof.
  intros Hc Hh w. unfold try_except.
  destruct (Hc w) as (m1 & Hq1 & Hu1).
  destruct (c w) as [[a | e] w1]; cbn in *.
  - exists m1. auto.
  - destruct (handler e) as [h |] eqn:He; cbn.
    + destruct (Hh e h He w1) as (m2 & Hq2 & Hu2).
      exists (m1 ++ m2)%list. rewrite Hq2, Hq1, Hu2, Hu1, app_assoc. auto.
    + exists m1. auto.
Qed.

Lemma appends_when (c : bool) (body : M unit) : appends body -> appends (when c body).
Proof. destruct c; cbn; auto using appends_ret. Qed.

End Appends.

Create HintDb appends.
#[local] Hint Resolve appends_ret appends_answer appends_emit appends_put
  appends_bind appends_try_except appends_when : appends.

Section StopWorker.

Variable env : stop_env.

Lemma appends_do_stop_owned pid proc : appends (_do_stop_owned env pid proc).
Proof.
  unfold _do_stop_owned.
  repeat (apply appends_bind; [auto with appends | intros ?]).
  apply appends_try_except; [auto 10 with appends|].
  intros e h. destruct (is_instance e SubprocessTimeoutExpired); [|discriminate].
  intros [= <-].
  destruct (truthy_pid pid && _); auto 10 with appends.
Qed.

Lemma appends_do_stop_adopted pid : appends (_do_stop_adopted env pid).
Proof.
  unfold _do_stop_adopted. destruct pid as [z |]; [|auto with appends].
  apply appends_when. apply appends_bind; [auto with appends | intros _].
  apply appends_try_except; [auto 12 with appends|].
  intros e h. destruct (is_instance e PsutilTimeoutExpired); intros [= <-];
    auto 12 with appends.
Qed.

(** Whichever branch the stop worker takes -- the owned handle, the
    adopted pid, a process already gone, an exception while terminating --
    if the deletion of the PID file goes through it returns normally
    having deleted the file, reset the tracked pid and the handle to
    [None], and queued [STOPPED] as its last line. *)
Lemma do_stop_ends_stopped (pid : option N) (proc : option Popen) (w : World) :
  removal_passes (se_remove env) ->
  exists w' msgs,
    _do_stop env pid proc w = (Ok tt, w')
    /\ pid_file w' = NoFile
    /\ _pid (mgr w') = None
    /\ process (mgr w') = None
    /\ _log_queue (mgr w') = (_log_queue (mgr w) ++ msgs ++ [STOPPED])%list
    /\ ui w' = ui w
    /\ In EvRemovePid (trace w').
Proof.
  intros Hpass.
  unfold _do_stop, try_finally, try_except.
  match goal with
  | |- context [match ?c w with _ => _ end] =>
      assert (Hc : appends c);
      [ destruct proc as [p |];
        [ destruct (poll (se_os env) p) | ];
        auto using appends_do_stop_owned, appends_do_stop_adopted
      | destruct (Hc w) as (m1 & Hq & Hu); destruct (c w) as [[[] | e] w1] ]
  end; cbn in Hq, Hu; run; rewrite (remove_pid_passes _ _ Hpass); run.
  - eexists. exists m1. split; [reflexivity|]. cbn.
    rewrite Hq, Hu, <- app_assoc. repeat split; auto.
    apply in_or_app. right. left. reflexivity.
  - eexists. exists (m1 ++ [("Error during stop: " ++ exn_msg e)%string])%list.
    split; [reflexivity|]. cbn.
    rewrite Hq, Hu, <- !app_assoc. repeat split; auto.
    apply in_or_app. right. left. reflexivity.
Qed.

End StopWorker.

(** The branches of the stop worker, run. *)
Example do_stop_graceful :
  exists w',
    _do_stop env_child_obeys (Some 4242%N) (Some (MkPopen 4242%N)) w_running = (Ok tt, w')
    /\ _log_queue (mgr w') = ["Server stopped gracefully."; STOPPED]
    /\ trace w' = [EvTerminate 4242; EvWait 4242 5000; EvRemovePid].
Proof. eexists. split; [reflexivity|]. split; reflexivity. Qed.

Example do_stop_force_kill :
  exists w',
    _do_stop env_child_hangs (Some 4242%N) (Some (MkPopen 4242%N)) w_running = (Ok tt, w')
    /\ _log_queue (mgr w') = ["Graceful stop timed out. Force killing..."; STOPPED]
    /\ trace w' = [EvTerminate 4242; EvWait 4242 5000; EvKill 4242; EvWait 4242 3000;
                   EvRemovePid].
Proof. eexists. split; [reflexivity|]. split; reflexivity. Qed.

Example do_stop_kill_not_confirmed :
  exists w',
    _do_stop env_child_survives_kill (Some 4242%N) (Some (MkPopen 4242%N)) w_running = (Ok tt, w')
    /\ _log_queue (mgr w')
       = ["Graceful stop timed out. Force killing...";
          "Error during stop: timed out after 3 seconds"; STOPPED]
    /\ pid_file w' = NoFile.
Proof. eexists. split; [reflexivity|]. split; reflexivity. Qed.

Example do_stop_adopted :
  exists w',
    _do_stop env_child_obeys (Some 4242%N) None w_adopted = (Ok tt, w')
    /\ _log_queue (mgr w')
       = ["Terminating adopted process PID 4242..."; "Adopted process stopped."; STOPPED]
    /\ trace w' = [EvTerminate 4242; EvWait 4242 5000; EvRemovePid].
Proof. eexists. split; [reflexivity|]. split; reflexivity. Qed.

Example do_stop_already_gone :
  exists w',
    _do_stop (MkStopEnv os_empty (Ok tt) (Ok tt) os_empty (Ok tt) (Ok tt) (Ok tt))
             (Some 4242%N) (Some (MkPopen 4242%N)) w_running = (Ok tt, w')
    /\ _log_queue (mgr w') = [STOPPED]
    /\ trace w' = [EvRemovePid].
Proof. eexists. split; [reflexivity|]. split; reflexivity. Qed.

(* ------------------------------------------------------------------ *)
(** ** The process-tree killer *)

Section KillTree.

Variable env : kill_env.

Lemma ps_error_is_passed (e : ps_error) :
  pass_gone_or_denied (ps_exn e) = Some (ret tt).
Proof. destruct e; reflexivity. Qed.

(** One guarded [terminate()]: the call is made, its error swallowed. *)
Lemma guarded_terminate (p : N) (w : World) :
  try_except (emit (EvTerminate p) ;; answer (of_ps (ke_terminate env p)))
             pass_gone_or_denied w
  = (Ok tt, add_event (EvTerminate p) w).
Proof.
  unfold try_except; run.
  destruct (ke_terminate env p) as [[] | e]; cbn; [reflexivity|].
  rewrite ps_error_is_passed. reflexivity.
Qed.

Lemma terminate_children (cs : list N) (w : World) :
  for_each cs
           (fun child =>
              try_except (emit (EvTerminate child) ;; answer (of_ps (ke_terminate env child)))
                         pass_gone_or_denied) w
  = (Ok tt, MkWorld (mgr w) (ui w) (pid_file w) (trace w ++ map EvTerminate cs)).
Proof.
  revert w. induction cs as [| c cs IH]; intros w.
  - cbn. rewrite app_nil_r. destruct w; reflexivity.
  - cbn [for_each map]. unfold bind at 1. rewrite guarded_terminate, IH.
    cbn. rewrite <- app_assoc. reflexivity.
Qed.

Lemma force_kill_survivors (alive : list N) (w : World) :
  exists u,
    for_each alive
             (fun p =>
                try_except
                  (name <- answer (of_ps (ke_name_late env p)) ;;
                   _log ("Force-killing " ++ name ++ " (PID " ++ Str.of_N p ++ ")...") ;;
                   emit (EvKill p) ;; answer (of_ps (ke_kill env p)))
                  pass_gone_or_denied) w
    = (Ok tt, MkWorld (mgr w) u (pid_file w)
                      (trace w ++ map EvKill (filter (still_named env) alive))).
Proof.
  revert w. induction alive as [| p alive IH]; intros w.
  - exists (ui w). cbn. rewrite app_nil_r. destruct w; reflexivity.
  - cbn [for_each map filter].
    match goal with |- context [for_each alive ?b] => set (body := b) in * end.
    unfold bind at 1. unfold body at 1. unfold try_except at 1, still_named at 1.
    unfold bind at 1, answer at 1.
    destruct (ke_name_late env p) as [name | e]; cbn [of_ps].
    + unfold bind at 1, _log at 1, modify at 1.
      unfold bind at 1, emit at 1, modify at 1. unfold answer at 1.
      destruct (ke_kill env p) as [[] | e]; cbn [of_ps]; cbv beta iota;
        [| rewrite ps_error_is_passed; unfold ret at 1; cbv beta iota ];
        match goal with
        | |- context [for_each alive _ ?w0] => subst body; destruct (IH w0) as (u & ->)
        end;
        exists u; cbn; rewrite <- app_assoc; reflexivity.
    + cbv beta iota. rewrite ps_error_is_passed. unfold ret at 1. cbv beta iota.
      subst body. destruct (IH w) as (u & ->). exists u. reflexivity.
Qed.

(** C7: once the root's name has been read, the tree killer sends
    terminate to the root first and then to every descendant of the
    snapshot, waits 5 s on the whole set, then sends kill only to members
    [wait_procs] reported alive after that window, and, if there were
    any, waits 3 s on them.  Nothing else is sent. *)
Theorem kill_process_tree_escalates (proc : N) (name : string) (w : World) :
  ke_name env proc = inl name ->
  exists w' kills,
    _kill_process_tree env proc w = (Ok tt, w')
    /\ new_events w w'
         ([EvTerminate proc]
            ++ map EvTerminate (snapshot env)
            ++ [EvWaitProcs (proc :: snapshot env) 5000]
            ++ map EvKill kills
            ++ match survivors env with
               | [] => []
               | alive => [EvWaitProcs alive 3000]
               end)%list
    /\ kills = filter (still_named env) (survivors env)
    /\ (forall p, In p kills -> In p (survivors env))
    /\ mgr w' = mgr w
    /\ pid_file w' = pid_file w.
Proof.
  intros Hname.
  unfold _kill_process_tree, new_events, snapshot, survivors.
  unfold bind at 1, answer at 1. rewrite Hname. cbn [of_ps].
  set (children := match ke_children env with inl cs => cs | inr _ => [] end).
  replace (match ke_children env with
           | inl cs => cs
           | inr (PsNoSuchProcess | PsZombieProcess | PsAccessDenied) => []
           end) with children
    by (subst children; destruct (ke_children env) as [? | []]; reflexivity).
  unfold bind at 1, _log at 1, modify at 1.
  unfold bind at 1. rewrite guarded_terminate.
  unfold bind at 1. rewrite terminate_children.
  unfold bind at 1, emit at 1, modify at 1.
  destruct (ke_wait_procs env) as [gone alive]. cbn [snd].
  unfold bind at 1.
  match goal with
  | |- context [when ?c ?body ?w0] =>
      assert (Hgone : exists u, when c body w0
                                = (Ok tt, MkWorld (mgr w0) u (pid_file w0) (trace w0)))
  end.
  { destruct gone; cbn; eexists; reflexivity. }
  destruct Hgone as (u1 & ->).
  unfold bind at 1.
  match goal with
  | |- context [for_each alive ?body ?w0] =>
      destruct (force_kill_survivors alive w0) as (u2 & ->)
  end.
  assert (Hin : forall p, In p (filter (still_named env) alive) -> In p alive)
    by (intros p Hp; apply filter_In in Hp; tauto).
  destruct alive as [| a alive'];
    match type of Hin with
    | forall p, In p ?k -> _ => eexists; exists k; split; [reflexivity|]
    end;
    cbn [mgr ui pid_file trace add_event set_ui];
    (split; [rewrite <- ?app_assoc; cbn; rewrite ?app_nil_r; reflexivity|]);
    (split; [reflexivity|]); (split; [exact Hin|]); split; reflexivity.
Qed.

End KillTree.

(** When the root's name cannot be read on entry, the killer raises before
    sending anything. *)
Lemma kill_process_tree_unreadable_root (env : kill_env) (proc : N) (e : ps_error) (w : World) :
  ke_name env proc = inr e ->
  _kill_process_tree env proc w = (Raise (ps_exn e), w).
Proof.
  intros H. unfold _kill_process_tree, bind at 1, answer at 1. rewrite H. reflexivity.
Qed.

(** C7 on a tree of three of which one survives the grace window. *)
Lemma kill_process_tree_escalates_witness :
  exists w' kills,
    _kill_process_tree env_one_survivor 100 (initial_world NoFile) = (Ok tt, w')
    /\ new_events (initial_world NoFile) w'
         [EvTerminate 100; EvTerminate 101; EvTerminate 102;
          EvWaitProcs [100; 101; 102]%N 5000; EvKill 102; EvWaitProcs [102]%N 3000]
    /\ kills = [102]%N.
Proof.
  destruct (@kill_process_tree_escalates env_one_survivor 100%N "python.exe"
                                         (initial_world NoFile) eq_refl)
    as (w' & kills & Hrun & Hev & Hk & _).
  exists w', kills. subst kills. repeat split; assumption.
Defined.

(* ------------------------------------------------------------------ *)
(** ** The restart worker *)

Section Restart.

Variable os : OS.


(** [stop] on a server that is not running only logs. *)
Lemma stop_when_not_running (w : World) :
  is_running_of os (mgr w) = false ->
  stop os w
  = (Ok tt, set_ui (set_log_area (log_area (ui w) ++ ["Server is not running."]) (ui w)) w).
Proof.
  intros Hr. unfold stop. run. rewrite Hr. reflexivity.
Qed.



End Restart.

(** The deferred start, run: the tick that reads [DO_START] is the one
    that spawns the new child and launches the start workers. *)
Example tick_runs_deferred_start :
  exists w',
    _tick os_empty (Ok (MkPopen 4343)) w_restart_pending = (Ok tt, w')
    /\ trace w' = [EvConnect SERVER_PORT; EvStatus "starting"; EvPopen; EvWritePid 4343;
                   EvThread T_read_stdout; EvThread T_wait_for_ready;
                   EvAfter HEALTH_INTERVAL "_tick"]
    /\ _pid (mgr w') = Some 4343%N
    /\ status_label_text (ui w') = "Starting...".
Proof. eexists. split; [vm_compute; reflexivity|]. repeat split. Qed.


(* ================================================================== *)
(** * Further properties of the supervisor *)

(* ------------------------------------------------------------------ *)
(** ** The state store *)

(** X1: a pid written with [write_pid] is the pid [read_pid] returns,
    whatever the file held before, and it is one [psutil.Process] accepts;
    after [remove_pid] the read returns [None], even when the file held
    content on which [read_pid] raises, and so it does whenever
    [remove_pid] returns normally, whatever [os.remove] answered. *)
Theorem pid_record_round_trip (p : N) (w : World) :
  (exists w1,
      write_pid p w = (Ok tt, w1)
      /\ read_pid w1 = (Ok (PyInt (Z.of_N p)), w1)
      /\ as_pid (PyInt (Z.of_N p)) = Ok p)
  /\ (exists w2,
         remove_pid (Ok tt) w = (Ok tt, w2)
         /\ read_pid w2 = (Ok PyNone, w2))
  /\ (forall removal w2,
         remove_pid removal w = (Ok tt, w2) -> read_pid w2 = (Ok PyNone, w2)).
Proof.
  split; [|split].
  - eexists. split; [reflexivity|]. split; [reflexivity|].
    unfold as_pid, py_int. destruct (Z.of_N p <? 0) eqn:H.
    + apply Z.ltb_lt in H. lia.
    + rewrite N2Z.id. reflexivity.
  - eexists. split; [apply remove_pid_deletes | reflexivity].
  - intros removal w2.
    unfold remove_pid, emit, modify, bind, try_except, os_remove, caught_by, existsb.
    cbn [pid_file add_event].
    destruct (pid_file w) eqn:Hfile.
    + cbn. intros [= <-]. apply read_pid_missing_file. cbn. exact Hfile.
    + destruct removal as [[] | e]; [intros [= <-]; reflexivity|].
      destruct (is_instance e FileNotFoundError); cbn; [|discriminate].
      intros [= <-]. reflexivity.
    + destruct removal as [[] | e]; [intros [= <-]; reflexivity|].
      destruct (is_instance e FileNotFoundError); cbn; [|discriminate].
      intros [= <-]. reflexivity.
Qed.

(* ------------------------------------------------------------------ *)
(** ** The OS probe *)

Section PortOwner.

Variables (os : OS) (port : Z).

Lemma find_port_owner_in_skips (pre rest : list sconn) :
  (forall c, In c pre -> ~ listens_on port c) ->
  find_port_owner_in (pre ++ rest) port = find_port_owner_in rest port.
Proof.
  induction pre as [| c pre IH]; intros Hpre; [reflexivity|].
  cbn [app find_port_owner_in].
  destruct (laddr_port c =? port) eqn:Hport; cbn [andb].
  - destruct (conn_status c) eqn:Hst.
    + exfalso. apply (Hpre c); [left; reflexivity|].
      split; [apply Z.eqb_eq; exact Hport | exact Hst].
    + apply IH. intros c' Hin. apply Hpre. right. exact Hin.
    + apply IH. intros c' Hin. apply Hpre. right. exact Hin.
  - apply IH. intros c' Hin. apply Hpre. right. exact Hin.
Qed.

(** X2: [find_port_owner] answers with the pid field of the first entry
    that listens on the port, and looks no further: if that entry carries
    no pid the answer is [None] even when a later listener has one. *)
Theorem find_port_owner_first_listener (pre post : list sconn) (c : sconn) :
  os_net_connections os = (pre ++ c :: post)%list ->
  (forall c', In c' pre -> ~ listens_on port c') ->
  listens_on port c ->
  find_port_owner os port = conn_pid c.
Proof.
  intros Hconns Hpre [Hport Hst].
  unfold find_port_owner. rewrite Hconns, find_port_owner_in_skips by exact Hpre.
  cbn [find_port_owner_in].
  apply Z.eqb_eq in Hport. rewrite Hport, Hst. reflexivity.
Qed.

(** With no entry listening on the port, [find_port_owner] returns
    [None]. *)
Lemma find_port_owner_no_listener :
  (forall c, In c (os_net_connections os) -> ~ listens_on port c) ->
  find_port_owner os port = None.
Proof.
  intros Hnone. unfold find_port_owner.
  rewrite <- (app_nil_r (os_net_connections os)).
  rewrite find_port_owner_in_skips by exact Hnone. reflexivity.
Qed.

(** X3: a pid [find_port_owner] returns belongs to an entry of the
    connection table that listens on that port. *)
Theorem find_port_owner_sound (p : N) :
  find_port_owner os port = Some p ->
  exists c, In c (os_net_connections os) /\ listens_on port c /\ conn_pid c = Some p.
Proof.
  unfold find_port_owner.
  induction (os_net_connections os) as [| c conns IH]; [discriminate|].
  cbn [find_port_owner_in].
  destruct (laddr_port c =? port) eqn:Hport; cbn [andb].
  - destruct (conn_status c) eqn:Hst.
    + intros Hp. exists c. split; [left; reflexivity|]. split; [|exact Hp].
      split; [apply Z.eqb_eq; exact Hport | exact Hst].
    + intros Hp. destruct (IH Hp) as (c' & Hin & Hl & Hc). exists c'. auto using in_cons.
    + intros Hp. destruct (IH Hp) as (c' & Hin & Hl & Hc). exists c'. auto using in_cons.
  - intros Hp. destruct (IH Hp) as (c' & Hin & Hl & Hc). exists c'. auto using in_cons.
Qed.

End PortOwner.

(** X2 where the first listener on 5000 is the third entry. *)
Lemma find_port_owner_first_listener_witness :
  find_port_owner os_two_listeners 5000 = Some 12%N.
Proof.
  apply (@find_port_owner_first_listener os_two_listeners 5000
           [SConn 5000 CONN_ESTABLISHED (Some 10%N); SConn 8080 CONN_LISTEN (Some 11%N)]
           [SConn 5000 CONN_LISTEN (Some 13%N)]
           (SConn 5000 CONN_LISTEN (Some 12%N))).
  - reflexivity.
  - intros c' [<- | [<- | []]] [Hport Hst]; discriminate.
  - split; reflexivity.
Defined.

(** X3 on the same table: the pid returned is that of a listener on
    5000. *)
Lemma find_port_owner_sound_witness :
  exists c, In c (os_net_connections os_two_listeners)
            /\ listens_on 5000 c /\ conn_pid c = Some 12%N.
Proof.
  apply (@find_port_owner_sound os_two_listeners 5000 12%N). reflexivity.
Defined.

Section PythonName.

Lemma lower_app (a b : string) : Str.lower (a ++ b) = Str.lower a ++ Str.lower b.
Proof.
  induction a as [| c a IH]; [reflexivity|]. cbn. rewrite IH. reflexivity.
Qed.

Lemma prefix_app (n b : string) : String.prefix n (n ++ b) = true.
Proof.
  induction n as [| c n IH]; cbn.
  - destruct b; reflexivity.
  - destruct (ascii_dec c c) as [_ | Hneq]; [exact IH | congruence].
Qed.

Lemma contains_app (needle a b : string) :
  Str.contains needle (a ++ needle ++ b) = true.
Proof.
  induction a as [| c a IH].
  - cbn [String.append]. destruct (needle ++ b) eqn:E; cbn [Str.contains];
      rewrite <- E, prefix_app; reflexivity.
  - cbn [String.append Str.contains].
    destruct (String.prefix needle (String c (a ++ needle ++ b))); [reflexivity | exact IH].
Qed.

(** X4: a running process counts as the server's whenever its name
    contains "python" in any letter case, wherever in the name. *)
Theorem is_pid_alive_any_case (os : OS) (p : N) (proc : psproc) (pre mid post : string) :
  os_process os p = inl proc ->
  ps_is_running proc = true ->
  ps_name proc = inl (pre ++ mid ++ post) ->
  Str.lower mid = "python" ->
  is_pid_alive os p = true.
Proof.
  intros Hproc Hrun Hname Hmid.
  unfold is_pid_alive. rewrite Hproc, Hrun, Hname.
  rewrite !lower_app, Hmid. apply contains_app.
Qed.

End PythonName.

(** X4 on a name in mixed case. *)
Lemma is_pid_alive_any_case_witness : is_pid_alive (os_named "My-PyThOnW.EXE") 4242 = true.
Proof.
  apply (@is_pid_alive_any_case (os_named "My-PyThOnW.EXE") 4242
           (PsProc true (inl "My-PyThOnW.EXE")) "My-" "PyThOn" "W.EXE");
    reflexivity.
Defined.

(* ------------------------------------------------------------------ *)
(** ** Adoption detection, continued *)

Section DetectionMore.

Variable os : OS.

(** X5: a record naming a live pid, with the port open, is adopted: the
    pid becomes the tracked pid with no handle, the status is "running",
    the PID file is kept, nothing is queued and the port is probed once. *)
Theorem detect_adopts_live_server (w : World) (p : N) :
  record_names w p ->
  p <> 0%N ->
  is_pid_alive os p = true ->
  os_connect os SERVER_PORT = true ->
  exists w',
    _detect_existing os w = (Ok tt, w')
    /\ _pid (mgr w') = Some p
    /\ process (mgr w') = process (mgr w)
    /\ pid_file w' = pid_file w
    /\ _log_queue (mgr w') = _log_queue (mgr w)
    /\ status_label_text (ui w') = "Running"
    /\ btn_stop (ui w') = true /\ btn_start (ui w') = false
    /\ new_events w w' [EvConnect SERVER_PORT; EvStatus "running"].
Proof.
  intros Hrec Hp Halive Hport.
  unfold _detect_existing, new_events, bind at 1.
  rewrite (read_pid_record Hrec), (is_pid_alive_py_of_pid os p), Halive.
  unfold truthy.
  assert (Hnz : negb (Z.of_N p =? 0) = true).
  { apply negb_true_iff, Z.eqb_neq. lia. }
  rewrite Hnz. run. rewrite Hport. cbn.
  eexists. split; [reflexivity|]. cbn.
  rewrite N2Z.id, <- app_assoc. repeat split.
Qed.

(** X6: when [read_pid] finds no record, detection leaves the PID file
    alone, adopts nothing, reports "stopped", and queues [PORT_BLOCKED]
    exactly when the port is open. *)
Theorem detect_without_record (w : World) :
  read_pid w = (Ok PyNone, w) ->
  exists w',
    _detect_existing os w = (Ok tt, w')
    /\ pid_file w' = pid_file w
    /\ _pid (mgr w') = _pid (mgr w)
    /\ status_label_text (ui w') = "Stopped"
    /\ _log_queue (mgr w')
       = (_log_queue (mgr w) ++ if os_connect os SERVER_PORT then [PORT_BLOCKED] else [])%list
    /\ new_events w w' [EvConnect SERVER_PORT; EvStatus "stopped"].
Proof.
  intros Hread.
  unfold _detect_existing, new_events, bind at 1. rewrite Hread.
  run. destruct (os_connect os SERVER_PORT); cbn;
    (eexists; split; [reflexivity|]); cbn;
    rewrite <- ?app_assoc, ?app_nil_r; repeat split.
Qed.

End DetectionMore.

(** X5 on the record [{"pid": 4242}] with 4242 alive and listening. *)
Lemma detect_adopts_live_server_witness :
  exists w',
    _detect_existing os_stranger_on_port
                     (initial_world (Json (PyDict [("pid", PyInt 4242)]))) = (Ok tt, w')
    /\ _pid (mgr w') = Some 4242%N
    /\ process (mgr w') = None
    /\ pid_file w' = Json (PyDict [("pid", PyInt 4242)])
    /\ _log_queue (mgr w') = []
    /\ status_label_text (ui w') = "Running"
    /\ btn_stop (ui w') = true /\ btn_start (ui w') = false
    /\ new_events (initial_world (Json (PyDict [("pid", PyInt 4242)]))) w'
                  [EvConnect SERVER_PORT; EvStatus "running"].
Proof.
  apply (@detect_adopts_live_server os_stranger_on_port
           (initial_world (Json (PyDict [("pid", PyInt 4242)]))) 4242%N).
  - exists [("pid", PyInt 4242)]. split; reflexivity.
  - discriminate.
  - reflexivity.
  - reflexivity.
Defined.

(** X6 with no PID file and the port held by a stranger. *)
Lemma detect_without_record_witness :
  exists w',
    _detect_existing os_stranger_on_port (initial_world NoFile) = (Ok tt, w')
    /\ pid_file w' = NoFile
    /\ _pid (mgr w') = None
    /\ status_label_text (ui w') = "Stopped"
    /\ _log_queue (mgr w') = [PORT_BLOCKED]
    /\ new_events (initial_world NoFile) w' [EvConnect SERVER_PORT; EvStatus "stopped"].
Proof.
  apply (@detect_without_record os_stranger_on_port (initial_world NoFile)).
  reflexivity.
Defined.

(* ------------------------------------------------------------------ *)
(** ** Start and stop, continued *)

Section StartMore.

Variable os : OS.

(** X7: a start that goes through spawns once, persists the child's pid
    before launching the two workers, and leaves the manager tracking pid
    and handle with [_starting] set and the status "starting"; the pid is
    then the one [read_pid] returns. *)
Theorem start_spawns_and_persists (proc : Popen) (w : World) :
  is_running_of os (mgr w) = false ->
  os_connect os SERVER_PORT = false ->
  exists w',
    start os (Ok proc) w = (Ok tt, w')
    /\ process (mgr w') = Some proc
    /\ _pid (mgr w') = Some (popen_pid proc)
    /\ _starting (mgr w') = true
    /\ _log_queue (mgr w') = _log_queue (mgr w)
    /\ read_pid w' = (Ok (PyInt (Z.of_N (popen_pid proc))), w')
    /\ status_label_text (ui w') = "Starting..."
    /\ btn_start (ui w') = false /\ btn_stop (ui w') = false /\ btn_restart (ui w') = false
    /\ new_events w w'
         [EvConnect SERVER_PORT; EvStatus "starting"; EvPopen; EvWritePid (popen_pid proc);
          EvThread T_read_stdout; EvThread T_wait_for_ready].
Proof.
  intros Hr Hport.
  unfold start, new_events. run. rewrite Hr. cbn [negb]. rewrite Hport.
  unfold try_except. run. cbn.
  eexists. split; [reflexivity|]. cbn.
  rewrite <- !app_assoc. repeat split.
Qed.

(** X8: when the spawn raises, whatever the exception, [start] returns
    normally with the status "error", [_starting] cleared and the Start
    button enabled again; nothing is persisted, no worker is launched and
    no sentinel is queued. *)
Theorem start_spawn_failure (e : exn) (w : World) :
  is_running_of os (mgr w) = false ->
  os_connect os SERVER_PORT = false ->
  exists w',
    start os (Raise e) w = (Ok tt, w')
    /\ process (mgr w') = process (mgr w)
    /\ _pid (mgr w') = _pid (mgr w)
    /\ _starting (mgr w') = false
    /\ pid_file w' = pid_file w
    /\ _log_queue (mgr w') = _log_queue (mgr w)
    /\ status_label_text (ui w') = "Error"
    /\ btn_start (ui w') = true
    /\ new_events w w'
         [EvConnect SERVER_PORT; EvStatus "starting"; EvPopen; EvStatus "error"].
Proof.
  intros Hr Hport.
  unfold start, new_events. run. rewrite Hr. cbn [negb]. rewrite Hport.
  unfold try_except. run. cbn.
  destruct (is_instance e FileNotFoundError); [|destruct (is_instance e PermissionError)];
    cbn; (eexists; split; [reflexivity|]); cbn; rewrite <- !app_assoc; repeat split.
Qed.

(** X9: [stop] on a server that is not running is a no-op: one log line,
    and no call, no status change, no worker, nothing queued. *)
Theorem stop_not_running_is_noop (w : World) :
  is_running_of os (mgr w) = false ->
  exists w',
    stop os w = (Ok tt, w')
    /\ mgr w' = mgr w
    /\ pid_file w' = pid_file w
    /\ trace w' = trace w
    /\ status_label_text (ui w') = status_label_text (ui w)
    /\ log_area (ui w') = (log_area (ui w) ++ ["Server is not running."])%list.
Proof.
  intros Hr. unfold stop. run. rewrite Hr. cbn.
  eexists. split; [reflexivity|]. repeat split.
Qed.

End StartMore.

(** X7 from a fresh manager on a system with nothing on the port. *)
Lemma start_spawns_and_persists_witness :
  exists w',
    start os_empty (Ok (MkPopen 4242)) (initial_world NoFile) = (Ok tt, w')
    /\ process (mgr w') = Some (MkPopen 4242)
    /\ _pid (mgr w') = Some 4242%N
    /\ _starting (mgr w') = true
    /\ _log_queue (mgr w') = []
    /\ read_pid w' = (Ok (PyInt 4242), w')
    /\ status_label_text (ui w') = "Starting..."
    /\ btn_start (ui w') = false /\ btn_stop (ui w') = false /\ btn_restart (ui w') = false
    /\ new_events (initial_world NoFile) w'
         [EvConnect SERVER_PORT; EvStatus "starting"; EvPopen; EvWritePid 4242;
          EvThread T_read_stdout; EvThread T_wait_for_ready].
Proof.
  apply (@start_spawns_and_persists os_empty (MkPopen 4242) (initial_world NoFile));
    reflexivity.
Defined.

(** X8 when the interpreter of the virtual environment is missing. *)
Lemma start_spawn_failure_witness :
  exists w',
    start os_empty (Raise (Exn FileNotFoundError "No such file")) (initial_world NoFile)
    = (Ok tt, w')
    /\ process (mgr w') = None
    /\ _pid (mgr w') = None
    /\ _starting (mgr w') = false
    /\ pid_file w' = NoFile
    /\ _log_queue (mgr w') = []
    /\ status_label_text (ui w') = "Error"
    /\ btn_start (ui w') = true
    /\ new_events (initial_world NoFile) w'
         [EvConnect SERVER_PORT; EvStatus "starting"; EvPopen; EvStatus "error"].
Proof.
  apply (@start_spawn_failure os_empty (Exn FileNotFoundError "No such file")
                              (initial_world NoFile)); reflexivity.
Defined.

(** X9 on a fresh manager. *)
Lemma stop_not_running_is_noop_witness :
  exists w',
    stop os_empty (initial_world NoFile) = (Ok tt, w')
    /\ mgr w' = mgr (initial_world NoFile)
    /\ pid_file w' = NoFile
    /\ trace w' = []
    /\ status_label_text (ui w') = "Detecting..."
    /\ log_area (ui w') = ["Server is not running."].
Proof.
  apply (@stop_not_running_is_noop os_empty (initial_world NoFile)). reflexivity.
Defined.

(* ------------------------------------------------------------------ *)
(** ** The control loop, continued *)

Lemma for_each_app {A} (xs ys : list A) (body : A -> M unit) (w : World) :
  for_each (xs ++ ys) body w = (for_each xs body ;; for_each ys body) w.
Proof.
  revert w. induction xs as [| x xs IH]; intros w.
  - cbn. unfold bind, ret. reflexivity.
  - cbn [app for_each]. unfold bind in *.
    destruct (body x w) as [[[] | e] w1]; [|reflexivity].
    rewrite IH. reflexivity.
Qed.

(** The status callback on any string: what it writes. *)
Lemma set_status_any (s : string) (w : World) :
  exists u,
    _set_status s w = (Ok tt, MkWorld (mgr w) u (pid_file w) (trace w ++ [EvStatus s]))
    /\ log_area u = log_area (ui w)
    /\ status_label_text u = snd (colors_get STATUS_COLORS s ("#5a6478", s))
    /\ btn_start u = (if (s =? "running")%string then false
                      else ((s =? "stopped") || (s =? "error"))%string)
    /\ btn_stop u = (s =? "running")%string
    /\ btn_restart u = (s =? "running")%string.
Proof.
  unfold _set_status, _update_buttons.
  destruct (colors_get STATUS_COLORS s ("#5a6478", s)) as [color label] eqn:E.
  run. cbn [snd].
  destruct (s =? "running")%string; [|destruct ((s =? "stopped") || (s =? "error"))%string];
    eexists; (split; [reflexivity|]); cbn; repeat split.
Qed.

Section TickMore.

Variables (os : OS) (spawn : result Popen).





(** X11: a tick whose queue holds no sentinel prints every queued line in
    the log area once, in the order queued, after what was there, and
    leaves the queue empty. *)
Theorem tick_prints_queue_in_order (w : World) :
  forallb plain_line (_log_queue (mgr w)) = true ->
  exists w',
    _tick os spawn w = (Ok tt, w')
    /\ log_area (ui w') = (log_area (ui w) ++ _log_queue (mgr w))%list
    /\ _log_queue (mgr w') = [].
Proof.
  intros Hplain.
  unfold _tick, drain_logs. run.
  rewrite (for_each_plain_lines os spawn _ _ Hplain).
  match goal with
  | |- context [health_check os ?w0] =>
      destruct (health_check_frame os w0) as (s & w1 & -> & _ & Hui & Hq & _)
  end.
  cbn in Hui, Hq. rewrite Hui.
  match goal with |- context [if ?c then _ else _] => destruct c end.
  - destruct (set_status_any s w1) as (u & -> & Hlog & _).
    eexists. split; [reflexivity|]. cbn. rewrite Hlog, Hui. split; [reflexivity | exact Hq].
  - eexists. split; [reflexivity|]. cbn. rewrite Hui. split; [reflexivity | exact Hq].
Qed.

(** X12: a window showing "Starting..." or "Stopping..." keeps that label
    through a tick that reads no sentinel, whatever the passive re-check
    returns; the status callback is not called. *)
Theorem tick_keeps_transitional_label (w : World) :
  transitional_label (status_label_text (ui w)) ->
  forallb plain_line (_log_queue (mgr w)) = true ->
  exists w',
    _tick os spawn w = (Ok tt, w')
    /\ status_label_text (ui w') = status_label_text (ui w)
    /\ btn_start (ui w') = btn_start (ui w)
    /\ (forall s, In (EvStatus s) (trace w') -> In (EvStatus s) (trace w)).
Proof.
  intros Hlabel Hplain.
  unfold _tick, drain_logs. run.
  rewrite (for_each_plain_lines os spawn _ _ Hplain).
  match goal with
  | |- context [health_check os ?w0] =>
      destruct (health_check_frame os w0) as (s & w1 & -> & _ & Hui & _ & _ & Htr)
  end.
  cbn in Hui, Htr. rewrite Hui. cbn [status_label_text set_log_area].
  assert (Hsticky : ((status_label_text (ui w) =? "Starting...")
                     || (status_label_text (ui w) =? "Stopping..."))%string = true).
  { destruct Hlabel as [-> | ->]; reflexivity. }
  rewrite Hsticky. cbn [negb]. rewrite andb_false_r.
  eexists. split; [reflexivity|]. cbn. rewrite Hui. cbn.
  repeat split.
  intros st Hin. apply in_app_or in Hin as [Hin | [Hin | []]]; [|discriminate].
  destruct Htr as [Htr | Htr]; rewrite Htr in Hin; [exact Hin|].
  apply in_app_or in Hin as [Hin | [Hin | []]]; [exact Hin | discriminate].
Qed.

End TickMore.

(** X11 on three queued server lines. *)
Lemma tick_prints_queue_in_order_witness :
  exists w',
    _tick os_empty (Ok (MkPopen 1))
          (MkWorld (MkManager None None false ["INFO: started"; "INFO: ready"; "bye"])
                   initial_panel NoFile []) = (Ok tt, w')
    /\ log_area (ui w') = ["INFO: started"; "INFO: ready"; "bye"]
    /\ _log_queue (mgr w') = [].
Proof.
  apply (@tick_prints_queue_in_order os_empty (Ok (MkPopen 1))
           (MkWorld (MkManager None None false ["INFO: started"; "INFO: ready"; "bye"])
                    initial_panel NoFile [])).
  reflexivity.
Defined.

(** X12 on a stop in progress whose worker has not finished: the re-check
    already answers "stopped", the window keeps "Stopping...". *)
Lemma tick_keeps_transitional_label_witness :
  exists w',
    _tick os_empty (Ok (MkPopen 1))
          (MkWorld (MkManager None None false ["Terminating adopted process PID 4242..."])
                   (panel_showing "Stopping...") NoFile []) = (Ok tt, w')
    /\ status_label_text (ui w') = "Stopping..."
    /\ btn_start (ui w') = false
    /\ (forall s, In (EvStatus s) (trace w') -> False).
Proof.
  apply (@tick_keeps_transitional_label os_empty (Ok (MkPopen 1))
           (MkWorld (MkManager None None false ["Terminating adopted process PID 4242..."])
                    (panel_showing "Stopping...") NoFile [])).
  - right. reflexivity.
  - reflexivity.
Defined.

(* ------------------------------------------------------------------ *)
(** ** The status display *)

(** X13: whatever string the status callback is given, it never leaves
    Start enabled together with Stop or Restart; Stop and Restart are
    enabled together, and only for "running"; Start only for "stopped" and
    "error".  An unknown status is shown verbatim with all three buttons
    disabled. *)
Theorem set_status_buttons_exclusive (s : string) (w : World) :
  exists w',
    _set_status s w = (Ok tt, w')
    /\ btn_start (ui w') && btn_stop (ui w') = false
    /\ btn_restart (ui w') = btn_stop (ui w')
    /\ (btn_stop (ui w') = true <-> s = "running")
    /\ (btn_start (ui w') = true <-> s = "stopped" \/ s = "error")
    /\ (colors_get STATUS_COLORS s ("", "") = ("", "") ->
        status_label_text (ui w') = s /\ btn_start (ui w') = false /\ btn_stop (ui w') = false).
Proof.
  destruct (set_status_any s w) as (u & -> & _ & Hlabel & Hstart & Hstop & Hrestart).
  eexists. split; [reflexivity|]. cbn [ui].
  rewrite Hstart, Hstop, Hrestart.
  destruct (s =? "running")%string eqn:Hr.
  - apply String.eqb_eq in Hr. subst s. cbn.
    repeat split; auto; try discriminate.
    intros [H | H]; discriminate.
  - assert (Hnr : s <> "running") by (apply String.eqb_neq; exact Hr).
    split; [apply andb_false_r|]. split; [reflexivity|].
    split; [split; [discriminate | intros; contradiction]|].
    split.
    + rewrite orb_true_iff, !String.eqb_eq. reflexivity.
    + intros Hunknown. rewrite Hlabel.
      assert (Hs : (s =? "stopped")%string = false /\ (s =? "error")%string = false).
      { unfold STATUS_COLORS in Hunknown. cbn [colors_get] in Hunknown.
        rewrite String.eqb_sym in Hr.
        rewrite Hr in Hunknown.
        destruct ("stopped" =? s)%string eqn:H1; [discriminate|].
        destruct ("starting" =? s)%string eqn:H2; [discriminate|].
        destruct ("stopping" =? s)%string eqn:H3; [discriminate|].
        destruct ("error" =? s)%string eqn:H4; [discriminate|].
        rewrite String.eqb_sym in H1. rewrite String.eqb_sym in H4. auto. }
      destruct Hs as [-> ->]. cbn [orb].
      split; [|split; reflexivity].
      unfold STATUS_COLORS. cbn [colors_get].
      rewrite String.eqb_sym in Hr. rewrite Hr.
      unfold STATUS_COLORS in Hunknown. cbn [colors_get] in Hunknown. rewrite Hr in Hunknown.
      destruct ("stopped" =? s)%string; [discriminate|].
      destruct ("starting" =? s)%string; [discriminate|].
      destruct ("stopping" =? s)%string; [discriminate|].
      destruct ("error" =? s)%string; [discriminate|]. reflexivity.
Qed.

(** X13 on a status string outside the table. *)
Lemma set_status_buttons_exclusive_witness :
  exists w',
    _set_status "paused" (initial_world NoFile) = (Ok tt, w')
    /\ status_label_text (ui w') = "paused"
    /\ btn_start (ui w') = false /\ btn_stop (ui w') = false.
Proof.
  destruct (set_status_buttons_exclusive "paused" (initial_world NoFile))
    as (w' & Hrun & _ & _ & _ & _ & Hunknown).
  exists w'. split; [exact Hrun|]. apply Hunknown. reflexivity.
Defined.

(* ------------------------------------------------------------------ *)
(** ** The passive re-check, continued *)


(** The re-check with no start in flight and the tracked pid alive. *)
Lemma health_check_alive_pid (os : OS) (w : World) (z : N) :
  _starting (mgr w) = false ->
  _pid (mgr w) = Some z ->
  z <> 0%N ->
  is_pid_alive os z = true ->
  health_check os w = (Ok "running", w).
Proof.
  intros Hs Hp Hz Ha. unfold health_check. run.
  rewrite Hs, Hp. cbn. rewrite Ha.
  apply N.eqb_neq in Hz. rewrite Hz. reflexivity.
Qed.

(* ------------------------------------------------------------------ *)
(** ** The readiness poller, continued *)

Lemma wait_loop_ready (deadline : Z) (p : Popen)
      (pre post : list ready_obs) (o : ready_obs) (w : World) :
  process (mgr w) = Some p ->
  Forall (pass_waits deadline p) pre ->
  pass_sees_ready deadline p o ->
  _wait_for_ready_loop deadline (pre ++ o :: post) w
  = (Ok (Some tt),
     MkWorld (MkManager (Some p) (_pid (mgr w)) false
                        (_log_queue (mgr w) ++ ["✓ Server ready at " ++ SERVER_URL; READY]))
             (ui w) (pid_file w)
             (trace w ++ waiting_events (List.length pre) ++ [EvHttpGet SERVER_URL])).
Proof.
  intros Hp Hpre (Hclock & Hpoll & Hhttp).
  rewrite (wait_loop_skips_waiting_passes (o :: post) w Hp Hpre).
  cbn [_wait_for_ready_loop].
  apply Z.ltb_lt in Hclock. rewrite Hclock.
  run. rewrite Hp, Hpoll, Hhttp. run. rewrite Hp.
  unfold set_mgr, add_event. cbn [mgr ui pid_file trace process _pid _starting _log_queue].
  rewrite <- !app_assoc. reflexivity.
Qed.

(** X15: when a probe succeeds before the deadline, the poller queues its
    confirmation and the [READY] sentinel and clears [_starting]; the next
    tick, if the child is then alive, shows "Running", enables Stop and
    Restart, schedules the browser once and leaves the queue empty. *)
Theorem ready_then_tick_shows_running
        (t0 : Z) (p : Popen) (q : N) (obs : list ready_obs)
        (os' : OS) (spawn : result Popen) (w : World) :
  process (mgr w) = Some p ->
  _pid (mgr w) = Some q ->
  q <> 0%N ->
  forallb plain_line (_log_queue (mgr w)) = true ->
  ready_run t0 p obs ->
  is_pid_alive os' q = true ->
  exists w1 w2,
    _wait_for_ready t0 obs w = (Ok (Some tt), w1)
    /\ _log_queue (mgr w1)
       = (_log_queue (mgr w) ++ ["✓ Server ready at http://localhost:5000"; READY])%list
    /\ _starting (mgr w1) = false
    /\ _tick os' spawn w1 = (Ok tt, w2)
    /\ status_label_text (ui w2) = "Running"
    /\ btn_start (ui w2) = false /\ btn_stop (ui w2) = true /\ btn_restart (ui w2) = true
    /\ _log_queue (mgr w2) = []
    /\ _pid (mgr w2) = Some q
    /\ (exists before, trace w2
                       = (trace w1 ++ before ++ [EvAfter 300 "webbrowser.open";
                                                 EvAfter HEALTH_INTERVAL "_tick"])%list).
Proof.
  intros Hp Hq Hq0 Hplain (pre & o & post & -> & Hpre & Hready) Halive.
  unfold _wait_for_ready. rewrite (wait_loop_ready post w Hp Hpre Hready).
  set (w1 := MkWorld _ _ _ _).
  assert (Htick :
            exists w2,
              _tick os' spawn w1 = (Ok tt, w2)
              /\ status_label_text (ui w2) = "Running"
              /\ btn_start (ui w2) = false /\ btn_stop (ui w2) = true
              /\ btn_restart (ui w2) = true
              /\ _log_queue (mgr w2) = []
              /\ _pid (mgr w2) = Some q
              /\ (exists before,
                     trace w2 = (trace w1 ++ before ++ [EvAfter 300 "webbrowser.open";
                                                        EvAfter HEALTH_INTERVAL "_tick"])%list)).
  { unfold _tick, drain_logs. run.
    subst w1. cbn [mgr _log_queue process _pid _starting].
    rewrite for_each_app. unfold bind at 1.
    rewrite (for_each_plain_lines os' spawn _ _ Hplain).
    cbn [for_each]. unfold bind at 1.
    rewrite (@tick_line_plain os' spawn ("✓ Server ready at " ++ SERVER_URL)) by reflexivity.
    unfold _log at 1, modify at 1. unfold bind at 1.
    change (_tick_line os' spawn READY)
      with (_set_status "running" ;; _hide_kill_button ;; emit (EvAfter 300 "webbrowser.open")).
    unfold bind at 1.
    match goal with
    | |- context [_set_status "running" ?w0] =>
        destruct (set_status_any "running" w0)
          as (u & -> & _ & Hlabel & Hstart & Hstop & Hrestart)
    end.
    unfold bind at 1, _hide_kill_button at 1, modify at 1.
    unfold emit at 1, modify at 1. unfold ret at 1.
    match goal with
    | |- context [health_check os' ?w0] =>
        rewrite (@health_check_alive_pid os' w0 q eq_refl Hq Hq0 Halive)
    end.
    cbn [mgr ui pid_file trace set_ui set_mgr add_event set_kill_button set_log_area
         status_label_text btn_start btn_stop btn_restart log_area
         status_dot_fg status_label_fg btn_kill_text btn_kill_state btn_kill_packed].
    rewrite Hlabel. cbn [colors_get STATUS_COLORS snd String.eqb Ascii.eqb Bool.eqb negb andb].
    eexists. split; [reflexivity|].
    cbn [mgr ui pid_file trace set_ui set_mgr add_event set_kill_button set_log_area
         status_label_text btn_start btn_stop btn_restart log_area _log_queue _pid
         status_dot_fg status_label_fg btn_kill_text btn_kill_state btn_kill_packed].
    rewrite Hlabel, Hstart, Hstop, Hrestart.
    repeat split; try reflexivity; try exact Hq.
    exists [EvStatus "running"]. rewrite <- !app_assoc. reflexivity. }
  destruct Htick as (w2 & Htick & Hrest).
  exists w1, w2. split; [reflexivity|]. split; [reflexivity|]. split; [reflexivity|].
  split; [exact Htick | exact Hrest].
Qed.

(** X15 on the scenario in which the probe answers 200 at the fourth
    pass, 1.5 s after the spawn. *)
Lemma ready_then_tick_shows_running_witness :
  exists w1 w2,
    _wait_for_ready 0 obs_ready_after_3_polls w_just_spawned = (Ok (Some tt), w1)
    /\ _log_queue (mgr w1) = ["✓ Server ready at http://localhost:5000"; READY]
    /\ _starting (mgr w1) = false
    /\ _tick os_child_ready (Ok (MkPopen 1)) w1 = (Ok tt, w2)
    /\ status_label_text (ui w2) = "Running"
    /\ btn_start (ui w2) = false /\ btn_stop (ui w2) = true /\ btn_restart (ui w2) = true
    /\ _log_queue (mgr w2) = []
    /\ _pid (mgr w2) = Some 4242%N
    /\ (exists before, trace w2
                       = (trace w1 ++ before ++ [EvAfter 300 "webbrowser.open";
                                                 EvAfter HEALTH_INTERVAL "_tick"])%list).
Proof.
  apply (@ready_then_tick_shows_running 0 (MkPopen 4242) 4242%N obs_ready_after_3_polls
           os_child_ready (Ok (MkPopen 1)) w_just_spawned).
  - reflexivity.
  - reflexivity.
  - discriminate.
  - reflexivity.
  - exists [ MkReadyObs 0 os_child_booting; MkReadyObs 500 os_child_booting;
             MkReadyObs 1000 os_child_booting ],
           (MkReadyObs 1500 os_child_ready), [].
    split; [reflexivity|]. split.
    + repeat constructor.
    + repeat split.
  - reflexivity.
Defined.

(** The loop of the poller on paced passes the last of which cannot be
    before the deadline. *)
Lemma wait_loop_finishes (deadline : Z) (obs : list ready_obs) :
  forall (base : Z) (w : World),
    paced base obs ->
    obs <> [] ->
    deadline <= base + 500 * (Z.of_nat (List.length obs) - 1) ->
    exists w' lines verdict,
      _wait_for_ready_loop deadline obs w = (Ok (Some tt), w')
      /\ _starting (mgr w') = false
      /\ _log_queue (mgr w') = (_log_queue (mgr w) ++ lines ++ [verdict])%list
      /\ poller_verdict verdict
      /\ forallb plain_line lines = true
      /\ ui w' = ui w
      /\ pid_file w' = pid_file w.
Proof.
  induction obs as [| o rest IH]; intros base w Hpaced Hne Hlen; [congruence|].
  destruct Hpaced as [Hbase Hrest].
  cbn [_wait_for_ready_loop].
  destruct (ro_clock o <? deadline) eqn:Hclock.
  - apply Z.ltb_lt in Hclock. run.
    destruct (match process (mgr w) with Some p => _ | None => false end).
    { eexists. exists [], "✗ Server process exited before becoming ready.".
      split; [reflexivity|]. cbn. repeat split. right. right. reflexivity. }
    destruct (os_http_200 (ro_os o) SERVER_URL).
    { eexists. exists ["✓ Server ready at http://localhost:5000"], READY.
      split; [reflexivity|]. cbn. rewrite <- app_assoc. repeat split. left. reflexivity. }
    destruct rest as [| o' rest'].
    { exfalso. cbn in Hlen. lia. }
    match goal with
    | |- context [_wait_for_ready_loop deadline _ ?w0] =>
        destruct (IH (ro_clock o + 500) w0 Hrest) as (w' & lines & verdict & Hrun & Hfacts)
    end.
    { discriminate. }
    { cbn [List.length] in *. lia. }
    exists w', lines, verdict. split; [exact Hrun | exact Hfacts].
  - run.
    eexists. exists ["✗ Server did not respond within 30s. Check logs."], TIMEOUT.
    split; [reflexivity|]. cbn. rewrite <- app_assoc. repeat split. right. left. reflexivity.
Qed.

(** X16: the poller always finishes.  With passes at least half a second
    apart, as the sleep at the end of each guarantees, 61 passes suffice:
    it returns with [_starting] cleared, having queued as its last line
    [READY], [TIMEOUT] or the notice of the early exit, and before it at
    most one line, which is no sentinel; it never touches the status or
    the PID file. *)
Theorem wait_for_ready_finishes (t0 : Z) (obs : list ready_obs) (w : World) :
  paced t0 obs ->
  (61 <= List.length obs)%nat ->
  exists w' lines verdict,
    _wait_for_ready t0 obs w = (Ok (Some tt), w')
    /\ _starting (mgr w') = false
    /\ _log_queue (mgr w') = (_log_queue (mgr w) ++ lines ++ [verdict])%list
    /\ poller_verdict verdict
    /\ forallb plain_line lines = true
    /\ ui w' = ui w
    /\ pid_file w' = pid_file w.
Proof.
  intros Hpaced Hlen. unfold _wait_for_ready.
  apply (@wait_loop_finishes (t0 + STARTUP_TIMEOUT * 1000) obs t0 w Hpaced).
  - destruct obs; [cbn in Hlen; lia | discriminate].
  - unfold STARTUP_TIMEOUT. lia.
Qed.

(** X16 on a child that never answers and never exits: the run ends on
    the timeout. *)
Lemma wait_for_ready_finishes_witness :
  exists w' lines verdict,
    _wait_for_ready 0 obs_never_ready w_just_spawned = (Ok (Some tt), w')
    /\ _starting (mgr w') = false
    /\ _log_queue (mgr w') = (lines ++ [verdict])%list
    /\ poller_verdict verdict
    /\ forallb plain_line lines = true
    /\ ui w' = ui w_just_spawned
    /\ pid_file w' = pid_file w_just_spawned.
Proof.
  apply (@wait_for_ready_finishes 0 obs_never_ready w_just_spawned).
  - cbn. repeat (split; [lia|]). exact I.
  - cbn. lia.
Defined.

(* ------------------------------------------------------------------ *)
(** ** The stop worker, continued *)

Section Quiet.

Lemma quiet_unchanged {A} (c : M A) :
  (forall w, snd (c w) = w) -> quiet c.
Proof.
  intros H w. exists [], []. rewrite H, !app_nil_r.
  destruct w as [[proc pid starting queue] u f t]. cbn. auto.
Qed.

Lemma quiet_ret {A} (a : A) : quiet (ret a).
Proof. apply quiet_unchanged. reflexivity. Qed.

Lemma quiet_answer {A} (r : result A) : quiet (answer r).
Proof. apply quiet_unchanged. reflexivity. Qed.

Lemma quiet_emit (e : event) : quiet (emit e).
Proof.
  intros w. exists [], [e]. rewrite app_nil_r.
  destruct w as [[proc pid starting queue] u f t]. cbn. auto.
Qed.

Lemma quiet_put (line : string) : plain_line line = true -> quiet (put line).
Proof. intros H w. exists [line], []. cbn. rewrite H, app_nil_r. auto. Qed.

Lemma quiet_bind {A B} (c : M A) (k : A -> M B) :
  quiet c -> (forall a, quiet (k a)) -> quiet (bind c k).
Proof.
  intros Hc Hk w. unfold bind.
  destruct (Hc w) as (m1 & e1 & Hm1 & Hp1 & Hu1 & Hf1 & Ht1).
  destruct (c w) as [[a | e] w1]; cbn [snd] in *.
  - destruct (Hk a w1) as (m2 & e2 & Hm2 & Hp2 & Hu2 & Hf2 & Ht2).
    exists (m1 ++ m2)%list, (e1 ++ e2)%list.
    rewrite Hm2, Hu2, Hf2, Ht2, Hm1, Hu1, Hf1, Ht1. cbn.
    rewrite !app_assoc, forallb_app, Hp1, Hp2. auto.
  - exists m1, e1. auto.
Qed.

Lemma quiet_try_except {A} (c : M A) (handler : exn -> option (M A)) :
  quiet c ->
  (forall e h, handler e = Some h -> quiet h) ->
  quiet (try_except c handler).
Proof.
  intros Hc Hh w. unfold try_except.
  destruct (Hc w) as (m1 & e1 & Hm1 & Hp1 & Hu1 & Hf1 & Ht1).
  destruct (c w) as [[a | e] w1]; cbn [snd] in *.
  - exists m1, e1. auto.
  - destruct (handler e) as [h |] eqn:He; cbn [snd].
    + destruct (Hh e h He w1) as (m2 & e2 & Hm2 & Hp2 & Hu2 & Hf2 & Ht2).
      exists (m1 ++ m2)%list, (e1 ++ e2)%list.
      rewrite Hm2, Hu2, Hf2, Ht2, Hm1, Hu1, Hf1, Ht1. cbn.
      rewrite !app_assoc, forallb_app, Hp1, Hp2. auto.
    + exists m1, e1. auto.
Qed.

Lemma quiet_when (c : bool) (body : M unit) : quiet body -> quiet (when c body).
Proof. destruct c; cbn; auto using quiet_ret. Qed.

End Quiet.

Create HintDb quiet.
#[local] Hint Resolve quiet_ret quiet_answer quiet_emit quiet_bind quiet_try_except
  quiet_when : quiet.
#[local] Hint Extern 1 (quiet (put _)) => apply quiet_put; reflexivity : quiet.

Section StopMore.

Variable env : stop_env.

Lemma quiet_do_stop_owned pid proc : quiet (_do_stop_owned env pid proc).
Proof.
  unfold _do_stop_owned.
  repeat (apply quiet_bind; [auto with quiet | intros ?]).
  apply quiet_try_except; [auto 10 with quiet|].
  intros e h. destruct (is_instance e SubprocessTimeoutExpired); [|discriminate].
  intros [= <-].
  destruct (truthy_pid pid && _); auto 10 with quiet.
Qed.

Lemma quiet_do_stop_adopted pid : quiet (_do_stop_adopted env pid).
Proof.
  unfold _do_stop_adopted. destruct pid as [z |]; [|auto with quiet].
  apply quiet_when. apply quiet_bind; [auto with quiet | intros _].
  apply quiet_try_except; [auto 12 with quiet|].
  intros e h. destruct (is_instance e PsutilTimeoutExpired); intros [= <-];
    auto 12 with quiet.
Qed.

End StopMore.

(** The re-check on a manager that tracks nothing. *)
Lemma health_check_idle (os : OS) (w : World) :
  _starting (mgr w) = false ->
  _pid (mgr w) = None ->
  process (mgr w) = None ->
  health_check os w = (Ok "stopped", w).
Proof.
  intros Hs Hp Hproc. unfold health_check. run. rewrite Hs, Hp. cbn. run.
  rewrite Hproc. reflexivity.
Qed.

(* ------------------------------------------------------------------ *)
(** ** Climbing to the root of the process family *)

Section Climb.

Variable env : family_env.

Lemma climb_sound (fuel : nat) :
  forall (root : N) (parent : option N) (r : N),
    fe_parent env root = inl parent ->
    climb fuel env root parent = Some r ->
    climbs env root r /\ topmost env r.
Proof.
  induction fuel as [| fuel IH]; intros root parent r Hparent Hclimb.
  - destruct parent as [q |]; [discriminate|].
    injection Hclimb as <-. split; [constructor|].
    intros q Hq. congruence.
  - destruct parent as [q |]; cbn [climb] in Hclimb.
    + destruct (fe_name env q) as [name | e] eqn:Hname.
      * destruct (Str.contains "python" (Str.lower name)) eqn:Hpy.
        -- assert (Hq : python_named env q) by (exists name; auto).
           destruct (fe_parent env q) as [grand | e] eqn:Hgrand.
           ++ destruct (IH q grand r Hgrand Hclimb) as [Hc Ht].
              split; [econstructor; eassumption | exact Ht].
           ++ assert (r = q) by (destruct e; congruence). subst r.
              split; [econstructor; [eassumption | exact Hq | constructor]|].
              intros q' Hq'. congruence.
        -- injection Hclimb as <-. split; [constructor|].
           intros q' Hq' (name' & Hn' & Hp'). congruence.
      * assert (r = root) by (destruct e; congruence). subst r.
        split; [constructor|].
        intros q' Hq' (name' & Hn' & _). congruence.
    + injection Hclimb as <-. split; [constructor|].
      intros q Hq. congruence.
Qed.

(** X20: the root [_find_root_python_parent] returns is the topmost
    Python ancestor of the pid: it is reached from the pid through
    Python-named parents only, and its own parent is missing, unreadable or
    not Python-named.  The method returns [None] exactly when
    [psutil.Process(pid)] fails. *)
Theorem find_root_is_topmost_python_ancestor (fuel : nat) (pid : N) (answer : option N) :
  _find_root_python_parent fuel env pid = Some answer ->
  match answer with
  | Some r => climbs env pid r /\ topmost env r /\ exists ok, fe_process env pid = inl ok
  | None => exists e, fe_process env pid = inr e
  end.
Proof.
  unfold _find_root_python_parent.
  destruct (fe_process env pid) as [ok | e] eqn:Hproc.
  - destruct (fe_parent env pid) as [parent | e] eqn:Hparent.
    + destruct (climb fuel env pid parent) as [r |] eqn:Hclimb; [|discriminate].
      intros [= <-]. destruct (climb_sound fuel pid Hparent Hclimb) as [Hc Ht].
      repeat split; eauto.
    + intros H. assert (answer = Some pid) by (destruct e; congruence). subst answer.
      split; [constructor|]. split; [|eauto].
      intros q Hq. congruence.
  - intros H. assert (answer = None) by (destruct e; congruence). subst answer. eauto.
Qed.

Variable depth : N -> nat.
Hypothesis parent_is_higher :
  forall p q, fe_parent env p = inl (Some q) -> (depth q < depth p)%nat.

Lemma climb_terminates (fuel : nat) :
  forall (root : N) (parent : option N),
    (forall q, parent = Some q -> (depth q < fuel)%nat) ->
    exists r, climb fuel env root parent = Some r.
Proof.
  induction fuel as [| fuel IH]; intros root parent Hfuel.
  - destruct parent as [q |]; [specialize (Hfuel q eq_refl); lia | eexists; reflexivity].
  - destruct parent as [q |]; cbn [climb]; [|eexists; reflexivity].
    destruct (fe_name env q) as [name | []]; try (eexists; reflexivity).
    destruct (Str.contains "python" (Str.lower name)); [|eexists; reflexivity].
    destruct (fe_parent env q) as [grand | []] eqn:Hgrand; try (eexists; reflexivity).
    apply IH. intros q' ->.
    pose proof (Hfuel q eq_refl). pose proof (@parent_is_higher _ _ Hgrand). lia.
Qed.

(** X21: on a process table in which every parent lies strictly higher
    than its child, the climb ends: fuel beyond the depth of the pid is
    enough for [_find_root_python_parent] to return. *)
Theorem find_root_terminates (fuel : nat) (pid : N) :
  (depth pid < fuel)%nat ->
  exists answer, _find_root_python_parent fuel env pid = Some answer.
Proof.
  intros Hfuel. unfold _find_root_python_parent.
  destruct (fe_process env pid) as [ok | []]; try (eexists; reflexivity).
  destruct (fe_parent env pid) as [parent | []] eqn:Hparent; try (eexists; reflexivity).
  destruct (@climb_terminates fuel pid parent) as (r & ->).
  - intros q ->. pose proof (@parent_is_higher _ _ Hparent). lia.
  - eexists. reflexivity.
Qed.

End Climb.

(** X20 on the family of a reloading server: from the listener 30 the
    root found is python 10, whose parent is the shell. *)
Lemma find_root_is_topmost_python_ancestor_witness :
  _find_root_python_parent 5 env_reload_tree 30 = Some (Some 10%N)
  /\ climbs env_reload_tree 30 10 /\ topmost env_reload_tree 10.
Proof.
  split; [reflexivity|].
  destruct (@find_root_is_topmost_python_ancestor env_reload_tree 5 30 (Some 10%N) eq_refl)
    as (Hc & Ht & _).
  split; assumption.
Defined.

(** X21 on the same family, a pid being no deeper than its number. *)
Lemma find_root_terminates_witness :
  exists answer, _find_root_python_parent 31 env_reload_tree 30 = Some answer.
Proof.
  apply (@find_root_terminates env_reload_tree N.to_nat).
  - intros p q. cbn.
    destruct (p =? 30)%N eqn:H30; [apply N.eqb_eq in H30; intros [= <-]; lia|].
    destruct (p =? 20)%N eqn:H20; [apply N.eqb_eq in H20; intros [= <-]; lia|].
    destruct (p =? 10)%N eqn:H10; [apply N.eqb_eq in H10; intros [= <-]; lia|].
    discriminate.
  - cbn. lia.
Defined.

(* ------------------------------------------------------------------ *)
(** ** Frames: what a computation leaves alone *)

Section Preserves.

Context {X : Type} (f : World -> X).

Lemma preserves_ret {A} (a : A) : preserves f (ret a).
Proof. intros w. reflexivity. Qed.

Lemma preserves_raise {A} (e : exn) : preserves f (@raise A e).
Proof. intros w. reflexivity. Qed.

Lemma preserves_answer {A} (r : result A) : preserves f (answer r).
Proof. intros w. reflexivity. Qed.

Lemma preserves_gets {A} (g : World -> A) : preserves f (gets g).
Proof. intros w. reflexivity. Qed.

Lemma preserves_modify (g : World -> World) :
  (forall w, f (g w) = f w) -> preserves f (modify g).
Proof. intros H w. apply H. Qed.

Lemma preserves_bind {A B} (c : M A) (k : A -> M B) :
  preserves f c -> (forall a, preserves f (k a)) -> preserves f (bind c k).
Proof.
  intros Hc Hk w. unfold bind. specialize (Hc w).
  destruct (c w) as [[a | e] w1]; cbn [snd] in *.
  - rewrite Hk. exact Hc.
  - exact Hc.
Qed.

Lemma preserves_try_except {A} (c : M A) (handler : exn -> option (M A)) :
  preserves f c ->
  (forall e h, handler e = Some h -> preserves f h) ->
  preserves f (try_except c handler).
Proof.
  intros Hc Hh w. unfold try_except. specialize (Hc w).
  destruct (c w) as [[a | e] w1]; cbn [snd] in *; [exact Hc|].
  destruct (handler e) as [h |] eqn:He; [|exact Hc].
  rewrite (Hh e h He). exact Hc.
Qed.

Lemma preserves_when (b : bool) (body : M unit) :
  preserves f body -> preserves f (when b body).
Proof. intros H. destruct b; [exact H | apply preserves_ret]. Qed.

Lemma preserves_for_each {A} (xs : list A) (body : A -> M unit) :
  (forall x, preserves f (body x)) -> preserves f (for_each xs body).
Proof.
  intros H. induction xs as [| x xs IH]; cbn [for_each].
  - apply preserves_ret.
  - apply preserves_bind; auto.
Qed.

End Preserves.

Lemma kill_frame_log (msg : string) : preserves kill_frame (_log msg).
Proof. intros w. reflexivity. Qed.

Lemma kill_frame_emit (e : event) :
  poll_event e = false -> preserves kill_frame (emit e).
Proof.
  intros He w. unfold emit, modify, kill_frame, add_event. cbn.
  rewrite filter_app. cbn. rewrite He, app_nil_r. reflexivity.
Qed.

Lemma kill_frame_pass (c : M unit) :
  preserves kill_frame c -> preserves kill_frame (try_except c pass_gone_or_denied).
Proof.
  intros Hc. apply preserves_try_except; [exact Hc|].
  intros e h. unfold pass_gone_or_denied.
  destruct (caught_by _ e); [|discriminate].
  intros [= <-]. apply preserves_ret.
Qed.

Lemma kill_frame_kill_process_tree (env : kill_env) (proc : N) :
  preserves kill_frame (_kill_process_tree env proc).
Proof.
  unfold _kill_process_tree.
  apply preserves_bind; [apply preserves_answer|]. intros name.
  apply preserves_bind; [apply kill_frame_log|]. intros _.
  apply preserves_bind.
  { apply kill_frame_pass, preserves_bind;
      [apply kill_frame_emit; reflexivity | intros _; apply preserves_answer]. }
  intros _. apply preserves_bind.
  { apply preserves_for_each. intros child.
    apply kill_frame_pass, preserves_bind;
      [apply kill_frame_emit; reflexivity | intros _; apply preserves_answer]. }
  intros _. apply preserves_bind; [apply kill_frame_emit; reflexivity|]. intros _.
  destruct (ke_wait_procs env) as [gone alive].
  apply preserves_bind; [apply preserves_when, kill_frame_log|]. intros _.
  apply preserves_bind.
  { apply preserves_for_each. intros p. apply kill_frame_pass.
    apply preserves_bind; [apply preserves_answer|]. intros nm.
    apply preserves_bind; [apply kill_frame_log|]. intros _.
    apply preserves_bind; [apply kill_frame_emit; reflexivity|]. intros _.
    apply preserves_answer. }
  intros _. apply preserves_when, kill_frame_emit. reflexivity.
Qed.

Lemma kill_frame_kill_blocker_tree (env : blocker_env) (owner : N) (root : option N) :
  preserves kill_frame (kill_blocker_tree env owner root).
Proof.
  unfold kill_blocker_tree. destruct root as [r |].
  - apply preserves_bind; [apply preserves_answer|]. intros name.
    apply preserves_bind; [apply kill_frame_log|]. intros _.
    apply kill_frame_kill_process_tree.
  - apply preserves_bind; [apply kill_frame_log|]. intros _.
    apply preserves_try_except.
    + apply preserves_bind; [apply preserves_answer|]. intros _. apply kill_frame_log.
    + intros e h [= <-]. apply kill_frame_log.
Qed.

(** The guarded kill of [kill_port_blocker] returns, and touches neither
    the manager, the PID file nor the polling record. *)
Lemma guarded_kill_blocker (env : blocker_env) (owner : N) (root : option N) (w : World) :
  exists w1,
    try_except
      (kill_blocker_tree env owner root)
      (fun e =>
         if is_instance e AccessDenied then
           Some (_log "✗ Access denied. Try running the Control Panel as Administrator.")
         else
           Some (_log ("✗ Error killing blocker: " ++ exn_msg e))) w = (Ok tt, w1)
    /\ kill_frame w1 = kill_frame w.
Proof.
  pose proof (kill_frame_kill_blocker_tree env owner root w) as Hframe.
  unfold try_except.
  destruct (kill_blocker_tree env owner root w) as [[[] | e] w0]; cbn [snd] in Hframe.
  - exists w0. split; [reflexivity | exact Hframe].
  - destruct (is_instance e AccessDenied); eexists; (split; [reflexivity | exact Hframe]).
Qed.

(** The six port checks: [k] rounds are made, all but the last finding the
    port taken; the loop queues [PORT_FREE] at the first round that finds
    it free and nothing when there is none. *)
Lemma verify_port_free_spec (port_at : nat -> OS) (n : nat) :
  forall (i : nat) (w : World),
  exists (b : bool) (w' : World) (k : nat),
    verify_port_free n i port_at w = (Ok b, w')
    /\ (k <= n)%nat
    /\ trace w' = (trace w ++ port_checks k)%list
    /\ ui w' = ui w
    /\ pid_file w' = pid_file w
    /\ (forall j, (j < (if b then k - 1 else k))%nat ->
                  os_connect (port_at (i + j)%nat) SERVER_PORT = true)
    /\ (if b
        then (1 <= k)%nat
             /\ os_connect (port_at (i + (k - 1))%nat) SERVER_PORT = false
             /\ mgr w' = queued PORT_FREE (mgr w)
        else k = n /\ mgr w' = mgr w).
Proof.
  induction n as [| n IH]; intros i w.
  - exists false, w, 0%nat. cbn. rewrite app_nil_r.
    repeat split; auto. intros j Hj. lia.
  - cbn [verify_port_free]. unfold sleep, is_port_in_use. run.
    destruct (os_connect (port_at i) SERVER_PORT) eqn:Hconn; cbn [negb].
    + destruct (IH (S i) (add_event (EvConnect SERVER_PORT) (add_event (EvSleep 500) w)))
        as (b & w' & k & Hrun & Hk & Htrace & Hui & Hfile & Hbusy & Hend).
      exists b, w', (S k). rewrite Hrun. split; [reflexivity|].
      split; [lia|]. split.
      { rewrite Htrace. unfold add_event, port_checks. cbn.
        rewrite <- !app_assoc. reflexivity. }
      split; [exact Hui|]. split; [exact Hfile|]. split.
      { intros j Hj. destruct j as [| j].
        - rewrite Nat.add_0_r. exact Hconn.
        - replace (i + S j)%nat with (S i + j)%nat by lia. apply Hbusy.
          destruct b; lia. }
      destruct b.
      * destruct Hend as (Hk1 & Hfree & Hmgr). split; [lia|]. split; [|exact Hmgr].
        replace (i + (S k - 1))%nat with (S i + (k - 1))%nat by lia. exact Hfree.
      * destruct Hend as (-> & Hmgr). split; [reflexivity | exact Hmgr].
    + unfold put. run.
      eexists true, _, 1%nat. split; [reflexivity|]. cbn.
      split; [lia|]. split; [rewrite <- app_assoc; reflexivity|].
      split; [reflexivity|]. split; [reflexivity|]. split; [intros j Hj; lia|].
      split; [lia|]. split; [rewrite Nat.add_0_r; exact Hconn | reflexivity].
Qed.

Lemma bind_ok {A B} (c : M A) (k : A -> M B) (w w1 : World) (a : A) :
  c w = (Ok a, w1) -> bind c k w = k a w1.
Proof. intros H. unfold bind. rewrite H. reflexivity. Qed.

Lemma port_checks_are_polls (k : nat) :
  filter poll_event (port_checks k) = port_checks k.
Proof.
  unfold port_checks. induction k as [| k IH]; [reflexivity|].
  cbn. cbn in IH. rewrite IH. reflexivity.
Qed.

(** X22: [kill_port_blocker] never raises and always queues exactly one
    line, the verdict: [PORT_BLOCKED] when the port had an owner and all six
    checks found it taken, [PORT_FREE] otherwise.  The manager's other
    fields and the PID file are as before, and when the port has no owner
    nothing outside is called at all. *)
Theorem kill_port_blocker_queues_one_verdict (fuel : nat) (env : blocker_env) (w : World) :
  climb_ends fuel env ->
  exists w' verdict,
    kill_port_blocker fuel env w = (Ok (Some tt), w')
    /\ mgr w' = queued verdict (mgr w)
    /\ pid_file w' = pid_file w
    /\ (verdict = PORT_BLOCKED \/ verdict = PORT_FREE)
    /\ (verdict = PORT_BLOCKED <->
        truthy_pid (find_port_owner (be_os env) SERVER_PORT) = true
        /\ port_stays_blocked env)
    /\ (truthy_pid (find_port_owner (be_os env) SERVER_PORT) = false -> trace w' = trace w).
Proof.
  intros Hends. unfold kill_port_blocker.
  assert (Hfree : forall owner,
             truthy_pid owner = false ->
             exists w' verdict,
               (_log "Port is already free." ;; put PORT_FREE ;; ret (Some tt)) w
               = (Ok (Some tt), w')
               /\ mgr w' = queued verdict (mgr w)
               /\ pid_file w' = pid_file w
               /\ (verdict = PORT_BLOCKED \/ verdict = PORT_FREE)
               /\ (verdict = PORT_BLOCKED <->
                   truthy_pid owner = true /\ port_stays_blocked env)
               /\ (truthy_pid owner = false -> trace w' = trace w)).
  { intros owner Hfalse. unfold _log, put. run.
    eexists _, PORT_FREE. split; [reflexivity|].
    split; [reflexivity|]. split; [reflexivity|]. split; [right; reflexivity|].
    split; [|reflexivity].
    split; [intros H; discriminate H | intros [H _]; congruence]. }
  destruct (find_port_owner (be_os env) SERVER_PORT) as [owner |] eqn:Howner;
    [|apply (Hfree None); reflexivity].
  destruct (owner =? 0)%N eqn:Hzero;
    [apply (Hfree (Some owner)); cbn; rewrite Hzero; reflexivity|].
  clear Hfree.
  assert (Htruthy : truthy_pid (Some owner) = true) by (cbn; rewrite Hzero; reflexivity).
  apply N.eqb_neq in Hzero.
  destruct (_find_root_python_parent fuel (be_family env) owner) as [root |] eqn:Hroot;
    [|destruct (Hends owner Howner Hzero Hroot)].
  destruct (guarded_kill_blocker env owner root w) as (w1 & Hkill & Hframe).
  rewrite (@bind_ok _ _ _ _ _ _ _ Hkill).
  injection Hframe as Hmgr Hfile _.
  destruct (verify_port_free_spec (be_port env) 6 0 w1)
    as (b & w2 & k & Hloop & Hk & Htrace & Hui & Hfile2 & Hbusy & Hend).
  rewrite (@bind_ok _ _ _ _ _ _ _ Hloop).
  destruct b.
  - destruct Hend as (Hk1 & Hfreed & Hmgr2).
    exists w2, PORT_FREE. split; [reflexivity|].
    split; [congruence|]. split; [congruence|]. split; [right; reflexivity|].
    split; [|congruence].
    split; [intros H; discriminate H|].
    intros [_ Hblocked]. cbn [Nat.add] in Hfreed.
    rewrite (Hblocked (k - 1)%nat) in Hfreed by lia. discriminate.
  - destruct Hend as (-> & Hmgr2). unfold _log, put. run.
    eexists _, PORT_BLOCKED. split; [reflexivity|].
    cbn [mgr pid_file set_mgr set_ui]. rewrite Hmgr2, Hmgr, Hfile2, Hfile.
    split; [reflexivity|]. split; [reflexivity|]. split; [left; reflexivity|].
    split; [|congruence].
    split; [|reflexivity]. intros _. split; [exact Htruthy|].
    intros i Hi. apply (Hbusy i Hi).
Qed.

(** X22 on the stranger that lets go of the port: the verdict is
    [PORT_FREE]. *)
Lemma kill_port_blocker_queues_one_verdict_witness :
  exists w' verdict,
    kill_port_blocker 1 env_stranger_yields (initial_world NoFile) = (Ok (Some tt), w')
    /\ mgr w' = queued verdict (mgr (initial_world NoFile))
    /\ pid_file w' = NoFile
    /\ (verdict = PORT_BLOCKED \/ verdict = PORT_FREE)
    /\ (verdict = PORT_BLOCKED <->
        truthy_pid (find_port_owner (be_os env_stranger_yields) SERVER_PORT) = true
        /\ port_stays_blocked env_stranger_yields)
    /\ (truthy_pid (find_port_owner (be_os env_stranger_yields) SERVER_PORT) = false ->
        trace w' = trace (initial_world NoFile)).
Proof.
  apply (@kill_port_blocker_queues_one_verdict 1 env_stranger_yields (initial_world NoFile)).
  intros owner Howner _. vm_compute in Howner. injection Howner as <-.
  vm_compute. discriminate.
Defined.

(** X23: with an owner on the port, [kill_port_blocker] polls the port at
    least once and at most six times, half a second apart, and stops at the
    first check that finds the port free; no other sleep or connection
    attempt is made, whatever the killing of the tree runs into. *)
Theorem kill_port_blocker_polls_at_most_six
        (fuel : nat) (env : blocker_env) (w : World) (owner : N) :
  find_port_owner (be_os env) SERVER_PORT = Some owner ->
  owner <> 0%N ->
  _find_root_python_parent fuel (be_family env) owner <> None ->
  exists k,
    (1 <= k <= 6)%nat
    /\ filter poll_event (trace (snd (kill_port_blocker fuel env w)))
       = (filter poll_event (trace w) ++ port_checks k)%list
    /\ (forall j, (j < k - 1)%nat -> os_connect (be_port env j) SERVER_PORT = true)
    /\ ((k < 6)%nat -> os_connect (be_port env (k - 1)) SERVER_PORT = false).
Proof.
  intros Howner Hzero Hroot. unfold kill_port_blocker. rewrite Howner.
  apply N.eqb_neq in Hzero. rewrite Hzero.
  destruct (_find_root_python_parent fuel (be_family env) owner) as [root |];
    [|congruence].
  destruct (guarded_kill_blocker env owner root w) as (w1 & Hkill & Hframe).
  rewrite (@bind_ok _ _ _ _ _ _ _ Hkill).
  injection Hframe as _ _ Hpolls.
  destruct (verify_port_free_spec (be_port env) 6 0 w1)
    as (b & w2 & k & Hloop & Hk & Htrace & _ & _ & Hbusy & Hend).
  rewrite (@bind_ok _ _ _ _ _ _ _ Hloop).
  assert (Hfilter : filter poll_event (trace w2)
                    = (filter poll_event (trace w) ++ port_checks k)%list).
  { rewrite Htrace, filter_app, port_checks_are_polls, Hpolls. reflexivity. }
  exists k. destruct b.
  - destruct Hend as (Hk1 & Hfreed & _). split; [lia|]. split; [exact Hfilter|].
    split; [exact Hbusy | intros _; exact Hfreed].
  - destruct Hend as (-> & _). unfold _log, put. run. split; [lia|].
    split; [exact Hfilter|]. split; [|lia].
    intros j Hj. apply Hbusy. lia.
Qed.

(** X23 on the stranger that keeps the port: six checks are made. *)
Lemma kill_port_blocker_polls_at_most_six_witness :
  exists k,
    (1 <= k <= 6)%nat
    /\ filter poll_event
              (trace (snd (kill_port_blocker 1 env_stranger_stays (initial_world NoFile))))
       = (filter poll_event (trace (initial_world NoFile)) ++ port_checks k)%list
    /\ (forall j, (j < k - 1)%nat ->
                  os_connect (be_port env_stranger_stays j) SERVER_PORT = true)
    /\ ((k < 6)%nat -> os_connect (be_port env_stranger_stays (k - 1)) SERVER_PORT = false).
Proof.
  apply (@kill_port_blocker_polls_at_most_six 1 env_stranger_stays (initial_world NoFile)
           777%N).
  - reflexivity.
  - discriminate.
  - vm_compute. discriminate.
Defined.

(* ------------------------------------------------------------------ *)
(** ** Refresh *)

Section Refresh.

Variable os : OS.




End Refresh.


(** X26: [refresh_state] recognises the server by the PID file alone.
    When the file is missing while the tracked pid is a live Python process
    holding the port, the manager's own server is reported as a foreign
    blocker: the worker shows "Stopped" and queues [PORT_BLOCKED], and the
    next tick packs the kill button, labelled with the tracked pid, under
    a status put back to "Running". *)
Theorem refresh_without_record_disowns_own_server
        (os : OS) (spawn : result Popen) (w : World) (p : N) :
  pid_file w = NoFile ->
  _pid (mgr w) = Some p ->
  p <> 0%N ->
  is_pid_alive os p = true ->
  os_connect os SERVER_PORT = true ->
  find_port_owner os SERVER_PORT = Some p ->
  _log_queue (mgr w) = [] ->
  _starting (mgr w) = false ->
  exists w1 w2,
    refresh_state os w = (Ok tt, w1)
    /\ status_label_text (ui w1) = "Stopped"
    /\ _log_queue (mgr w1) = [PORT_BLOCKED]
    /\ _pid (mgr w1) = Some p
    /\ _tick os spawn w1 = (Ok tt, w2)
    /\ status_label_text (ui w2) = "Running"
    /\ btn_kill_packed (ui w2) = true
    /\ _pid (mgr w2) = Some p
    /\ exists name,
         btn_kill_text (ui w2) = "☠ Kill " ++ name ++ " (PID " ++ Str.of_N p ++ ")".
Proof.
  intros Hfile Hpid Hp Halive Hport Howner Hqueue Hstarting.
  destruct w as [[proc pid starting queue] u file tr]. cbn in Hfile, Hpid, Hqueue, Hstarting.
  subst.
  assert (Hnz : negb (p =? 0)%N = true) by (apply negb_true_iff, N.eqb_neq; exact Hp).
  unfold refresh_state, _log, read_pid, load_pid_file, try_except, py_get, is_port_in_use,
    put, _status, _set_status, _update_buttons.
  run. cbn [truthy_pid]. rewrite Hnz, Halive. cbn [andb negb when]. run.
  rewrite ?Hport. cbn. rewrite ?Hport. cbn.
  eexists _, _. split; [reflexivity|]. cbn.
  split; [reflexivity|]. split; [reflexivity|]. split; [reflexivity|].
  unfold _tick, drain_logs, _show_kill_button, health_check.
  run. cbn. unfold _show_kill_button. rewrite Howner. cbn. rewrite Hnz. run.
  cbn. rewrite Hnz, Halive. cbn.
  split; [reflexivity|]. cbn. repeat split. eexists. reflexivity.
Qed.

(** X26 on the manager that lost its PID file. *)
Lemma refresh_without_record_disowns_own_server_witness :
  exists w1 w2,
    refresh_state os_child_ready w_record_lost = (Ok tt, w1)
    /\ status_label_text (ui w1) = "Stopped"
    /\ _log_queue (mgr w1) = [PORT_BLOCKED]
    /\ _pid (mgr w1) = Some 4242%N
    /\ _tick os_child_ready (Ok (MkPopen 1)) w1 = (Ok tt, w2)
    /\ status_label_text (ui w2) = "Running"
    /\ btn_kill_packed (ui w2) = true
    /\ _pid (mgr w2) = Some 4242%N
    /\ exists name,
         btn_kill_text (ui w2) = "☠ Kill " ++ name ++ " (PID " ++ Str.of_N 4242 ++ ")".
Proof.
  apply (@refresh_without_record_disowns_own_server
           os_child_ready (Ok (MkPopen 1)) w_record_lost 4242%N);
    try reflexivity.
  discriminate.
Defined.

(** X27: after a refresh that finds the server running, the verdict it
    queued makes the next tick print that the port is free and the server
    can be started, and set the status to "stopped"; the reconciliation at
    the end of the same tick sets it back to "running". *)
Theorem refresh_then_tick_announces_free_port_while_running
        (os : OS) (spawn : result Popen) (w : World) (p : N) :
  record_names w p ->
  p <> 0%N ->
  is_pid_alive os p = true ->
  os_connect os SERVER_PORT = true ->
  tracked_is_dead os w = false ->
  _log_queue (mgr w) = [] ->
  _starting (mgr w) = false ->
  exists w1 w2,
    refresh_state os w = (Ok tt, w1)
    /\ status_label_text (ui w1) = "Running"
    /\ _tick os spawn w1 = (Ok tt, w2)
    /\ status_label_text (ui w2) = "Running"
    /\ log_area (ui w2)
       = (log_area (ui w)
          ++ ["Refreshing state...";
              ("✓ Server running (PID " ++ Str.of_N p ++ ") on port 5000.")%string;
              "✓ Port is now free. You can start the server."])%list
    /\ trace w2
       = (trace w ++ [EvConnect SERVER_PORT; EvStatus "running"; EvStatus "stopped";
                      EvStatus "running"; EvAfter HEALTH_INTERVAL "_tick"])%list.
Proof.
  intros (kvs & Hfile & Hget) Hp Halive Hport Hdead Hqueue Hstarting.
  destruct w as [[proc pid starting queue] u file tr].
  unfold tracked_is_dead in Hdead. cbn in Hfile, Hdead, Hqueue, Hstarting.
  subst.
  assert (Hnz : negb (p =? 0)%N = true) by (apply negb_true_iff, N.eqb_neq; exact Hp).
  assert (HnzZ : negb (Z.of_N p =? 0) = true) by (apply negb_true_iff, Z.eqb_neq; lia).
  unfold refresh_state, _log, read_pid, load_pid_file, try_except, py_get, is_port_in_use,
    put, _status, _set_status, _update_buttons, is_pid_alive_py.
  run. rewrite Hdead. cbn [when]. run. rewrite Hget. unfold truthy. rewrite HnzZ.
  rewrite as_pid_of_pid. run. rewrite Halive. run. rewrite Hport. cbn.
  rewrite N2Z.id.
  eexists _, _. split; [reflexivity|]. cbn.
  split; [reflexivity|].
  unfold _tick, drain_logs, _hide_kill_button, health_check.
  run. cbn. rewrite Hnz, Halive. cbn.
  split; [reflexivity|]. cbn. rewrite <- !app_assoc. repeat split.
Qed.

(** X27 on the adopted server. *)
Lemma refresh_then_tick_announces_free_port_while_running_witness :
  exists w1 w2,
    refresh_state os_child_ready w_adopted = (Ok tt, w1)
    /\ status_label_text (ui w1) = "Running"
    /\ _tick os_child_ready (Ok (MkPopen 1)) w1 = (Ok tt, w2)
    /\ status_label_text (ui w2) = "Running"
    /\ log_area (ui w2)
       = (log_area (ui w_adopted)
          ++ ["Refreshing state...";
              ("✓ Server running (PID " ++ Str.of_N 4242 ++ ") on port 5000.")%string;
              "✓ Port is now free. You can start the server."])%list
    /\ trace w2
       = (trace w_adopted
          ++ [EvConnect SERVER_PORT; EvStatus "running"; EvStatus "stopped";
              EvStatus "running"; EvAfter HEALTH_INTERVAL "_tick"])%list.
Proof.
  apply (@refresh_then_tick_announces_free_port_while_running
           os_child_ready (Ok (MkPopen 1)) w_adopted 4242%N);
    try reflexivity.
  - exists [("pid", PyInt 4242)]. split; reflexivity.
  - discriminate.
Defined.

(* ================================================================== *)
(** * The workers and what they depend on *)

(* ------------------------------------------------------------------ *)
(** ** The stop worker and the PID file *)

Lemma plain_lines_hold_no_sentinel (sentinel : string) (lines : list string) :
  plain_line sentinel = false ->
  forallb plain_line lines = true ->
  ~ In sentinel lines.
Proof.
  intros Hs Hl Hin. rewrite forallb_forall in Hl. apply Hl in Hin. congruence.
Qed.

Section StopCleanup.

Variable env : stop_env.

(** The [try] part of the stop worker returns normally, every exception
    having become a queued line, and is quiet.  What is left of the worker
    is its [finally] part on the store the [try] part leaves. *)
Lemma do_stop_reaches_finally (pid : option N) (proc : option Popen) (w : World) :
  exists msgs evs,
    forallb plain_line msgs = true
    /\ _do_stop env pid proc w
       = try_finally (ret tt)
           (remove_pid (se_remove env) ;; set_pid None ;; set_process None ;; put STOPPED)
           (MkWorld (MkManager (process (mgr w)) (_pid (mgr w)) (_starting (mgr w))
                               (_log_queue (mgr w) ++ msgs))
                    (ui w) (pid_file w) (trace w ++ evs)).
Proof.
  unfold _do_stop, try_finally at 1, try_except.
  match goal with
  | |- context [match ?c w with _ => _ end] =>
      assert (Hc : quiet c);
      [ destruct proc as [p |];
        [ destruct (poll (se_os env) p) | ];
        auto using quiet_do_stop_owned, quiet_do_stop_adopted
      | destruct (Hc w) as (m1 & e1 & Hm & Hp & Hu & Hf & Ht);
        destruct (c w) as [[[] | e] w1] ]
  end; cbn [snd] in Hm, Hu, Hf, Ht;
    destruct w1 as [m1' u1 f1 t1]; cbn [mgr ui pid_file trace] in Hm, Hu, Hf, Ht; subst.
  - exists m1, e1. split; [exact Hp | reflexivity].
  - exists (m1 ++ [("Error during stop: " ++ exn_msg e)%string])%list, e1.
    split; [rewrite forallb_app, Hp; reflexivity|].
    unfold put at 1, modify at 1. unfold set_mgr. cbn [mgr ui pid_file trace process _pid
                                                        _starting _log_queue].
    rewrite <- app_assoc. reflexivity.
Qed.

(** The store the stop worker leaves when the deletion goes through. *)
Lemma do_stop_result (pid : option N) (proc : option Popen) (w : World) :
  removal_passes (se_remove env) ->
  exists msgs tr,
    _do_stop env pid proc w
    = (Ok tt, MkWorld (MkManager None None (_starting (mgr w))
                                 (_log_queue (mgr w) ++ msgs ++ [STOPPED]))
                      (ui w) NoFile tr)
    /\ forallb plain_line msgs = true.
Proof.
  intros Hpass.
  destruct (do_stop_reaches_finally pid proc w) as (msgs & evs & Hplain & ->).
  exists msgs. eexists. split; [|exact Hplain].
  unfold try_finally, ret, bind. rewrite (remove_pid_passes _ _ Hpass). run.
  unfold set_mgr, set_pid_file, add_event.
  cbn [mgr ui pid_file trace process _pid _starting _log_queue].
  rewrite <- app_assoc. reflexivity.
Qed.

(** C5: the cleanup of the stop worker does not survive a PID file that
    cannot be deleted.  When [os.remove] raises anything but
    [FileNotFoundError] on the file, the [finally] block stops at its first
    statement: the worker ends in that exception, the tracked pid and the
    handle are as they were, the file is still there, [STOPPED] is not
    queued and the status is not touched. *)
Theorem do_stop_cleanup_aborts_on_failed_removal
        (pid : option N) (proc : option Popen) (w : World) (e : exn) :
  pid_file w <> NoFile ->
  se_remove env = Raise e ->
  is_instance e FileNotFoundError = false ->
  exists w' msgs,
    _do_stop env pid proc w = (Raise e, w')
    /\ pid_file w' = pid_file w
    /\ _pid (mgr w') = _pid (mgr w)
    /\ process (mgr w') = process (mgr w)
    /\ _log_queue (mgr w') = (_log_queue (mgr w) ++ msgs)%list
    /\ ~ In STOPPED msgs
    /\ ui w' = ui w.
Proof.
  intros Hfile Hremove He.
  destruct (do_stop_reaches_finally pid proc w) as (msgs & evs & Hplain & ->).
  rewrite Hremove.
  unfold try_finally, ret, bind. rewrite remove_pid_fails by assumption.
  eexists. exists msgs. split; [reflexivity|].
  cbn [mgr ui pid_file trace add_event process _pid _starting _log_queue].
  repeat split.
  apply plain_lines_hold_no_sentinel; [reflexivity | exact Hplain].
Qed.

End StopCleanup.

(** C5 on a child that exits on terminate while the PID file is held open
    by another program. *)
Lemma do_stop_cleanup_aborts_on_failed_removal_witness :
  exists w' msgs,
    _do_stop env_pid_file_locked (Some 4242%N) (Some (MkPopen 4242)) w_running
    = (Raise (Exn PermissionError
                  "The process cannot access the file because it is being used by another process"),
       w')
    /\ pid_file w' = pid_file w_running
    /\ _pid (mgr w') = Some 4242%N
    /\ process (mgr w') = Some (MkPopen 4242)
    /\ _log_queue (mgr w') = (_log_queue (mgr w_running) ++ msgs)%list
    /\ ~ In STOPPED msgs
    /\ ui w' = ui w_running.
Proof.
  apply (@do_stop_cleanup_aborts_on_failed_removal
           env_pid_file_locked (Some 4242%N) (Some (MkPopen 4242)) w_running).
  - discriminate.
  - reflexivity.
  - reflexivity.
Defined.

(** The same run, evaluated: the child is terminated and waited for, the
    confirmation is queued, and the worker ends in the error of the
    deletion. *)
Example do_stop_pid_file_locked :
  exists w',
    _do_stop env_pid_file_locked (Some 4242%N) (Some (MkPopen 4242)) w_running
    = (Raise (Exn PermissionError
                  "The process cannot access the file because it is being used by another process"),
       w')
    /\ _log_queue (mgr w') = ["Server stopped gracefully."]
    /\ trace w' = [EvTerminate 4242; EvWait 4242 5000; EvRemovePid]
    /\ mgr w' = MkManager (Some (MkPopen 4242)) (Some 4242%N) false
                          ["Server stopped gracefully."].
Proof. eexists. split; [vm_compute; reflexivity|]. repeat split. Qed.

(** X17: stop converges.  Whatever branch the stop worker took and
    whatever the window showed, if the deletion of the PID file goes
    through, the tick that reads the worker's lines ends with the status
    "Stopped", Start enabled, Stop disabled, the queue empty and the
    manager not running, provided no start is in flight and nothing else
    queued a sentinel. *)
Theorem stop_then_tick_shows_stopped
        (env : stop_env) (pid : option N) (proc : option Popen)
        (os : OS) (spawn : result Popen) (w : World) :
  removal_passes (se_remove env) ->
  _starting (mgr w) = false ->
  forallb plain_line (_log_queue (mgr w)) = true ->
  exists w1 w2,
    _do_stop env pid proc w = (Ok tt, w1)
    /\ _tick os spawn w1 = (Ok tt, w2)
    /\ status_label_text (ui w2) = "Stopped"
    /\ btn_start (ui w2) = true /\ btn_stop (ui w2) = false
    /\ _log_queue (mgr w2) = []
    /\ pid_file w2 = NoFile
    /\ is_running_of os (mgr w2) = false.
Proof.
  intros Hpass Hs Hplain.
  destruct (do_stop_result env pid proc w Hpass) as (msgs & tr & Hstop & Hmsgs).
  rewrite Hstop, Hs.
  set (w1 := MkWorld _ _ _ _).
  assert (Htick :
            exists w2,
              _tick os spawn w1 = (Ok tt, w2)
              /\ status_label_text (ui w2) = "Stopped"
              /\ btn_start (ui w2) = true /\ btn_stop (ui w2) = false
              /\ _log_queue (mgr w2) = []
              /\ pid_file w2 = NoFile
              /\ is_running_of os (mgr w2) = false).
  { unfold _tick, drain_logs. run.
    subst w1. cbn [mgr _log_queue].
    rewrite app_assoc, for_each_app. unfold bind at 1.
    rewrite (for_each_plain_lines os spawn).
    2:{ rewrite forallb_app, Hplain, Hmsgs. reflexivity. }
    cbn [for_each]. unfold bind at 1.
    change (_tick_line os spawn STOPPED) with (_set_status "stopped").
    match goal with
    | |- context [_set_status "stopped" ?w0] =>
        destruct (set_status_any "stopped" w0) as (u & -> & _ & Hlabel & Hstart & Hstop' & _)
    end.
    unfold ret at 1.
    match goal with
    | |- context [health_check os ?w0] =>
        rewrite (@health_check_idle os w0 eq_refl eq_refl eq_refl)
    end.
    cbn [mgr ui pid_file trace]. rewrite Hlabel.
    cbn [colors_get STATUS_COLORS snd String.eqb Ascii.eqb Bool.eqb negb andb].
    eexists. split; [reflexivity|].
    cbn [mgr ui pid_file trace add_event _log_queue]. rewrite Hlabel, Hstart, Hstop'.
    repeat split. }
  destruct Htick as (w2 & Htick & Hrest).
  exists w1, w2. split; [reflexivity|]. split; [exact Htick | exact Hrest].
Qed.

(** X17 on a child that ignores terminate, with the window on
    "Stopping...". *)
Lemma stop_then_tick_shows_stopped_witness :
  exists w1 w2,
    _do_stop env_child_hangs (Some 4242%N) (Some (MkPopen 4242))
             (MkWorld (MkManager (Some (MkPopen 4242)) (Some 4242%N) false [])
                      (panel_showing "Stopping...")
                      (Json (PyDict [("pid", PyInt 4242)])) [])
    = (Ok tt, w1)
    /\ _tick os_empty (Ok (MkPopen 1)) w1 = (Ok tt, w2)
    /\ status_label_text (ui w2) = "Stopped"
    /\ btn_start (ui w2) = true /\ btn_stop (ui w2) = false
    /\ _log_queue (mgr w2) = []
    /\ pid_file w2 = NoFile
    /\ is_running_of os_empty (mgr w2) = false.
Proof.
  apply (@stop_then_tick_shows_stopped env_child_hangs (Some 4242%N) (Some (MkPopen 4242))
           os_empty (Ok (MkPopen 1))); [exact I | reflexivity | reflexivity].
Defined.

(** X18: stop is idempotent.  Once the stop worker has finished with the
    PID file deleted, the manager is not running whatever the system then
    says, and a further [stop] is the logged no-op: no status change, no
    call, no worker. *)
Theorem stop_is_idempotent
        (env : stop_env) (pid : option N) (proc : option Popen) (os' : OS) (w : World) :
  removal_passes (se_remove env) ->
  exists w1 w2,
    _do_stop env pid proc w = (Ok tt, w1)
    /\ is_running_of os' (mgr w1) = false
    /\ stop os' w1 = (Ok tt, w2)
    /\ mgr w2 = mgr w1
    /\ pid_file w2 = pid_file w1
    /\ trace w2 = trace w1
    /\ status_label_text (ui w2) = status_label_text (ui w1).
Proof.
  intros Hpass.
  destruct (do_stop_result env pid proc w Hpass) as (msgs & tr & Hstop & _).
  rewrite Hstop.
  do 2 eexists. split; [reflexivity|]. split; [reflexivity|].
  split; [reflexivity|]. repeat split.
Qed.

(** X18 on a child that exits on terminate. *)
Lemma stop_is_idempotent_witness :
  exists w1 w2,
    _do_stop env_child_obeys (Some 4242%N) (Some (MkPopen 4242)) w_running = (Ok tt, w1)
    /\ is_running_of os_child_ready (mgr w1) = false
    /\ stop os_child_ready w1 = (Ok tt, w2)
    /\ mgr w2 = mgr w1
    /\ pid_file w2 = pid_file w1
    /\ trace w2 = trace w1
    /\ status_label_text (ui w2) = status_label_text (ui w1).
Proof.
  apply (@stop_is_idempotent env_child_obeys (Some 4242%N) (Some (MkPopen 4242))
           os_child_ready w_running).
  exact I.
Defined.

(** Take apart a branching point of the worker whose condition is fully
    exposed. *)
Ltac split_innermost :=
  match goal with
  | |- context [match ?x with _ => _ end] =>
      lazymatch x with
      | context [match _ with _ => _ end] => fail
      | _ => destruct x eqn:?
      end
  end;
  cbn [fst snd mgr ui pid_file trace process _pid _starting _log_queue popen_pid
       set_mgr set_ui set_pid_file add_event of_ps truthy_pid].

(** X19: the stop worker force-kills only after a re-validation, and
    only what it asked to terminate first.  A kill it sends means that the
    pid read by [stop], checked again once the grace wait was over, was
    still a live Python process, and that terminate and the 5 s wait did
    not both return normally; and the calls the worker made begin with the
    terminate of that same process, followed by the kill at once or with
    the 5 s wait alone in between. *)
Theorem do_stop_kills_only_after_revalidation
        (env : stop_env) (pid : option N) (proc : option Popen) (w : World) (k : N) :
  In (EvKill k) (trace (snd (_do_stop env pid proc w))) ->
  ~ In (EvKill k) (trace w) ->
  exists z mid after,
    pid = Some z
    /\ z <> 0%N
    /\ is_pid_alive (se_os_late env) z = true
    /\ ~ (se_terminate env = Ok tt /\ se_wait env = Ok tt)
    /\ trace (snd (_do_stop env pid proc w))
       = (trace w ++ EvTerminate k :: mid ++ EvKill k :: after)%list
    /\ (mid = [] \/ mid = [EvWait k 5000]).
Proof.
  intros Hin Hnot. revert Hin.
  unfold _do_stop, _do_stop_owned, _do_stop_adopted, try_finally, try_except.
  unfold remove_pid, os_remove, caught_by, existsb, try_except.
  run.
  destruct proc as [[c] |]; destruct pid as [z |];
    cbn [truthy_pid popen_pid];
    repeat split_innermost.
  all: intros Hin;
    repeat (apply in_app_or in Hin as [Hin | Hin]);
    try contradiction;
    destruct Hin as [Hin | []]; try discriminate Hin; injection Hin as <-.
  all: try match goal with
           | H : false = true |- _ => discriminate H
           | H : of_ps ?x = Raise ?e, H' : is_instance ?e _ = true |- _ =>
               destruct x as [? | []]; cbn in H; inversion H; subst; discriminate H'
           end.
  all: repeat match goal with
              | H : (_ && _) = true |- _ => apply andb_true_iff in H; destruct H
              end.
  all: try match goal with H : false = true |- _ => discriminate H end.
  all: first
         [ solve [ eexists _, [], _;
                   split; [reflexivity|];
                   split; [apply N.eqb_neq, negb_true_iff; assumption|];
                   split; [assumption|];
                   split; [intros [? ?]; congruence|];
                   split; [rewrite <- ?app_assoc; reflexivity | left; reflexivity] ]
         | solve [ eexists _, [EvWait _ 5000], _;
                   split; [reflexivity|];
                   split; [apply N.eqb_neq, negb_true_iff; assumption|];
                   split; [assumption|];
                   split; [intros [? ?]; congruence|];
                   split; [rewrite <- ?app_assoc; reflexivity | right; reflexivity] ] ].
Qed.

(** X19 on the child that ignores terminate. *)
Lemma do_stop_kills_only_after_revalidation_witness :
  exists z mid after,
    Some 4242%N = Some z
    /\ z <> 0%N
    /\ is_pid_alive (se_os_late env_child_hangs) z = true
    /\ ~ (se_terminate env_child_hangs = Ok tt /\ se_wait env_child_hangs = Ok tt)
    /\ trace (snd (_do_stop env_child_hangs (Some 4242%N) (Some (MkPopen 4242)) w_running))
       = (trace w_running ++ EvTerminate 4242 :: mid ++ EvKill 4242 :: after)%list
    /\ (mid = [] \/ mid = [EvWait 4242 5000]).
Proof.
  apply (@do_stop_kills_only_after_revalidation env_child_hangs (Some 4242%N)
           (Some (MkPopen 4242)) w_running 4242%N).
  - simpl. auto 10.
  - intros [].
Defined.

(* ------------------------------------------------------------------ *)
(** ** Detection on refresh *)

(** C3: on refresh the stale record is not deleted.  When the persisted
    record names a pid that is not alive and the manager does not itself
    track a dead pid, [refresh_state] reports "stopped" but makes no call
    to [remove_pid]: the record file is still there, naming the same pid.
    [_detect_existing], run on the same store, deletes it. *)
Theorem refresh_state_keeps_stale_record (os : OS) (w : World) (p : N) :
  record_names w p ->
  is_pid_alive os p = false ->
  tracked_is_dead os w = false ->
  exists w' w0,
    refresh_state os w = (Ok tt, w')
    /\ pid_file w' = pid_file w
    /\ record_names w' p
    /\ status_label_text (ui w') = "Stopped"
    /\ new_events w w' [EvConnect SERVER_PORT; EvStatus "stopped"]
    /\ _detect_existing os w = (Ok tt, w0)
    /\ pid_file w0 = NoFile.
Proof.
  intros Hrec Halive Hdead.
  destruct (detect_removes_dead_record os Hrec Halive)
    as (w0 & evs & Hdetect & Hgone & _).
  assert (Hrefresh :
            exists w',
              refresh_state os w = (Ok tt, w')
              /\ pid_file w' = pid_file w
              /\ status_label_text (ui w') = "Stopped"
              /\ new_events w w' [EvConnect SERVER_PORT; EvStatus "stopped"]).
  { clear w0 evs Hdetect Hgone. destruct Hrec as (kvs & Hfile & Hget).
    destruct w as [[proc pid starting queue] u file tr].
    unfold tracked_is_dead in Hdead. cbn in Hfile, Hdead. subst file.
    unfold refresh_state, new_events, _log, read_pid, load_pid_file, try_except, py_get,
      is_port_in_use, put, _status, _set_status, _update_buttons, is_pid_alive_py.
    run. rewrite Hdead. cbn [when]. run. rewrite Hget. unfold truthy.
    destruct (negb (Z.of_N p =? 0)).
    - rewrite as_pid_of_pid. run. rewrite Halive. run.
      destruct (os_connect os SERVER_PORT); cbn;
        eexists; (split; [reflexivity|]); cbn; rewrite <- ?app_assoc; repeat split.
    - run. destruct (os_connect os SERVER_PORT); cbn;
        eexists; (split; [reflexivity|]); cbn; rewrite <- ?app_assoc; repeat split. }
  destruct Hrefresh as (w' & Hrun & Hfile & Hlabel & Hevs).
  exists w', w0. repeat split; try assumption.
  destruct Hrec as (kvs & Hk & Hget). exists kvs. rewrite Hfile. auto.
Qed.

(** C3 on the scenario of the specification: the record [{"pid": 4242}]
    exists, no process 4242 does, and the operator refreshes. *)
Lemma refresh_state_keeps_stale_record_witness :
  exists w' w0,
    refresh_state os_empty w_stale_record = (Ok tt, w')
    /\ pid_file w' = Json (PyDict [("pid", PyInt 4242)])
    /\ record_names w' 4242%N
    /\ status_label_text (ui w') = "Stopped"
    /\ new_events w_stale_record w' [EvConnect SERVER_PORT; EvStatus "stopped"]
    /\ _detect_existing os_empty w_stale_record = (Ok tt, w0)
    /\ pid_file w0 = NoFile.
Proof.
  apply (@refresh_state_keeps_stale_record os_empty w_stale_record 4242%N).
  - exists [("pid", PyInt 4242)]. split; reflexivity.
  - reflexivity.
  - reflexivity.
Defined.

(* ------------------------------------------------------------------ *)
(** ** The restart worker and the control loop *)

Section CalmTicks.

Variables (os : OS) (spawn : result Popen) (starting : bool).



End CalmTicks.










Section AnyTick.

Variables (os : OS) (spawn : result Popen).




End AnyTick.



Section RestartWorker.

Variables (os : OS) (still_running : nat -> bool) (sched : nat -> list (OS * result Popen)).



End RestartWorker.


Section RestartOrder.

Variables (os : OS) (still_running : nat -> bool) (sched : nat -> list (OS * result Popen)).




End RestartOrder.

